(** * Minecraft Overviewer, textures.py: the block-sprite compositor

    A shallow embedding of [textures.py] (the atlas slicer, the affine
    projections, the two cube builders, the variant generator, the biome
    tinter and the sprite caches) together with the properties the
    specification states about them.

    Images are modelled as PIL has them: a mode, a size and the pixel
    storage.  Every operation whose pixel values come out of PIL's
    floating-point resampling code (resize, affine warp, free rotation,
    brightness blend, luma, line drawing) and the compositing helper of the
    repository's [composite] module keep their documented effect on mode and
    size, and take their pixel values from a kernel of the class [Kernels].
    Operations that only move or overwrite pixels (new, crop, transpose,
    split, putalpha, putpixel, rectangle fill) are written out.  The kernels
    are total; the exceptions modelled are those the program's own control
    flow and indexing can raise (IndexError, KeyError, UnboundLocalError),
    the mode and size checks of [split], [putalpha] and [colorize], the
    check [composite.alpha_over] makes of its mask (ValueError) and the
    colour [Image.new] refuses for a mode of one or two bands (TypeError). *)

From Stdlib Require Import ZArith Floats Lia Ascii.
From stdpp Require Import gmap strings list pretty.

Open Scope Z_scope.

(* Decimal literals such as 0.9 denote the nearest double, as in Python. *)
Set Warnings "-inexact-float".

(** ** Python results: a value or a raised exception *)

Inductive exn : Set :=
| IndexError | KeyError | ValueError | TypeError | UnboundLocalError | AssertionError
| IOError | Exception.

Inductive result (A : Type) : Type :=
| Ret (a : A)
| Raise (e : exn).
Arguments Ret {A} a.
Arguments Raise {A} e.

#[global] Instance result_ret : MRet result := @Ret.
#[global] Instance result_bind : MBind result :=
  λ A B f m, match m with Ret a => f a | Raise e => Raise e end.

Definition is_ret {A} (r : result A) : bool :=
  match r with Ret _ => true | Raise _ => false end.

(** Python's [l[i]]: negative indices count from the end, anything outside
    [-len l .. len l - 1] raises IndexError. *)
Definition getitem {A} (l : list A) (i : Z) : result A :=
  let n := Z.of_nat (length l) in
  let j := if i <? 0 then n + i else i in
  if (0 <=? j) && (j <? n)
  then match l !! Z.to_nat j with Some a => Ret a | None => Raise IndexError end
  else Raise IndexError.

(** Python's [l[i] = v] on a list. *)
Definition setitem {A} (l : list A) (i : Z) (v : A) : result (list A) :=
  let n := Z.of_nat (length l) in
  let j := if i <? 0 then n + i else i in
  if (0 <=? j) && (j <? n) then Ret (<[Z.to_nat j := v]> l) else Raise IndexError.

(** Python's [d[k]] on a dict. *)
Definition dict_get `{Countable K} {V} (d : gmap K V) (k : K) : result V :=
  match d !! k with Some v => Ret v | None => Raise KeyError end.

(** Python's [range(n)]. *)
Definition range (n : Z) : list Z := seqZ 0 n.

(** Python's [x in (a, b, ...)] for integers; [None] is in no tuple of
    integers. *)
Definition in_ints (o : option Z) (l : list Z) : bool :=
  match o with Some k => existsb (Z.eqb k) l | None => false end.

(** ** Images *)

Inductive Mode : Set := L | LA | RGB | RGBA.

Definition Mode_eqb (a b : Mode) : bool :=
  match a, b with
  | L, L | LA, LA | RGB, RGB | RGBA, RGBA => true
  | _, _ => false
  end.

(** Four storage slots per pixel, as PIL keeps them: [L] is (v,v,v,255),
    [LA] is (v,v,v,a), [RGB] is (r,g,b,255) and [RGBA] is (r,g,b,a). *)
Definition Pixel : Type := Z * Z * Z * Z.

Definition chan (k : nat) (p : Pixel) : Z :=
  match k with
  | O => p.1.1.1
  | 1%nat => p.1.1.2
  | 2%nat => p.1.2
  | _ => p.2
  end.

Definition rgb_of (p : Pixel) : Z * Z * Z := p.1.
Definition alpha_of (p : Pixel) : Z := chan 3 p.
Definition set_alpha (p : Pixel) (a : Z) : Pixel := (p.1, a).
Definition gray (v : Z) : Pixel := (v, v, v, 255).

Record Image : Type := mkImage {
  im_mode : Mode;
  im_size : Z * Z;
  im_px : Z → Z → Pixel
}.

Definition size_eqb (a b : Z * Z) : bool := (a.1 =? b.1) && (a.2 =? b.2).

Definition in_image (im : Image) (x y : Z) : bool :=
  (0 <=? x) && (x <? (im_size im).1) && (0 <=? y) && (y <? (im_size im).2).

(** Two images are the same picture when mode and size agree and the
    pixels inside the frame agree. *)
Definition same_image (a b : Image) : Prop :=
  im_mode a = im_mode b ∧ im_size a = im_size b ∧
  ∀ x y, in_image a x y = true → im_px a x y = im_px b x y.

Inductive Filter : Set := NEAREST | BILINEAR | BICUBIC | ANTIALIAS.
Inductive Flip : Set := FLIP_LEFT_RIGHT | FLIP_TOP_BOTTOM.

(** [pos_or_rect] of [composite.alpha_over]: a position or a rectangle. *)
Inductive PosOrRect : Set :=
| Pos (x y : Z)
| Rect (l u r d : Z).

(** ** The pixel kernels taken from the imaging back end *)

Class Kernels : Type := {
  (** [Image.resize]: the pixel at (x, y) of the image resized to a size *)
  resize_px : Filter → Image → Z * Z → Z → Z → Pixel;
  (** [Image.transform(size, AFFINE, data)], default (nearest) resampling *)
  affine_px : Image → Z * Z → list float → Z → Z → Pixel;
  (** [Image.transform(size, EXTENT, box, filter)] *)
  extent_px : Image → Z * Z → Z * Z * Z * Z → Filter → Z → Z → Pixel;
  (** [Image.rotate(angle, filter)], angle in degrees counter-clockwise *)
  rotate_px : Image → Z → Filter → Z → Z → Pixel;
  (** one byte through [ImageEnhance.Brightness.enhance(factor)] *)
  brightness_byte : float → Z → Z;
  (** the luma of [convert("L")] *)
  luma : Z * Z * Z → Z;
  (** one gray level through the lookup table of [ImageOps.colorize] *)
  colorize_lut : Z * Z * Z → Z * Z * Z → Z → Z * Z * Z;
  (** [ImageDraw.line]: the image's pixel at (x, y) after the line *)
  line_px : Image → list (Z * Z) → Pixel → Z → Z → Pixel;
  (** [composite.alpha_over(dest, src, pos_or_rect, mask)]: the pixel of
      [dest] at (x, y) afterwards; no mask means the source's own alpha *)
  alpha_over_px : Image → Image → PosOrRect → option Image → Z → Z → Pixel;
  (** whether [composite.alpha_over] also takes a source that is neither
      [RGB] nor [RGBA] and a destination that is not [RGBA], as its fallback
      on [Image.paste] does and its compiled extension does not *)
  lenient_modes : bool
}.

(** ** PIL *)

Module PIL.
Section WithKernels.
Context {K : Kernels}.

(** [Image.new(mode, size, color)] *)
Definition new (m : Mode) (sz : Z * Z) (color : Pixel) : Image :=
  mkImage m sz (λ _ _, color).

(** [Image.new(mode, size, color)] with the mode of another image and a
    colour of four numbers: a mode of one or two bands takes no such
    colour (TypeError). *)
Definition new_with_ink (m : Mode) (sz : Z * Z) (color : Pixel) : result Image :=
  match m with
  | L | LA => Raise TypeError
  | RGB | RGBA => Ret (new m sz color)
  end.

Definition copy (im : Image) : Image := im.

(** [im.convert(mode)] for the two targets the program and ImageOps use *)
Definition convert (im : Image) (m : Mode) : Image :=
  match m with
  | RGB => mkImage RGB (im_size im) (λ x y, set_alpha (im_px im x y) 255)
  | L =>
      match im_mode im with
      | L => im
      | _ => mkImage L (im_size im) (λ x y, gray (luma (rgb_of (im_px im x y))))
      end
  | _ => mkImage m (im_size im) (im_px im)
  end.

Definition band (im : Image) (k : nat) : Image :=
  mkImage L (im_size im) (λ x y, gray (chan k (im_px im x y))).

(** [im.split()]: one [L] image per band *)
Definition split (im : Image) : list Image :=
  match im_mode im with
  | L => [im]
  | LA => [band im 0; band im 3]
  | RGB => [band im 0; band im 1; band im 2]
  | RGBA => [band im 0; band im 1; band im 2; band im 3]
  end.

(** [im.putalpha(alpha)] with an image argument; [im] is promoted to the
    matching alpha mode first *)
Definition putalpha (im alpha : Image) : result Image :=
  let m := match im_mode im with L | LA => LA | RGB | RGBA => RGBA end in
  if negb (Mode_eqb (im_mode alpha) L) then Raise ValueError
  else if negb (size_eqb (im_size im) (im_size alpha)) then Raise ValueError
  else Ret (mkImage m (im_size im)
              (λ x y, set_alpha (im_px im x y) (chan 0 (im_px alpha x y)))).

Definition transpose (im : Image) (f : Flip) : Image :=
  let w := (im_size im).1 in
  let h := (im_size im).2 in
  mkImage (im_mode im) (im_size im)
    (λ x y, match f with
            | FLIP_LEFT_RIGHT => im_px im (w - 1 - x) y
            | FLIP_TOP_BOTTOM => im_px im x (h - 1 - y)
            end).

(** [im.crop((l, u, r, d))]; what lies outside the source is zero *)
Definition crop (im : Image) (box : Z * Z * Z * Z) : Image :=
  let '(l, u, r, d) := box in
  mkImage (im_mode im) (r - l, d - u)
    (λ x y, if in_image im (x + l) (y + u) then im_px im (x + l) (y + u)
            else (0, 0, 0, 0)).

Definition resize (im : Image) (sz : Z * Z) (f : Filter) : Image :=
  mkImage (im_mode im) sz (resize_px f im sz).

Definition transform_affine (im : Image) (sz : Z * Z) (data : list float) : Image :=
  mkImage (im_mode im) sz (affine_px im sz data).

Definition transform_extent (im : Image) (sz : Z * Z) (box : Z * Z * Z * Z)
    (f : Filter) : Image :=
  mkImage (im_mode im) sz (extent_px im sz box f).

(** [im.rotate(angle, filter)] without expansion: the quarter turns of
    the unfiltered path swap the sides, every other turn keeps the size *)
Definition rotate (im : Image) (angle : Z) (f : Filter) : Image :=
  let quarter := match f with
                 | NEAREST => (angle mod 360 =? 90) || (angle mod 360 =? 270)
                 | _ => false
                 end in
  mkImage (im_mode im)
    (if quarter then ((im_size im).2, (im_size im).1) else im_size im)
    (rotate_px im angle f).

Definition getpixel (im : Image) (xy : Z * Z) : result Pixel :=
  if in_image im xy.1 xy.2 then Ret (im_px im xy.1 xy.2) else Raise IndexError.

Definition putpixel (im : Image) (xy : Z * Z) (v : Pixel) : result Image :=
  if in_image im xy.1 xy.2
  then Ret (mkImage (im_mode im) (im_size im)
              (λ x y, if (x =? xy.1) && (y =? xy.2) then v else im_px im x y))
  else Raise IndexError.

(** [ImageEnhance.Brightness(im).enhance(factor)]: a blend with black of
    every band, the alpha band included *)
Definition enhance_brightness (im : Image) (factor : float) : Image :=
  mkImage (im_mode im) (im_size im)
    (λ x y, let p := im_px im x y in
            (brightness_byte factor (chan 0 p), brightness_byte factor (chan 1 p),
             brightness_byte factor (chan 2 p), brightness_byte factor (chan 3 p))).

(** [ImageOps.grayscale] *)
Definition grayscale (im : Image) : Image := convert im L.

(** [ImageOps.colorize(image, black, white)]: asserts an [L] image and
    returns an [RGB] one *)
Definition colorize (im : Image) (black white : Z * Z * Z) : result Image :=
  if Mode_eqb (im_mode im) L
  then Ret (mkImage RGB (im_size im)
              (λ x y, (colorize_lut black white (chan 0 (im_px im x y)), 255)))
  else Raise AssertionError.

(** [ImageDraw.Draw(im).rectangle((x0, y0, x1, y1), outline, fill)]: both
    corners belong to the rectangle *)
Definition rectangle (im : Image) (box : Z * Z * Z * Z) (outline fill : Pixel) : Image :=
  let '(x0, y0, x1, y1) := box in
  mkImage (im_mode im) (im_size im)
    (λ x y, if (x0 <=? x) && (x <=? x1) && (y0 <=? y) && (y <=? y1)
            then if (x =? x0) || (x =? x1) || (y =? y0) || (y =? y1)
                 then outline else fill
            else im_px im x y).

(** [ImageDraw.Draw(im).line(points, fill)] *)
Definition line (im : Image) (pts : list (Z * Z)) (fill : Pixel) : Image :=
  mkImage (im_mode im) (im_size im) (line_px im pts fill).

End WithKernels.
End PIL.

(** ** composite *)

Module composite.
Section WithKernels.
Context {K : Kernels}.

(** The mask [composite.alpha_over] takes: an [RGBA] or [L] image of the
    size of the source. *)
Definition mask_ok (src mask : Image) : bool :=
  (Mode_eqb (im_mode mask) RGBA || Mode_eqb (im_mode mask) L)
  && size_eqb (im_size mask) (im_size src).

(** The modes every back end of [composite.alpha_over] takes: an [RGBA]
    destination and an [RGB] or [RGBA] source. *)
Definition modes_ok (dest src : Image) : bool :=
  Mode_eqb (im_mode dest) RGBA
  && (Mode_eqb (im_mode src) RGBA || Mode_eqb (im_mode src) RGB).

(** [composite.alpha_over(dest, src, pos_or_rect, mask)] changes [dest]
    in place: same object, same mode and size, new pixels.  No mask means
    the source itself as the mask.  A mask of another mode or another size
    than [mask_ok] allows raises ValueError, and so do modes the back end
    does not take.  (The rectangles [textures.py] passes have the size of
    their source.) *)
Definition alpha_over (dest src : Image) (pos : PosOrRect) (mask : option Image)
    : result Image :=
  if mask_ok src (default src mask) && (modes_ok dest src || lenient_modes)
  then Ret (mkImage (im_mode dest) (im_size dest) (alpha_over_px dest src pos mask))
  else Raise ValueError.

End WithKernels.
End composite.

(** ** numpy: 3x3 matrices of doubles *)

Module numpy.
Definition matrix : Type := list (list float).

Definition identity3 : matrix :=
  [[1; 0; 0]; [0; 1; 0]; [0; 0; 1]]%float.

Definition column (j : nat) (m : matrix) : list float :=
  map (λ r, nth j r 0%float) m.

Definition dot (r c : list float) : float :=
  fold_left (λ acc ab, (acc + ab.1 * ab.2)%float) (combine r c) 0%float.

(** [a * b] on [numpy.matrix] *)
Definition mul (a b : matrix) : matrix :=
  map (λ r, map (λ j, dot r (column j b)) [0; 1; 2]%nat) a.

(** [numpy.array(m)[:2,:].ravel().tolist()] *)
Definition ravel2 (m : matrix) : list float := concat (take 2 m).
End numpy.

(** ** textures.py *)

(** The image files the program opens through [_find_file]. *)
Record Files : Type := mkFiles {
  terrain_png : Image;
  water_png : Image;
  lava_png : Image;
  fire_png : Image
}.

(** A sprite as the caches keep it: the first component is the picture,
    the second what the entry stores beside it. *)
Abbreviation Sprite := (Image * Image)%type.

(** The tuples the block map refers to, in the order they were made; a
    reference is a position in this store.  Two slots of the map that hold
    one reference hold the very same tuple. *)
Abbreviation Heap := (list Sprite).

(** The fill of every fresh canvas: [(38,92,255,0)]. *)
Definition bgcolor : Pixel := (38, 92, 255, 0).

(** [math.cos(math.pi/4)] as a double *)
Definition cos_quarter_pi : float := 0x1.6a09e667f3bcdp-1%float.

(** A [for] loop whose body may raise. *)
Fixpoint for_each {A S} (body : S → A → result S) (l : list A) (s : S) : result S :=
  match l with
  | [] => Ret s
  | a :: l => s' ← body s a; for_each body l s'
  end.

Section Textures.
Context {K : Kernels} (files : Files).

(** [_load_image(filename)]: a file that is not there raises IOError. *)
Definition _load_image (filename : string) : result Image :=
  if String.eqb filename "terrain.png" then Ret (terrain_png files)
  else if String.eqb filename "water.png" then Ret (water_png files)
  else if String.eqb filename "lava.png" then Ret (lava_png files)
  else if String.eqb filename "fire.png" then Ret (fire_png files)
  else Raise IOError.

Definition _get_terrain_image : result Image := _load_image "terrain.png".

(** [_split_terrain(terrain)]: the 256 cells, row by row *)
Definition _split_terrain (terrain : Image) : list Image :=
  let terrain_width := (im_size terrain).1 in
  let texture_resolution := terrain_width / 16 in
  y ← seqZ 0 16;
  x ← seqZ 0 16;
  let left := x * texture_resolution in
  let upper := y * texture_resolution in
  let right := left + texture_resolution in
  let lower := upper + texture_resolution in
  [PIL.transform_extent terrain (16, 16) (left, upper, right, lower) BICUBIC].

(** The module-level [terrain_images], once [_get_terrain_image] has
    returned the atlas. *)
Definition terrain_images : list Image := _split_terrain (terrain_png files).

(** [transform_image(img, blockID=None)] *)
Definition transform_image (img : Image) (blockID : option Z) : Image :=
  let img :=
    if in_ints blockID [81; 92]
    then PIL.resize img (15, 15) ANTIALIAS
    else PIL.resize img (17, 17) ANTIALIAS in
  let transform := numpy.identity3 in
  let transform := numpy.mul transform [[1; 0; 8.5]; [0; 1; 8.5]; [0; 0; 1]]%float in
  let ratio := cos_quarter_pi in
  let transform :=
    numpy.mul transform [[ratio; - ratio; 0]; [ratio; ratio; 0]; [0; 0; 1]]%float in
  let transform := numpy.mul transform [[1; 0; -12]; [0; 1; -12]; [0; 0; 1]]%float in
  let transform := numpy.mul transform [[1; 0; 0]; [0; 2; 0]; [0; 0; 1]]%float in
  let transform := numpy.ravel2 transform in
  PIL.transform_affine img (24, 12) transform.

(** [transform_image_side(img, blockID=None)] *)
Definition transform_image_side (img : Image) (blockID : option Z) : result Image :=
  img ←
    (if in_ints blockID [44]
     then
       let mask := PIL.crop img (0, 8, 16, 16) in
       n ← PIL.new_with_ink (im_mode img) (im_size img) bgcolor;
       composite.alpha_over n mask (Rect 0 0 16 8) (Some mask)
     else Ret img);
  img ←
    (if in_ints blockID [78]
     then
       let mask := PIL.crop img (0, 12, 16, 16) in
       n ← PIL.new_with_ink (im_mode img) (im_size img) bgcolor;
       composite.alpha_over n mask (Rect 0 12 16 16) (Some mask)
     else Ret img);
  let img := PIL.resize img (12, 12) ANTIALIAS in
  let transform := numpy.identity3 in
  let transform := numpy.mul transform [[1; 0; 0]; [-0.5; 1; 0]; [0; 0; 1]]%float in
  let transform := numpy.ravel2 transform in
  Ret (PIL.transform_affine img (12, 18) transform).

(** [transform_image_slope(img, blockID=None)] *)
Definition transform_image_slope (img : Image) (blockID : option Z) : Image :=
  let img := PIL.resize img (12, 12) ANTIALIAS in
  let transform := numpy.identity3 in
  let transform :=
    numpy.mul transform [[0.75; -0.5; 3]; [0.25; 0.5; -3]; [0; 0; 1]]%float in
  let transform := numpy.ravel2 transform in
  PIL.transform_affine img (24, 24) transform.

(** The darkening idiom of the builders: save the alpha band, scale the
    brightness, put the saved band back. *)
Definition darken (side : Image) (factor : float) : result Image :=
  sidealpha ← getitem (PIL.split side) 3;
  PIL.putalpha (PIL.enhance_brightness side factor) sidealpha.

(** [_build_block], lines 212-224: the two side faces, sheared, mirrored
    and darkened. *)
Definition _build_block_sides (side : Image) (blockID : option Z)
    : result (Image * Image) :=
  side ← transform_image_side side blockID;
  let otherside := PIL.transpose side FLIP_LEFT_RIGHT in
  side ← darken side 0.9;
  otherside ← darken otherside 0.8;
  Ret (side, otherside).

(** [_build_block], lines 257-264: the six seam pixels. *)
Definition touch_up (img : Image) : result Image :=
  img ← for_each (λ img xy, v ← PIL.getpixel img (xy.1 - 1, xy.2);
                            PIL.putpixel img xy v)
        [(13, 23); (17, 21); (21, 19)] img;
  for_each (λ img xy, v ← PIL.getpixel img (xy.1 + 1, xy.2);
                      PIL.putpixel img xy v)
    [(3, 4); (7, 2); (11, 0)] img.

(** [_build_block(top, side, blockID=None)] *)
Definition _build_block (top : Image) (side : option Image) (blockID : option Z)
    : result Image :=
  let img := PIL.new RGBA (24, 24) bgcolor in
  let top := transform_image top blockID in
  match side with
  | None => composite.alpha_over img top (Pos 0 0) (Some top)
  | Some side =>
      '(side, otherside) ← _build_block_sides side blockID;
      if in_ints blockID [37; 38; 6; 39; 40; 83]
      then
        img ← composite.alpha_over img side (Pos 6 3) (Some side);
        composite.alpha_over img otherside (Pos 6 3) (Some otherside)
      else
        img ←
          (if in_ints blockID [81]
           then
             img ← composite.alpha_over img side (Pos 2 6) (Some side);
             img ← composite.alpha_over img otherside (Pos 10 6) (Some otherside);
             composite.alpha_over img top (Pos 0 2) (Some top)
           else if in_ints blockID [44]
           then
             img ← composite.alpha_over img side (Pos 0 12) (Some side);
             img ← composite.alpha_over img otherside (Pos 12 12) (Some otherside);
             composite.alpha_over img top (Pos 0 6) (Some top)
           else if in_ints blockID [78]
           then
             img ← composite.alpha_over img side (Pos 0 6) (Some side);
             img ← composite.alpha_over img otherside (Pos 12 6) (Some otherside);
             composite.alpha_over img top (Pos 0 9) (Some top)
           else
             img ← composite.alpha_over img side (Pos 0 6) (Some side);
             img ← composite.alpha_over img otherside (Pos 12 6) (Some otherside);
             composite.alpha_over img top (Pos 0 0) (Some top));
        touch_up img
  end.

(** One optional face of [_build_full_block]: shear it, mirror it when the
    face is a mirrored one, darken it and lay it on the canvas. *)
Definition side_face (img : Image) (side : option Image) (blockID : option Z)
    (mirror : bool) (factor : float) (pos : PosOrRect) : result Image :=
  match side with
  | None => Ret img
  | Some side =>
      side ← transform_image_side side blockID;
      let side := if mirror then PIL.transpose side FLIP_LEFT_RIGHT else side in
      side ← darken side factor;
      composite.alpha_over img side pos (Some side)
  end.

(** [_build_full_block(top, side1, side2, side3, side4, bottom=None,
    blockID=None)] *)
Definition _build_full_block (top side1 side2 side3 side4 bottom : option Image)
    (blockID : option Z) : result Image :=
  let img := PIL.new RGBA (24, 24) bgcolor in
  img ← side_face img side1 blockID true 0.9 (Pos 0 0);
  img ← side_face img side2 blockID false 0.8 (Pos 12 0);
  img ←
    match bottom with
    | None => Ret img
    | Some bottom =>
        let bottom := transform_image bottom blockID in
        composite.alpha_over img bottom (Pos 0 12) top
    end;
  img ← side_face img side3 blockID false 0.9 (Pos 0 6);
  img ← side_face img side4 blockID true 0.8 (Pos 12 6);
  match top with
  | None => Ret img
  | Some top =>
      let top := transform_image top blockID in
      composite.alpha_over img top (Pos 0 0) (Some top)
  end.

(** [tintTexture(im, c)] *)
Definition tintTexture (im : Image) (c : Z * Z * Z) : result Image :=
  i ← PIL.colorize (PIL.grayscale im) (0, 0, 0) c;
  alpha ← getitem (PIL.split im) 3;
  PIL.putalpha i alpha.

(** The value every branch of the generator returns:
    [(img.convert("RGB"), img.split()[3])]. *)
Definition rgb_and_alpha (img : Image) : result Sprite :=
  let rgb := PIL.convert img RGB in
  alpha ← getitem (PIL.split img) 3;
  Ret (rgb, alpha).


(** *** The variant generator

    [generate_special_texture] is a sequence of [if] statements, one per
    kind or family of kinds.  Each of them is a definition below: it gives
    [Some sprite] when it executes a [return], [None] when control leaves it
    for the statement that follows, and raises what it raises. *)

Definition returns (img : Image) : result (option Sprite) :=
  s ← rgb_and_alpha img; Ret (Some s).

(** lines 434-437 *)
Definition special_grass (blockID data : Z) : result (option Sprite) :=
  if blockID =? 2 then
    t ← getitem terrain_images 0;
    top ← tintTexture t (115, 175, 71);
    side ← getitem terrain_images 3;
    img ← _build_block top (Some side) (Some 2);
    returns img
  else Ret None.

(** lines 440-454: the [else] belongs to the test [data == 2] alone, so
    what [data == 1] assigned is assigned again. *)
Definition special_saplings (blockID data : Z) : result (option Sprite) :=
  if blockID =? 6 then
    spruce ← (if data =? 1
              then toptexture ← getitem terrain_images 63;
                   sidetexture ← getitem terrain_images 63;
                   Ret (Some (toptexture, sidetexture))
              else Ret None);
    '(toptexture, sidetexture) ←
      (if data =? 2
       then toptexture ← getitem terrain_images 79;
            sidetexture ← getitem terrain_images 79;
            Ret (toptexture, sidetexture)
       else toptexture ← getitem terrain_images 15;
            sidetexture ← getitem terrain_images 15;
            Ret (toptexture, sidetexture));
    img ← _build_block toptexture (Some sidetexture) (Some blockID);
    returns img
  else Ret None.

(** lines 457-484 *)
Definition special_water (blockID data : Z) : result (option Sprite) :=
  if blockID =? 9 then
    watertexture ← _load_image "water.png";
    let top := if Z.land data 16 =? 16 then Some watertexture else None in
    let side1 := if Z.land data 1 =? 1 then Some watertexture else None in
    let side2 := if Z.land data 8 =? 8 then Some watertexture else None in
    let side3 := if Z.land data 2 =? 2 then Some watertexture else None in
    let side4 := if Z.land data 4 =? 4 then Some watertexture else None in
    img ← _build_full_block top side1 side2 side3 side4 None None;
    returns img
  else Ret None.

(** lines 487-500: no [return] for any other [data] *)
Definition special_wood (blockID data : Z) : result (option Sprite) :=
  if blockID =? 17 then
    top ← getitem terrain_images 21;
    if data =? 0 then
      side ← getitem terrain_images 20;
      img ← _build_block top (Some side) (Some 17);
      returns img
    else if data =? 1 then
      side ← getitem terrain_images 116;
      img ← _build_block top (Some side) (Some 17);
      returns img
    else if data =? 2 then
      side ← getitem terrain_images 117;
      img ← _build_block top (Some side) (Some 17);
      returns img
    else Ret None
  else Ret None.

(** lines 503-506 *)
Definition special_leaves (blockID data : Z) : result (option Sprite) :=
  if blockID =? 18 then
    t ← getitem terrain_images 52;
    t ← tintTexture t (37, 118, 25);
    img ← _build_block t (Some t) (Some 18);
    returns img
  else Ret None.

(** The three faces of the dispenser, the furnaces and the pumpkins, laid
    on a fresh canvas (lines 513-518, 856-861, 869-874, 1138-1143). *)
Definition three_faces (top side1 side2 : Image) : result (option Sprite) :=
  let img := PIL.new RGBA (24, 24) bgcolor in
  img ← composite.alpha_over img side1 (Pos 0 6) (Some side1);
  img ← composite.alpha_over img side2 (Pos 12 6) (Some side2);
  img ← composite.alpha_over img top (Pos 0 0) (Some top);
  returns img.

(** lines 508-518 *)
Definition special_dispenser (blockID data : Z) : result (option Sprite) :=
  if blockID =? 23 then
    t ← getitem terrain_images 62;
    let top := transform_image t None in
    t ← getitem terrain_images 46;
    side1 ← transform_image_side t None;
    t ← getitem terrain_images 45;
    side2 ← transform_image_side t None;
    let side2 := PIL.transpose side2 FLIP_LEFT_RIGHT in
    three_faces top side1 side2
  else Ret None.

(** One colour of wool (lines 523-525 and the fifteen like them). *)
Definition wool (tile : Z) : result (option Sprite) :=
  top ← getitem terrain_images tile;
  let side := top in
  img ← _build_block top (Some side) (Some 35);
  returns img.

(** lines 521-585 *)
Definition special_wool (blockID data : Z) : result (option Sprite) :=
  if blockID =? 35 then
    if data =? 0 then wool 64
    else if data =? 1 then wool 210
    else if data =? 2 then wool 194
    else if data =? 3 then wool 178
    else if data =? 4 then wool 162
    else if data =? 5 then wool 146
    else if data =? 6 then wool 130
    else if data =? 7 then wool 114
    else if data =? 8 then wool 225
    else if data =? 9 then wool 209
    else if data =? 10 then wool 193
    else if data =? 11 then wool 177
    else if data =? 12 then wool 161
    else if data =? 13 then wool 145
    else if data =? 14 then wool 129
    else if data =? 15 then wool 113
    else Ret None
  else Ret None.

(** lines 588-610 *)
Definition special_slabs (blockID data : Z) : result (option Sprite) :=
  if (blockID =? 43) || (blockID =? 44) then
    if data =? 0 then
      top ← getitem terrain_images 6;
      side ← getitem terrain_images 5;
      img ← _build_block top (Some side) (Some blockID);
      returns img
    else if data =? 1 then
      top ← getitem terrain_images 176;
      side ← getitem terrain_images 192;
      img ← _build_block top (Some side) (Some blockID);
      returns img
    else if data =? 2 then
      top ← getitem terrain_images 4;
      img ← _build_block top (Some top) (Some blockID);
      returns img
    else if data =? 3 then
      top ← getitem terrain_images 16;
      img ← _build_block top (Some top) (Some blockID);
      returns img
    else Ret None
  else Ret None.

(** lines 613-663: [img] is assigned under [data] 1 to 5 only, and the
    [return] at the end reads it whatever [data] is. *)
Definition special_torches (blockID data : Z) : result (option Sprite) :=
  if (blockID =? 50) || (blockID =? 75) || (blockID =? 76) then
    small ← (if blockID =? 50 then getitem terrain_images 80
             else if blockID =? 75 then getitem terrain_images 115
             else getitem terrain_images 99);
    let torch := PIL.new RGBA (16, 16) bgcolor in
    torch ← composite.alpha_over torch small (Pos (-4) (-3)) None;
    torch ← composite.alpha_over torch small (Pos (-5) (-2)) None;
    torch ← composite.alpha_over torch small (Pos (-3) (-2)) None;
    let rotation := 15 in
    img ←
      (if data =? 1 then
         let torch := PIL.rotate torch (- rotation) NEAREST in
         _build_full_block None None None (Some torch) None None (Some blockID)
       else if data =? 2 then
         let torch := PIL.rotate torch rotation NEAREST in
         _build_full_block None None (Some torch) None None None (Some blockID)
       else if data =? 3 then
         let torch := PIL.rotate torch rotation NEAREST in
         _build_full_block None (Some torch) None None None None (Some blockID)
       else if data =? 4 then
         let torch := PIL.rotate torch (- rotation) NEAREST in
         _build_full_block None None None None (Some torch) None (Some blockID)
       else if data =? 5 then
         let img := PIL.new RGBA (24, 24) bgcolor in
         let small_crop := PIL.crop small (2, 2, 14, 14) in
         let slice := PIL.copy small_crop in
         let slice := PIL.rectangle slice (6, 0, 12, 12) (0, 0, 0, 0) (0, 0, 0, 0) in
         let slice := PIL.rectangle slice (0, 0, 4, 12) (0, 0, 0, 0) (0, 0, 0, 0) in
         img ← composite.alpha_over img slice (Pos 6 4) None;
         img ← composite.alpha_over img small_crop (Pos 5 5) None;
         img ← composite.alpha_over img small_crop (Pos 6 5) None;
         img ← composite.alpha_over img slice (Pos 6 6) None;
         Ret img
       else Raise UnboundLocalError);
    returns img
  else Ret None.

(** lines 666-679 *)
Definition special_fire (blockID data : Z) : result (option Sprite) :=
  if blockID =? 51 then
    firetexture ← _load_image "fire.png";
    side1 ← transform_image_side firetexture None;
    side2 ← transform_image_side firetexture None;
    let side2 := PIL.transpose side2 FLIP_LEFT_RIGHT in
    let img := PIL.new RGBA (24, 24) bgcolor in
    img ← composite.alpha_over img side1 (Pos 12 0) (Some side1);
    img ← composite.alpha_over img side2 (Pos 0 0) (Some side2);
    img ← composite.alpha_over img side1 (Pos 0 6) (Some side1);
    img ← composite.alpha_over img side2 (Pos 12 6) (Some side2);
    returns img
  else Ret None.

(** The five partial tiles of the stairs (lines 690-701): the side with its
    upper left corner cut out, and the upper, lower, left and right halves. *)
Definition stairs_parts (texture : Image) : Image * Image * Image * Image * Image :=
  let clear := (0, 0, 0, 0) in
  let side := PIL.copy texture in
  let half_block_u := PIL.copy texture in
  let half_block_d := PIL.copy texture in
  let half_block_l := PIL.copy texture in
  let half_block_r := PIL.copy texture in
  let side := PIL.rectangle side (0, 0, 7, 6) clear clear in
  let half_block_u := PIL.rectangle half_block_u (0, 8, 15, 15) clear clear in
  let half_block_d := PIL.rectangle half_block_d (0, 0, 15, 6) clear clear in
  let half_block_l := PIL.rectangle half_block_l (8, 0, 15, 15) clear clear in
  let half_block_r := PIL.rectangle half_block_r (0, 0, 7, 15) clear clear in
  (side, half_block_u, half_block_d, half_block_l, half_block_r).

(** lines 682-748: as for the torches, [img] exists under [data] 0 to 3
    only. *)
Definition special_stairs (blockID data : Z) : result (option Sprite) :=
  if (blockID =? 53) || (blockID =? 67) then
    texture ← (if blockID =? 53 then getitem terrain_images 4
               else if blockID =? 67 then getitem terrain_images 16
               else Raise UnboundLocalError);
    let '(side, half_block_u, half_block_d, half_block_l, half_block_r) :=
      stairs_parts texture in
    img ←
      (if data =? 0 then
         img ← _build_full_block (Some half_block_r) None None (Some half_block_d)
                 (Some (PIL.transpose side FLIP_LEFT_RIGHT)) None None;
         tmp1 ← transform_image_side half_block_u None;
         tmp1 ← darken tmp1 0.8;
         img ← composite.alpha_over img tmp1 (Pos 6 3) None;
         let tmp2 := transform_image half_block_l None in
         img ← composite.alpha_over img tmp2 (Pos 0 6) None;
         Ret img
       else if data =? 1 then
         let img := PIL.new RGBA (24, 24) bgcolor in
         let tmp1 := transform_image half_block_r None in
         img ← composite.alpha_over img tmp1 (Pos 0 6) None;
         tmp2 ← _build_full_block (Some half_block_l) None None (Some texture)
                  (Some side) None None;
         img ← composite.alpha_over img tmp2 (Pos 0 0) None;
         Ret img
       else if data =? 2 then
         let img := PIL.new RGBA (24, 24) bgcolor in
         let tmp1 := transform_image half_block_u None in
         img ← composite.alpha_over img tmp1 (Pos 0 6) None;
         tmp2 ← _build_full_block (Some half_block_d) None None (Some side)
                  (Some texture) None None;
         img ← composite.alpha_over img tmp2 (Pos 0 0) None;
         Ret img
       else if data =? 3 then
         img ← _build_full_block (Some half_block_u) None None
                 (Some (PIL.transpose side FLIP_LEFT_RIGHT)) (Some half_block_d)
                 None None;
         tmp1 ← transform_image_side half_block_u None;
         let tmp1 := PIL.transpose tmp1 FLIP_LEFT_RIGHT in
         tmp1 ← darken tmp1 0.7;
         img ← composite.alpha_over img tmp1 (Pos 6 3) None;
         let tmp2 := transform_image half_block_d None in
         img ← composite.alpha_over img tmp2 (Pos 0 6) None;
         PIL.putpixel img (18, 3) (0, 0, 0, 0)
       else Raise UnboundLocalError);
    returns img
  else Ret None.

(** Redstone wire, lines 753-766: the straight and the cross tile, tinted
    red when bit 64 of [data] is set and dark red when it is not. *)
Definition redstone_tiles (data : Z) : result (Image * Image) :=
  if Z.land data 64 =? 64 then
    redstone_wire_t ← getitem terrain_images 165;
    redstone_wire_t ← tintTexture redstone_wire_t (255, 0, 0);
    redstone_cross_t ← getitem terrain_images 164;
    redstone_cross_t ← tintTexture redstone_cross_t (255, 0, 0);
    Ret (redstone_wire_t, redstone_cross_t)
  else
    redstone_wire_t ← getitem terrain_images 165;
    redstone_wire_t ← tintTexture redstone_wire_t (48, 0, 0);
    redstone_cross_t ← getitem terrain_images 164;
    redstone_cross_t ← tintTexture redstone_cross_t (48, 0, 0);
    Ret (redstone_wire_t, redstone_cross_t).

(** Redstone wire, lines 768-811: the four branch images cut out of the
    cross, and the bottom texture chosen by the connectivity bits. *)
Definition redstone_bottom (redstone_wire_t redstone_cross_t : Image) (data : Z)
    : result Image :=
  let clear := (0, 0, 0, 0) in
  let branch_top_left := PIL.copy redstone_cross_t in
  let branch_top_left := PIL.rectangle branch_top_left (0, 0, 4, 15) clear clear in
  let branch_top_left := PIL.rectangle branch_top_left (11, 0, 15, 15) clear clear in
  let branch_top_left := PIL.rectangle branch_top_left (0, 11, 15, 15) clear clear in
  let branch_top_right := PIL.copy redstone_cross_t in
  let branch_top_right := PIL.rectangle branch_top_right (0, 0, 15, 4) clear clear in
  let branch_top_right := PIL.rectangle branch_top_right (0, 0, 4, 15) clear clear in
  let branch_top_right := PIL.rectangle branch_top_right (0, 11, 15, 15) clear clear in
  let branch_bottom_right := PIL.copy redstone_cross_t in
  let branch_bottom_right := PIL.rectangle branch_bottom_right (0, 0, 15, 4) clear clear in
  let branch_bottom_right := PIL.rectangle branch_bottom_right (0, 0, 4, 15) clear clear in
  let branch_bottom_right := PIL.rectangle branch_bottom_right (11, 0, 15, 15) clear clear in
  let branch_bottom_left := PIL.copy redstone_cross_t in
  let branch_bottom_left := PIL.rectangle branch_bottom_left (0, 0, 15, 4) clear clear in
  let branch_bottom_left := PIL.rectangle branch_bottom_left (11, 0, 15, 15) clear clear in
  let branch_bottom_left := PIL.rectangle branch_bottom_left (0, 11, 15, 15) clear clear in
  if Z.land data 63 =? 0 then Ret (PIL.copy redstone_cross_t)
  else if Z.land data 15 =? 10 then Ret (PIL.copy redstone_wire_t)
  else if Z.land data 15 =? 5 then Ret (PIL.rotate (PIL.copy redstone_wire_t) 90 NEAREST)
  else
    let bottom := PIL.new RGBA (16, 16) bgcolor in
    bottom ←
      (if Z.land data 1 =? 1
       then composite.alpha_over bottom branch_top_left (Pos 0 0) None else Ret bottom);
    bottom ←
      (if Z.land data 8 =? 8
       then composite.alpha_over bottom branch_top_right (Pos 0 0) None else Ret bottom);
    bottom ←
      (if Z.land data 2 =? 2
       then composite.alpha_over bottom branch_bottom_left (Pos 0 0) None else Ret bottom);
    bottom ←
      (if Z.land data 4 =? 4
       then composite.alpha_over bottom branch_bottom_right (Pos 0 0) None else Ret bottom);
    Ret bottom.

(** lines 751-826 *)
Definition special_redstone (blockID data : Z) : result (option Sprite) :=
  if blockID =? 55 then
    '(redstone_wire_t, redstone_cross_t) ← redstone_tiles data;
    bottom ← redstone_bottom redstone_wire_t redstone_cross_t data;
    let side1 :=
      if Z.land data 32 =? 32 then Some (PIL.rotate redstone_wire_t 90 NEAREST) else None in
    let side2 :=
      if Z.land data 16 =? 16 then Some (PIL.rotate redstone_wire_t 90 NEAREST) else None in
    img ← _build_full_block None side1 side2 None None (Some bottom) None;
    returns img
  else Ret None.

(** lines 829-835 *)
Definition special_crafting_table (blockID data : Z) : result (option Sprite) :=
  if blockID =? 58 then
    top ← getitem terrain_images 43;
    side3 ← getitem terrain_images (43 + 16);
    side4 ← getitem terrain_images (43 + 16 + 1);
    img ← _build_full_block (Some top) None None (Some side3) (Some side4) None (Some 58);
    returns img
  else Ret None.

(** lines 838-848 *)
Definition special_crops (blockID data : Z) : result (option Sprite) :=
  if blockID =? 59 then
    raw_crop ← getitem terrain_images (88 + data);
    let crop1 := transform_image raw_crop (Some blockID) in
    crop2 ← transform_image_side raw_crop (Some blockID);
    let crop3 := PIL.transpose crop2 FLIP_LEFT_RIGHT in
    let img := PIL.new RGBA (24, 24) bgcolor in
    img ← composite.alpha_over img crop1 (Pos 0 12) (Some crop1);
    img ← composite.alpha_over img crop2 (Pos 6 3) (Some crop2);
    img ← composite.alpha_over img crop3 (Pos 6 3) (Some crop3);
    returns img
  else Ret None.

(** lines 851-861 *)
Definition special_furnace (blockID data : Z) : result (option Sprite) :=
  if blockID =? 61 then
    t ← getitem terrain_images 62;
    let top := transform_image t None in
    t ← getitem terrain_images 45;
    side1 ← transform_image_side t None;
    t ← getitem terrain_images 44;
    side2 ← transform_image_side t None;
    let side2 := PIL.transpose side2 FLIP_LEFT_RIGHT in
    three_faces top side1 side2
  else Ret None.

(** lines 864-874 *)
Definition special_lit_furnace (blockID data : Z) : result (option Sprite) :=
  if blockID =? 62 then
    t ← getitem terrain_images 62;
    let top := transform_image t None in
    t ← getitem terrain_images 45;
    side1 ← transform_image_side t None;
    t ← getitem terrain_images (45 + 16);
    side2 ← transform_image_side t None;
    let side2 := PIL.transpose side2 FLIP_LEFT_RIGHT in
    three_faces top side1 side2
  else Ret None.

(** lines 877-926 *)
Definition special_doors (blockID data : Z) : result (option Sprite) :=
  if (blockID =? 64) || (blockID =? 71) then
    raw_door ←
      (if Z.land data 8 =? 8
       then getitem terrain_images (if blockID =? 64 then 81 else 82)
       else getitem terrain_images (if blockID =? 64 then 97 else 98));
    let swung := Z.land data 4 =? 4 in
    let img := PIL.new RGBA (24, 24) bgcolor in
    img ←
      (if Z.land data 3 =? 0 then
         if negb swung then
           tex ← transform_image_side raw_door None;
           composite.alpha_over img tex (Pos 0 6) (Some tex)
         else
           tex ← transform_image_side (PIL.transpose raw_door FLIP_LEFT_RIGHT) None;
           let tex := PIL.transpose tex FLIP_LEFT_RIGHT in
           composite.alpha_over img tex (Pos 0 0) (Some tex)
       else Ret img);
    img ←
      (if Z.land data 3 =? 1 then
         if negb swung then
           tex ← transform_image_side raw_door None;
           let tex := PIL.transpose tex FLIP_LEFT_RIGHT in
           composite.alpha_over img tex (Pos 0 0) (Some tex)
         else
           tex ← transform_image_side raw_door None;
           composite.alpha_over img tex (Pos 12 0) (Some tex)
       else Ret img);
    img ←
      (if Z.land data 3 =? 2 then
         if negb swung then
           tex ← transform_image_side (PIL.transpose raw_door FLIP_LEFT_RIGHT) None;
           composite.alpha_over img tex (Pos 12 0) (Some tex)
         else
           tex ← transform_image_side raw_door None;
           let tex := PIL.transpose tex FLIP_LEFT_RIGHT in
           composite.alpha_over img tex (Pos 12 6) (Some tex)
       else Ret img);
    img ←
      (if Z.land data 3 =? 3 then
         if negb swung then
           tex ← transform_image_side (PIL.transpose raw_door FLIP_LEFT_RIGHT) None;
           let tex := PIL.transpose tex FLIP_LEFT_RIGHT in
           composite.alpha_over img tex (Pos 12 6) (Some tex)
         else
           tex ← transform_image_side (PIL.transpose raw_door FLIP_LEFT_RIGHT) None;
           composite.alpha_over img tex (Pos 0 6) (Some tex)
       else Ret img);
    returns img
  else Ret None.

(** lines 929-954: no [return] for any [data] but 5, 2, 3 and 4 *)
Definition special_ladder (blockID data : Z) : result (option Sprite) :=
  if blockID =? 65 then
    raw_texture ← getitem terrain_images 83;
    if data =? 5 then
      tex ← transform_image_side raw_texture None;
      let img := PIL.new RGBA (24, 24) bgcolor in
      img ← composite.alpha_over img tex (Pos 0 6) (Some tex);
      returns img
    else if data =? 2 then
      tex ← transform_image_side raw_texture None;
      let tex := PIL.transpose tex FLIP_LEFT_RIGHT in
      let img := PIL.new RGBA (24, 24) bgcolor in
      img ← composite.alpha_over img tex (Pos 12 6) (Some tex);
      returns img
    else if data =? 3 then
      tex ← transform_image_side raw_texture None;
      let tex := PIL.transpose tex FLIP_LEFT_RIGHT in
      let img := PIL.new RGBA (24, 24) bgcolor in
      img ← composite.alpha_over img tex (Pos 0 0) (Some tex);
      returns img
    else if data =? 4 then
      tex ← transform_image_side raw_texture None;
      let img := PIL.new RGBA (24, 24) bgcolor in
      img ← composite.alpha_over img tex (Pos 12 0) (Some tex);
      returns img
    else Ret None
  else Ret None.

(** Rails, lines 959-976: the straight and the corner tile of the kind, and
    [data] with the powered bit of the powered rail filtered out. *)
Definition rail_tiles (blockID data : Z) : result (Image * Image * Z) :=
  if blockID =? 27 then
    '(raw_straight, raw_corner) ←
      (if Z.land data 8 =? 0 then
         raw_straight ← getitem terrain_images 163;
         raw_corner ← getitem terrain_images 112;
         Ret (raw_straight, raw_corner)
       else if Z.land data 8 =? 8 then
         raw_straight ← getitem terrain_images 179;
         raw_corner ← getitem terrain_images 112;
         Ret (raw_straight, raw_corner)
       else Raise UnboundLocalError);
    Ret (raw_straight, raw_corner, Z.land data 7)
  else if blockID =? 28 then
    raw_straight ← getitem terrain_images 195;
    raw_corner ← getitem terrain_images 112;
    Ret (raw_straight, raw_corner, data)
  else if blockID =? 66 then
    raw_straight ← getitem terrain_images 128;
    raw_corner ← getitem terrain_images 112;
    Ret (raw_straight, raw_corner, data)
  else Raise UnboundLocalError.

(** lines 957-1032: the slopes return from inside the chain ([inr]), every
    other orientation hands its track to the lines after it ([inl]). *)
Definition special_rails (blockID data : Z) : result (option Sprite) :=
  if (blockID =? 27) || (blockID =? 28) || (blockID =? 66) then
    '(raw_straight, raw_corner, data) ← rail_tiles blockID data;
    step ←
      (if data =? 0 then
         Ret (inl (transform_image raw_straight (Some blockID)))
       else if data =? 6 then
         Ret (inl (transform_image raw_corner (Some blockID)))
       else if data =? 7 then
         Ret (inl (transform_image (PIL.rotate raw_corner 270 NEAREST) (Some blockID)))
       else if data =? 8 then
         Ret (inl (transform_image
                     (PIL.rotate (PIL.transpose raw_corner FLIP_TOP_BOTTOM) 90 NEAREST)
                     (Some blockID)))
       else if data =? 9 then
         Ret (inl (transform_image (PIL.transpose raw_corner FLIP_TOP_BOTTOM)
                     (Some blockID)))
       else if data =? 1 then
         Ret (inl (transform_image (PIL.rotate raw_straight 90 NEAREST) (Some blockID)))
       else if data =? 2 then
         let track := transform_image_slope raw_straight (Some blockID) in
         let track := PIL.transpose track FLIP_LEFT_RIGHT in
         let img := PIL.new RGBA (24, 24) bgcolor in
         img ← composite.alpha_over img track (Pos 2 0) (Some track);
         s ← rgb_and_alpha img; Ret (inr s)
       else if data =? 3 then
         let img := PIL.new RGBA (24, 24) bgcolor in
         let img := PIL.line img [(11, 11); (23, 17)] (164, 164, 164, 255) in
         s ← rgb_and_alpha img; Ret (inr s)
       else if data =? 4 then
         let track := transform_image_slope raw_straight (Some blockID) in
         let img := PIL.new RGBA (24, 24) bgcolor in
         img ← composite.alpha_over img track (Pos 0 0) (Some track);
         s ← rgb_and_alpha img; Ret (inr s)
       else if data =? 5 then
         let img := PIL.new RGBA (24, 24) bgcolor in
         let img := PIL.line img [(1, 17); (12, 11)] (164, 164, 164, 255) in
         s ← rgb_and_alpha img; Ret (inr s)
       else
         Ret (inl (transform_image raw_straight (Some blockID))));
    match step with
    | inr s => Ret (Some s)
    | inl track =>
        let img := PIL.new RGBA (24, 24) bgcolor in
        img ← composite.alpha_over img track (Pos 0 12) (Some track);
        returns img
    end
  else Ret None.

(** lines 1036-1129 *)
Definition special_fences (blockID data : Z) : result (option Sprite) :=
  if blockID =? 85 then
    raw_texture ← getitem terrain_images 4;
    let black := (0, 0, 0, 255) in
    let raw_fence_top := PIL.new RGBA (16, 16) bgcolor in
    let raw_fence_side := PIL.new RGBA (16, 16) bgcolor in
    let fence_top_mask := PIL.new RGBA (16, 16) bgcolor in
    let fence_side_mask := PIL.new RGBA (16, 16) bgcolor in
    let fence_top_mask := PIL.rectangle fence_top_mask (6, 6, 9, 9) black black in
    let fence_side_mask := PIL.rectangle fence_side_mask (6, 1, 9, 15) black black in
    raw_fence_top ←
      composite.alpha_over raw_fence_top raw_texture (Pos 0 0) (Some fence_top_mask);
    raw_fence_side ←
      composite.alpha_over raw_fence_side raw_texture (Pos 0 0) (Some fence_side_mask);
    fence_side ← transform_image_side raw_fence_side (Some 85);
    let fence_other_side := PIL.transpose fence_side FLIP_LEFT_RIGHT in
    let fence_top := transform_image raw_fence_top (Some 85) in
    fence_side ← darken fence_side 0.9;
    fence_other_side ← darken fence_other_side 0.8;
    let fence_big := PIL.new RGBA (24, 24) bgcolor in
    fence_big ← composite.alpha_over fence_big fence_side (Pos 5 4) (Some fence_side);
    fence_big ←
      composite.alpha_over fence_big fence_other_side (Pos 7 4) (Some fence_other_side);
    fence_big ← composite.alpha_over fence_big fence_top (Pos 0 1) (Some fence_top);
    let raw_fence_small_side := PIL.new RGBA (16, 16) bgcolor in
    let fence_small_side_mask := PIL.new RGBA (16, 16) bgcolor in
    let fence_small_side_mask :=
      PIL.rectangle fence_small_side_mask (10, 1, 15, 3) black black in
    let fence_small_side_mask :=
      PIL.rectangle fence_small_side_mask (10, 7, 15, 9) black black in
    raw_fence_small_side ←
      composite.alpha_over raw_fence_small_side raw_texture (Pos 0 0)
        (Some fence_small_side_mask);
    fence_small_side ← transform_image_side raw_fence_small_side (Some 85);
    let fence_small_other_side := PIL.transpose fence_small_side FLIP_LEFT_RIGHT in
    fence_small_other_side ← darken fence_small_other_side 0.9;
    fence_small_side ← darken fence_small_side 0.9;
    let img := PIL.new RGBA (24, 24) bgcolor in
    let pos_top_left := Pos (-2) 0 in
    let pos_top_right := Pos 14 0 in
    let pos_bottom_right := Pos 6 4 in
    let pos_bottom_left := Pos 6 4 in
    img ←
      (if Z.land data 1 =? 1
       then composite.alpha_over img fence_small_side pos_top_left (Some fence_small_side)
       else Ret img);
    img ←
      (if Z.land data 8 =? 8
       then composite.alpha_over img fence_small_other_side pos_top_right
              (Some fence_small_other_side)
       else Ret img);
    img ← composite.alpha_over img fence_big (Pos 0 0) (Some fence_big);
    img ←
      (if Z.land data 2 =? 2
       then composite.alpha_over img fence_small_other_side pos_bottom_left
              (Some fence_small_other_side)
       else Ret img);
    img ←
      (if Z.land data 4 =? 4
       then composite.alpha_over img fence_small_side pos_bottom_right (Some fence_small_side)
       else Ret img);
    returns img
  else Ret None.

(** lines 1132-1143 *)
Definition special_pumpkins (blockID data : Z) : result (option Sprite) :=
  if (blockID =? 86) || (blockID =? 91) then
    t ← getitem terrain_images 102;
    let top := transform_image t None in
    let frontID := if blockID =? 86 then 119 else 120 in
    t ← getitem terrain_images frontID;
    side1 ← transform_image_side t None;
    t ← getitem terrain_images 118;
    side2 ← transform_image_side t None;
    let side2 := PIL.transpose side2 FLIP_LEFT_RIGHT in
    three_faces top side1 side2
  else Ret None.

(** lines 1146-1170 *)
Definition special_cake (blockID data : Z) : result (option Sprite) :=
  if blockID =? 92 then
    top ← getitem terrain_images 121;
    side ← getitem terrain_images 122;
    let top := transform_image top (Some blockID) in
    side ← transform_image_side side (Some blockID);
    let otherside := PIL.transpose side FLIP_LEFT_RIGHT in
    side ← darken side 0.9;
    otherside ← darken otherside 0.8;
    let img := PIL.new RGBA (24, 24) bgcolor in
    img ← composite.alpha_over img side (Pos 2 12) (Some side);
    img ← composite.alpha_over img otherside (Pos 10 12) (Some otherside);
    img ← composite.alpha_over img top (Pos 0 8) (Some top);
    returns img
  else Ret None.

(** The statements of the generator in the order of the source. *)
Definition branches : list (Z → Z → result (option Sprite)) :=
  [ special_grass; special_saplings; special_water; special_wood; special_leaves;
    special_dispenser; special_wool; special_slabs; special_torches; special_fire;
    special_stairs; special_redstone; special_crafting_table; special_crops;
    special_furnace; special_lit_furnace; special_doors; special_ladder;
    special_rails; special_fences; special_pumpkins; special_cake ].

(** Run the statements one after the other until one returns or raises;
    after the last one comes the [return None] of line 1173. *)
Fixpoint run (bs : list (Z → Z → result (option Sprite))) (blockID data : Z)
    : result (option Sprite) :=
  match bs with
  | [] => Ret None
  | b :: bs =>
      r ← b blockID data;
      match r with
      | Some s => Ret (Some s)
      | None => run bs blockID data
      end
  end.

(** [generate_special_texture(blockID, data)] *)
Definition generate_special_texture (blockID data : Z) : result (option Sprite) :=
  run branches blockID data.

(** *** The caches *)


Definition alloc (h : Heap) (s : Sprite) : Heap * nat := (h ++ [s], length h).

Definition topids : list Z :=
  [ -1;  1;  0;  2; 16;  4; -1; 17;205;205;237;237; 18; 19; 32; 33;
    34; -1; 52; 48; 49;160;144; -1;176; 74; -1; -1; -1; -1; -1; -1;
    -1; -1; -1; -1; -1; 13; 12; 29; 28; 23; 22; -1; -1;  7;  8; 35;
    36; 37; -1; -1; 65; -1; 25; -1; 98; 24; -1; -1; 86; -1; -1; -1;
    -1; -1; -1; -1; -1; -1; -1; -1; -1; 51; 51; -1; -1; -1; 66; 67;
    66; 69; 72; 73; 74; -1;102;103;104;105; -1;102 ].

Definition sideids : list Z :=
  [ -1;  1;  3;  2; 16;  4; -1; 17;205;205;237;237; 18; 19; 32; 33;
    34; -1; 52; 48; 49;160;144; -1;192; 74; -1; -1; -1; -1; -1; -1;
    -1; -1; -1; -1; -1; 13; 12; 29; 28; 23; 22; -1; -1;  7;  8; 35;
    36; 37; -1; -1; 65; -1; 25;101; 98; 24; -1; -1; 86; -1; -1; -1;
    -1; -1; -1; -1; -1; -1; -1; -1; -1; 51; 51; -1; -1; -1; 66; 67;
    66; 69; 72; 73; 74; -1;118;103;104;105; -1;118 ].

(** The body of the loop of [_build_blockimages] (lines 385-397). *)
Definition blockimages_body (acc : Heap * list (option nat)) (item : Z * Z * Z)
    : result (Heap * list (option nat)) :=
  let '(toptextureid, sidetextureid, blockID) := item in
  let '(h, allimages) := acc in
  if (toptextureid =? -1) || (sidetextureid =? -1)
  then Ret (h, allimages ++ [None])
  else
    toptexture ← getitem terrain_images toptextureid;
    sidetexture ← getitem terrain_images sidetextureid;
    img ← _build_block toptexture (Some sidetexture) (Some blockID);
    s ← rgb_and_alpha img;
    let '(h, r) := alloc h s in
    Ret (h, allimages ++ [Some r]).

(** [_build_blockimages()]: the store of tuples made, and the list of 256
    slots, each [None] or a reference to its tuple. *)
Definition _build_blockimages : result (Heap * list (option nat)) :=
  if negb (length topids =? length sideids)%nat then Raise Exception
  else
    '(h, allimages) ←
      for_each blockimages_body
        (zip (zip topids sideids) (range (Z.of_nat (length topids))))
        ([], []);
    Ret (h, allimages ++ replicate (256 - length allimages) None).

(** [load_water()], on the block map [_build_blockimages] returned *)
Definition load_water (st : Heap * list (option nat)) : result (Heap * list (option nat)) :=
  let '(h, blockmap) := st in
  watertexture ← _load_image "water.png";
  w1 ← _build_block watertexture None None;
  let '(h, r) := alloc h (PIL.convert w1 RGB, w1) in
  blockmap ← setitem blockmap 9 (Some r);
  w2 ← _build_block watertexture (Some watertexture) None;
  let '(h, r) := alloc h (PIL.convert w2 RGB, w2) in
  blockmap ← setitem blockmap 8 (Some r);
  lavatexture ← _load_image "lava.png";
  lavablock ← _build_block lavatexture (Some lavatexture) None;
  let '(h, r) := alloc h (PIL.convert lavablock RGB, lavablock) in
  blockmap ← setitem blockmap 10 (Some r);
  lava ← getitem blockmap 10;
  blockmap ← setitem blockmap 11 lava;
  Ret (h, blockmap).

(** The module-level [blockmap] once [load_water()] has run. *)
Definition blockmap : result (Heap * list (option nat)) :=
  st ← _build_blockimages; load_water st.

(** [blockmap[k]], the reference followed: the slot's tuple, or [None]. *)
Definition blockmap_entry (st : Heap * list (option nat)) (k : Z) : result (option Sprite) :=
  slot ← getitem st.2 k;
  match slot with
  | None => Ret None
  | Some r => match st.1 !! r with Some s => Ret (Some s) | None => Raise IndexError end
  end.

Definition biome_grass_texture : result Image :=
  top ← getitem terrain_images 0;
  side ← getitem terrain_images 3;
  _build_block top (Some side) (Some 2).

Definition biome_leaf_texture : result Image :=
  top ← getitem terrain_images 52;
  side ← getitem terrain_images 52;
  _build_block top (Some side) (Some 18).

Definition special_blocks : gset Z :=
  list_to_set [ 2;  6;  9; 17; 18; 23; 27; 28; 35; 43; 44; 50; 51;
               53; 55; 58; 59; 61; 62; 64; 65; 66; 67; 71; 75; 76;
               85; 86; 91; 92].

Definition special_map : gmap Z (list Z) :=
  let special_map : gmap Z (list Z) := ∅ in
  let special_map := <[6 := range 4]> special_map in
  let special_map := <[9 := range 32]> special_map in
  let special_map := <[17 := range 4]> special_map in
  let special_map := <[23 := range 6]> special_map in
  let special_map := <[27 := range 14]> special_map in
  let special_map := <[28 := range 6]> special_map in
  let special_map := <[35 := range 16]> special_map in
  let special_map := <[43 := range 4]> special_map in
  let special_map := <[44 := range 4]> special_map in
  let special_map := <[50 := [1; 2; 3; 4; 5]]> special_map in
  let special_map := <[51 := range 16]> special_map in
  let special_map := <[53 := range 4]> special_map in
  let special_map := <[55 := range 128]> special_map in
  let special_map := <[58 := [0]]> special_map in
  let special_map := <[59 := range 8]> special_map in
  let special_map := <[61 := range 6]> special_map in
  let special_map := <[62 := range 6]> special_map in
  let special_map := <[64 := range 16]> special_map in
  let special_map := <[65 := [2; 3; 4; 5]]> special_map in
  let special_map := <[66 := range 10]> special_map in
  let special_map := <[67 := range 4]> special_map in
  let special_map := <[71 := range 16]> special_map in
  let special_map := <[75 := [1; 2; 3; 4; 5]]> special_map in
  let special_map := <[76 := [1; 2; 3; 4; 5]]> special_map in
  let special_map := <[85 := range 17]> special_map in
  let special_map := <[86 := range 5]> special_map in
  let special_map := <[91 := range 5]> special_map in
  let special_map := <[92 := range 6]> special_map in
  let special_map := <[2 := range 11]> special_map in
  let special_map := <[18 := range 16]> special_map in
  special_map.

(** One pass of the inner loop of lines 1300-1302. *)
Definition fill_kind (m : gmap (Z * Z) (option Sprite)) (blockID : Z)
    : result (gmap (Z * Z) (option Sprite)) :=
  states ← dict_get special_map blockID;
  for_each (λ m data, v ← generate_special_texture blockID data;
                      Ret (<[(blockID, data) := v]> m))
    states m.

(** The module-level [specialblockmap] (lines 1298-1302). *)
Definition specialblockmap : result (gmap (Z * Z) (option Sprite)) :=
  for_each fill_kind (elements special_blocks) ∅.

End Textures.

(** ** Biome data (lines 1186-1241) *)

(** The globals [currentBiomeFile] and [currentBiomeData]; [None] is
    Python's [None]. *)
Record BiomeCache : Type := mkBiomeCache {
  currentBiomeFile : option string;
  currentBiomeData : option (list Z)
}.

(** The numbers of a buffer read as big-endian unsigned 16-bit words, the
    high byte first. *)
Fixpoint be16_words (rawdata : list Byte.byte) : list Z :=
  match rawdata with
  | hi :: lo :: rest =>
      (256 * Z.of_N (Byte.to_N hi) + Z.of_N (Byte.to_N lo)) :: be16_words rest
  | _ => []
  end.

(** [numpy.frombuffer(rawdata, dtype=numpy.dtype(">u2"))]: a buffer whose
    size is no multiple of the two bytes of an element raises ValueError. *)
Definition frombuffer_be16 (rawdata : list Byte.byte) : result (list Z) :=
  if Z.of_nat (length rawdata) mod 2 =? 0 then Ret (be16_words rawdata)
  else Raise ValueError.

(** ["b.%d.%d.biome" % (chunkX // 32, chunkY // 32)] *)
Definition biome_file_name (chunkX chunkY : Z) : string :=
  "b." +:+ pretty (chunkX / 32) +:+ "." +:+ pretty (chunkY / 32) +:+ ".biome".

Section Biomes.
(** [os.path.join] of the platform, and [open(path, "rb").read()]: the
    bytes of the file, or [None] where opening or reading it raises
    IOError. *)
Context (path_join : list string → string) (read_file : string → option (list Byte.byte)).

(** [getBiomeData(worlddir, chunkX, chunkY)]: the value returned and the
    two globals afterwards.  An exception other than IOError leaves the
    [try] statement, and the function, before the globals are assigned. *)
Definition getBiomeData (worlddir : string) (chunkX chunkY : Z) (cache : BiomeCache)
    : result (option (list Z) * BiomeCache) :=
  let biomeFile := biome_file_name chunkX chunkY in
  if bool_decide (Some biomeFile = currentBiomeFile cache)
  then Ret (currentBiomeData cache, cache)
  else
    data ←
      match read_file (path_join [worlddir; "biomes"; biomeFile]) with
      | Some rawdata =>
          if negb (Z.of_nat (length rawdata) =? 512 * 512 * 2)
          then Raise Exception
          else data ← frombuffer_be16 rawdata; Ret (Some data)
      | None => Ret None
      end;
    Ret (data, mkBiomeCache (Some biomeFile) data).

End Biomes.

(** ** Vocabulary of the properties *)

(** The three colour bytes of a pixel through the brightness kernel. *)
Definition darkened {K : Kernels} (factor : float) (c : Z * Z * Z) : Z * Z * Z :=
  (brightness_byte factor c.1.1, brightness_byte factor c.1.2, brightness_byte factor c.2).

(** A tuple in the shape every generator return has: the picture without
    its alpha, and the alpha band alone. *)
Definition alpha_band_tuple {K : Kernels} (s : Sprite) : Prop :=
  ∃ img, im_mode img = RGBA ∧ s = (PIL.convert img RGB, PIL.band img 3).

(** The states [special_map] declares for a kind (none for a kind that is
    not a key of it). *)
Definition states (blockID : Z) : list Z := default [] (special_map !! blockID).

(** A pair the loop of lines 1300-1302 visits. *)
Definition declared (kd : Z * Z) : Prop :=
  kd.1 ∈ special_blocks ∧ kd.2 ∈ states kd.1.

(** The declared pairs as the list the loops enumerate. *)
Definition declared_pairs : list (Z * Z) :=
  k ← elements special_blocks; d ← states k; [(k, d)].

(** What a generator call hands to the cache. *)
Definition value_of {A} (r : result (option A)) : option A :=
  match r with Ret v => v | Raise _ => None end.

(** All four image files decode to RGBA. *)
(** The kinds the statements of [generate_special_texture] test for. *)
Definition handled_kinds : list Z :=
  [2; 6; 9; 17; 18; 23; 35; 43; 44; 50; 75; 76; 51; 53; 67; 55; 58; 59; 61; 62;
   64; 71; 65; 27; 28; 66; 85; 86; 91; 92].

Definition files_rgba (files : Files) : Prop :=
  im_mode (terrain_png files) = RGBA ∧ im_mode (water_png files) = RGBA ∧
  im_mode (lava_png files) = RGBA ∧ im_mode (fire_png files) = RGBA.

(** What a declared pair generates: a sprite, or nothing at (17, 3), and
    never an exception. *)
Definition generated_ok {A} (kd : Z * Z) (r : result (option A)) : bool :=
  match r with
  | Ret (Some _) => true
  | Ret None => (kd.1 =? 17) && (kd.2 =? 3)
  | Raise _ => false
  end.

(** What the loop of [_build_blockimages] keeps true of the store and the
    slots built so far. *)
Definition blockimages_inv {K : Kernels} (acc : Heap * list (option nat)) : Prop :=
  Forall alpha_band_tuple acc.1 ∧
  Forall (λ slot, ∀ r, slot = Some r → (r < length acc.1)%nat) acc.2.

(** The tile indices of one kind are both usable, or one of them is -1. *)
Definition item_ok (item : Z * Z * Z) : bool :=
  let '(t, s, _) := item in
  (t =? -1) || (s =? -1) || ((0 <=? t) && (t <? 256) && (0 <=? s) && (s <? 256)).

(** A face argument of [_build_full_block] that is absent or RGBA. *)
Definition face_ok (side : option Image) : Prop :=
  match side with Some im => im_mode im = RGBA | None => True end.

(** The mask of the bottom face of [_build_full_block] fits: the projected
    bottom is a 24x12 image and line 309 masks it with the top as passed
    in, when there is one. *)
Definition bottom_mask_ok (top bottom : option Image) : Prop :=
  match top, bottom with
  | Some t, Some _ => im_size t = (24, 12)
  | _, _ => True
  end.

(** What the slot of one kind holds after the loop of [_build_blockimages]:
    nothing when one of its tile indices is -1, and otherwise a reference to
    the tuple made from the block built on its two tiles. *)
Definition slot_spec {K : Kernels} (files : Files) (h : Heap) (slot : option nat)
    (item : Z * Z * Z) : Prop :=
  (item.1.1 = -1 ∨ item.1.2 = -1 → slot = None) ∧
  (item.1.1 ≠ -1 → item.1.2 ≠ -1 →
   ∃ r toptexture sidetexture img,
     getitem (terrain_images files) item.1.1 = Ret toptexture ∧
     getitem (terrain_images files) item.1.2 = Ret sidetexture ∧
     _build_block toptexture (Some sidetexture) (Some item.2) = Ret img ∧
     slot = Some r ∧ h !! r = Some (PIL.convert img RGB, PIL.band img 3)).

(** How a call of the generator ends. *)
Inductive Outcome : Set :=
| GivesSprite
| GivesNone
| Raises (e : exn).

#[global] Instance exn_eq_dec : EqDecision exn.
Proof. solve_decision. Defined.

#[global] Instance Outcome_eq_dec : EqDecision Outcome.
Proof. solve_decision. Defined.

Definition outcome_of {A} (r : result (option A)) : Outcome :=
  match r with
  | Ret (Some _) => GivesSprite
  | Ret None => GivesNone
  | Raise e => Raises e
  end.

Definition within (lo hi d : Z) : bool := (lo <=? d) && (d <=? hi).

(** The outcome of [generate_special_texture] by kind and state, on image
    files that are all RGBA: the torches and the stairs read an unassigned
    [img] outside their states, the crops index the atlas with the state,
    wood, wool, slabs and ladders fall through outside their states, every
    other kind that a statement names returns a sprite whatever the state,
    and a kind that none names gets [None]. *)
Definition expected_outcome (blockID data : Z) : Outcome :=
  if in_ints (Some blockID) [50; 75; 76] then
    if within 1 5 data then GivesSprite else Raises UnboundLocalError
  else if in_ints (Some blockID) [53; 67] then
    if within 0 3 data then GivesSprite else Raises UnboundLocalError
  else if blockID =? 59 then
    if within (-344) 167 data then GivesSprite else Raises IndexError
  else if blockID =? 17 then
    if within 0 2 data then GivesSprite else GivesNone
  else if blockID =? 35 then
    if within 0 15 data then GivesSprite else GivesNone
  else if in_ints (Some blockID) [43; 44] then
    if within 0 3 data then GivesSprite else GivesNone
  else if blockID =? 65 then
    if within 2 5 data then GivesSprite else GivesNone
  else if in_ints (Some blockID) handled_kinds then GivesSprite
  else GivesNone.

(** One state that generates what [data] generates: the statements of the
    generator read the state through a bit mask, through comparisons with
    a few constants, or not at all. *)
Definition canonical_state (blockID data : Z) : Z :=
  if in_ints (Some blockID) [2; 18; 23; 51; 58; 61; 62; 86; 91; 92] then 0
  else if blockID =? 6 then (if data =? 2 then 2 else 0)
  else if blockID =? 9 then Z.land data 31
  else if in_ints (Some blockID) [64; 71; 85; 27] then Z.land data 15
  else if blockID =? 55 then Z.land data 127
  else if in_ints (Some blockID) [28; 66] then (if within 0 9 data then data else 0)
  else if in_ints (Some blockID) [50; 75; 76] then (if within 1 5 data then data else 0)
  else if in_ints (Some blockID) [53; 67] then (if within 0 3 data then data else 4)
  else if blockID =? 59 then
    (if within (-88) 167 data then data
     else if within (-344) (-89) data then data + 256 else 168)
  else if blockID =? 17 then (if within 0 2 data then data else 3)
  else if blockID =? 35 then (if within 0 15 data then data else 16)
  else if in_ints (Some blockID) [43; 44] then (if within 0 3 data then data else 4)
  else if blockID =? 65 then (if within 2 5 data then data else 0)
  else data.

(** The states [canonical_state] can give for each kind a statement of the
    generator names. *)
Definition canonical_states : list (Z * list Z) :=
  [(2, [0]); (18, [0]); (23, [0]); (51, [0]); (58, [0]); (61, [0]); (62, [0]);
   (86, [0]); (91, [0]); (92, [0]); (6, [0; 2]);
   (9, range 32); (64, range 16); (71, range 16); (85, range 16); (27, range 16);
   (55, range 128); (28, range 10); (66, range 10);
   (50, range 6); (75, range 6); (76, range 6); (53, range 5); (67, range 5);
   (59, seqZ (-88) 257); (17, range 4); (35, range 17); (43, range 5); (44, range 5);
   (65, [0; 2; 3; 4; 5])].

(** A string with no full stop in it. *)
Fixpoint dotfree (s : string) : Prop :=
  match s with
  | EmptyString => True
  | String c s => c ≠ "."%char ∧ dotfree s
  end.

(** ** A small software back end

    Nearest-neighbour resampling and integer blending: one instance of
    [Kernels], and four synthetic image files, on which the definitions
    above run to concrete pixels. *)

Module Sample.

Definition float_of_Z (z : Z) : float :=
  if z <? 0 then (- PrimFloat.of_uint63 (Uint63.of_Z (- z)))%float
  else PrimFloat.of_uint63 (Uint63.of_Z z).

(** The largest integer below a double (0 for what is not a number). *)
Definition floor (f : float) : Z :=
  match Prim2SF f with
  | S754_finite s m e =>
      let q := Z.shiftl (Z.pos m) e in
      if s then (if Z.shiftl q (- e) =? Z.pos m then - q else - q - 1) else q
  | _ => 0
  end.

Definition sample (im : Image) (x y : Z) : Pixel :=
  if in_image im x y then im_px im x y else (0, 0, 0, 0).

Definition resize_nearest (f : Filter) (im : Image) (sz : Z * Z) (x y : Z) : Pixel :=
  sample im (x * (im_size im).1 / sz.1) (y * (im_size im).2 / sz.2).

Definition affine_nearest (im : Image) (sz : Z * Z) (data : list float) (x y : Z) : Pixel :=
  match data with
  | [a; b; c; d; e; f] =>
      let fx := float_of_Z x in
      let fy := float_of_Z y in
      sample im (floor (a * fx + b * fy + c)%float) (floor (d * fx + e * fy + f)%float)
  | _ => (0, 0, 0, 0)
  end.

Definition extent_nearest (im : Image) (sz : Z * Z) (box : Z * Z * Z * Z) (f : Filter)
    (x y : Z) : Pixel :=
  let '(l, u, r, d) := box in
  sample im (l + x * (r - l) / sz.1) (u + y * (d - u) / sz.2).

(** Quarter turns are exact; 15 degrees either way uses cos = 0.966 and
    sin = 0.259; any other angle leaves the picture as it is. *)
Definition rotate_nearest (im : Image) (angle : Z) (f : Filter) (x y : Z) : Pixel :=
  let w := (im_size im).1 in
  let h := (im_size im).2 in
  let a := angle mod 360 in
  if a =? 90 then sample im (w - 1 - y) x
  else if a =? 270 then sample im y (h - 1 - x)
  else if a =? 180 then sample im (w - 1 - x) (h - 1 - y)
  else if (a =? 15) || (a =? 345) then
    let s := if a =? 15 then 259 else -259 in
    let dx := 2 * x - w + 1 in
    let dy := 2 * y - h + 1 in
    sample im ((966 * dx - s * dy + 1000 * (w - 1)) / 2000)
              ((s * dx + 966 * dy + 1000 * (h - 1)) / 2000)
  else im_px im x y.

Definition brightness_floor (factor : float) (v : Z) : Z :=
  floor (factor * float_of_Z v)%float.

Definition luma601 (c : Z * Z * Z) : Z :=
  (c.1.1 * 299 + c.1.2 * 587 + c.2 * 114) / 1000.

Definition colorize_linear (black white : Z * Z * Z) (v : Z) : Z * Z * Z :=
  (black.1.1 + v * (white.1.1 - black.1.1) / 255,
   black.1.2 + v * (white.1.2 - black.1.2) / 255,
   black.2 + v * (white.2 - black.2) / 255).

(** A line between the first two points, one pixel per column. *)
Definition line_columns (im : Image) (pts : list (Z * Z)) (fill : Pixel) (x y : Z) : Pixel :=
  match pts with
  | (x0, y0) :: (x1, y1) :: _ =>
      if (x0 <=? x) && (x <=? x1) && (x0 <? x1)
         && (y =? y0 + (x - x0) * (y1 - y0) / (x1 - x0))
      then fill else im_px im x y
  | _ => im_px im x y
  end.

(** Source over destination, weighted by the alpha of the mask (of the
    source when there is none).  [composite.alpha_over] calls it once the
    mask has passed [mask_ok], so with a mask of the size of the source. *)
Definition over (dest src : Image) (pos : PosOrRect) (mask : option Image) (x y : Z)
    : Pixel :=
  let '(ox, oy, inside) :=
    match pos with
    | Pos a b => (a, b, true)
    | Rect l u r d => (l, u, (l <=? x) && (x <? r) && (u <=? y) && (y <? d))
    end in
  let sx := x - ox in
  let sy := y - oy in
  let m := default src mask in
  let d := im_px dest x y in
  if in_image src sx sy && in_image m sx sy && inside then
    let s := im_px src sx sy in
    let a := alpha_of (im_px m sx sy) in
    let rest := alpha_of d * (255 - a) / 255 in
    let oa := a + rest in
    if oa =? 0 then d
    else ((chan 0 s * a + chan 0 d * rest) / oa,
          (chan 1 s * a + chan 1 d * rest) / oa,
          (chan 2 s * a + chan 2 d * rest) / oa,
          oa)
  else d.

#[export] Instance kernels : Kernels := {|
  resize_px := resize_nearest;
  affine_px := affine_nearest;
  extent_px := extent_nearest;
  rotate_px := rotate_nearest;
  brightness_byte := brightness_floor;
  luma := luma601;
  colorize_lut := colorize_linear;
  line_px := line_columns;
  alpha_over_px := over;
  lenient_modes := true
|}.

(** A 256x256 atlas whose cells differ, with holes in the alpha band. *)
Definition atlas : Image :=
  mkImage RGBA (256, 256)
    (λ x y, (x mod 256, y mod 256, (x + y) mod 256,
             if (x + 2 * y) mod 5 =? 0 then 0 else 255)).

Definition flat (r g b a : Z) : Image := mkImage RGBA (16, 16) (λ _ _, (r, g, b, a)).

Definition files : Files :=
  {| terrain_png := atlas;
     water_png := flat 40 60 200 128;
     lava_png := flat 230 90 20 255;
     fire_png := flat 250 160 30 200 |}.

End Sample.

(** ** Properties *)

Section Properties.
Context {K : Kernels}.

Lemma size_eqb_refl s : size_eqb s s = true.
Proof. unfold size_eqb. rewrite !Z.eqb_refl. reflexivity. Qed.

Lemma size_eqb_eq a b : size_eqb a b = true ↔ a = b.
Proof.
  destruct a, b. unfold size_eqb. cbn. rewrite andb_true_iff, !Z.eqb_eq.
  split; [intros [-> ->]; done | intros [= -> ->]; done].
Qed.

Lemma mode_rgba_cases (m : Mode) : m = RGBA ∨ m ≠ RGBA.
Proof. destruct m; [right | right | right | left]; done. Qed.

(** [composite.alpha_over] of an RGBA source on an RGBA destination, under
    the source itself, no mask, or an RGBA mask of the size of the source. *)
Lemma alpha_over_rgba dest src pos mask :
  im_mode dest = RGBA → im_mode src = RGBA →
  match mask with
  | Some m => im_mode m = RGBA ∧ im_size m = im_size src
  | None => True
  end →
  composite.alpha_over dest src pos mask =
  Ret (mkImage RGBA (im_size dest) (alpha_over_px dest src pos mask)).
Proof.
  intros Hd Hs Hmask. unfold composite.alpha_over, composite.mask_ok, composite.modes_ok.
  destruct mask as [m|]; cbn [from_option id].
  - destruct Hmask as [Hm Hsz]. rewrite Hm, Hsz, Hd, Hs, size_eqb_refl. reflexivity.
  - rewrite Hd, Hs, size_eqb_refl. reflexivity.
Qed.

Lemma alpha_over_self dest src pos :
  im_mode dest = RGBA → im_mode src = RGBA →
  composite.alpha_over dest src pos (Some src) =
  Ret (mkImage RGBA (im_size dest) (alpha_over_px dest src pos (Some src))).
Proof. intros Hd Hs. by apply alpha_over_rgba. Qed.

(** A mask that is [RGB] or [LA], or of another size than the source, is
    refused. *)
Lemma alpha_over_bad_mask dest src pos mask :
  (im_mode (default src mask) = RGB ∨ im_mode (default src mask) = LA ∨
   im_size (default src mask) ≠ im_size src) →
  composite.alpha_over dest src pos mask = Raise ValueError.
Proof.
  intros H. unfold composite.alpha_over, composite.mask_ok.
  destruct H as [-> | [-> | H]]; [reflexivity | reflexivity |].
  replace (size_eqb (im_size (default src mask)) (im_size src)) with false.
  - by rewrite andb_false_r.
  - symmetry. apply not_true_is_false. intros E. by apply size_eqb_eq in E.
Qed.

(** Outside the kinds 44 and 78 [transform_image_side] is the shear of the
    resized tile and cannot raise. *)
Lemma transform_image_side_plain img blockID :
  in_ints blockID [44; 78] = false →
  ∃ out, transform_image_side img blockID = Ret out ∧
         im_mode out = im_mode img ∧ im_size out = (12, 18).
Proof.
  intros Hk. unfold transform_image_side.
  assert (in_ints blockID [44] = false ∧ in_ints blockID [78] = false) as [-> ->].
  { destruct blockID as [k|]; [|done]. cbn in Hk |- *.
    apply orb_false_elim in Hk as [-> Hk]. apply orb_false_elim in Hk as [-> _]. done. }
  cbn [mbind result_bind]. eexists. split; [reflexivity|]. done.
Qed.

(** On an RGBA tile [transform_image_side] returns for every kind. *)
Lemma transform_image_side_ok img blockID :
  im_mode img = RGBA →
  ∃ out, transform_image_side img blockID = Ret out ∧
         im_mode out = RGBA ∧ im_size out = (12, 18).
Proof.
  intros Hm. unfold transform_image_side.
  destruct (in_ints blockID [44]), (in_ints blockID [78]); cbv zeta;
    repeat first [ rewrite Hm
                 | rewrite alpha_over_self by (cbn; done)
                 | progress cbn [im_mode im_size PIL.new_with_ink mbind result_bind] ];
    (eexists; split; [reflexivity|]; cbn; done).
Qed.

(** For the kinds 44 and 78 a tile that is not RGBA stops
    [transform_image_side]: a grey tile at [Image.new], which takes no
    colour of four numbers for its mode, an RGB tile at the mask of
    [composite.alpha_over]. *)
Lemma transform_image_side_raises img blockID :
  in_ints blockID [44; 78] = true →
  (im_mode img = RGB → transform_image_side img blockID = Raise ValueError) ∧
  (im_mode img = L ∨ im_mode img = LA → transform_image_side img blockID = Raise TypeError).
Proof.
  intros Hk. unfold transform_image_side.
  assert (Hc : (in_ints blockID [44] = true ∧ in_ints blockID [78] = false) ∨
               (in_ints blockID [44] = false ∧ in_ints blockID [78] = true)).
  { destruct blockID as [k|]; [|done]. cbn in Hk |- *.
    destruct (k =? 44) eqn:E44; [left | right].
    - apply Z.eqb_eq in E44. subst. done.
    - cbn in Hk. destruct (k =? 78); done. }
  split.
  - intros Hm. destruct Hc as [[-> ->] | [-> ->]]; cbv zeta;
      cbn [mbind result_bind]; rewrite Hm; cbn [PIL.new_with_ink mbind result_bind];
      rewrite alpha_over_bad_mask by (left; cbn; exact Hm); reflexivity.
  - intros Hm. destruct Hc as [[-> ->] | [-> ->]]; cbv zeta;
      cbn [mbind result_bind]; destruct Hm as [-> | ->]; reflexivity.
Qed.

Lemma alpha_band im :
  im_mode im = RGBA → getitem (PIL.split im) 3 = Ret (PIL.band im 3).
Proof. intros Hm. unfold PIL.split. rewrite Hm. reflexivity. Qed.

Lemma putalpha_band im src k :
  im_size im = im_size src →
  PIL.putalpha im (PIL.band src k) =
  Ret (mkImage (match im_mode im with L | LA => LA | RGB | RGBA => RGBA end) (im_size im)
         (λ x y, set_alpha (im_px im x y) (chan k (im_px src x y)))).
Proof.
  intros Hs. unfold PIL.putalpha. cbn [PIL.band im_mode im_size Mode_eqb negb].
  rewrite Hs, size_eqb_refl. reflexivity.
Qed.

Lemma darken_spec side factor :
  im_mode side = RGBA →
  ∃ out, darken side factor = Ret out ∧ im_mode out = RGBA ∧ im_size out = im_size side ∧
    ∀ x y, rgb_of (im_px out x y) = darkened factor (rgb_of (im_px side x y)) ∧
           alpha_of (im_px out x y) = alpha_of (im_px side x y).
Proof.
  intros Hm. unfold darken. rewrite (alpha_band _ Hm). cbn [mbind result_bind].
  rewrite putalpha_band by reflexivity.
  eexists. split; [reflexivity|]. cbn. rewrite Hm. repeat split.
Qed.


(** [tintTexture] on an RGBA tile returns, and returns an RGBA image. *)
Lemma tintTexture_returns im c :
  im_mode im = RGBA → ∃ i, tintTexture im c = Ret i ∧ im_mode i = RGBA.
Proof.
  intros Hm. unfold tintTexture, PIL.grayscale, PIL.convert, PIL.colorize.
  rewrite Hm. cbn [im_mode Mode_eqb mbind result_bind im_size].
  rewrite (alpha_band _ Hm). cbn [mbind result_bind].
  rewrite putalpha_band by reflexivity. eauto.
Qed.

(** C7.  For an RGBA tile and any colour, [tintTexture] returns an RGBA
    image of the same size whose alpha value is, at every pixel, the alpha
    value of the tile: tinting changes the colour bytes only. *)
Theorem tintTexture_alpha im c :
  im_mode im = RGBA →
  ∃ i, tintTexture im c = Ret i ∧ im_mode i = RGBA ∧ im_size i = im_size im ∧
    ∀ x y, alpha_of (im_px i x y) = alpha_of (im_px im x y).
Proof.
  intros Hm. unfold tintTexture, PIL.grayscale, PIL.convert, PIL.colorize.
  rewrite Hm. cbn [im_mode Mode_eqb mbind result_bind im_size].
  rewrite (alpha_band _ Hm). cbn [mbind result_bind].
  rewrite putalpha_band by reflexivity.
  eexists. split; [reflexivity|]. cbn. repeat split.
Qed.

(** C4.  In [_build_block], for every kind and every RGBA side tile: the
    right face is made from the horizontal mirror of the sheared left face,
    taken before any brightness change; afterwards the colour bytes of the
    left face are those of the sheared face through brightness 0.9, those of
    the right face are those of the mirror through brightness 0.8, and both
    faces keep the alpha they had before the darkening. *)
Theorem build_block_sides_mirrored side blockID :
  im_mode side = RGBA →
  ∃ sheared left right,
    transform_image_side side blockID = Ret sheared ∧
    _build_block_sides side blockID = Ret (left, right) ∧
    im_size left = (12, 18) ∧ im_size right = (12, 18) ∧
    let mirrored := PIL.transpose sheared FLIP_LEFT_RIGHT in
    ∀ x y,
      im_px mirrored x y = im_px sheared (11 - x) y ∧
      rgb_of (im_px left x y) = darkened 0.9 (rgb_of (im_px sheared x y)) ∧
      alpha_of (im_px left x y) = alpha_of (im_px sheared x y) ∧
      rgb_of (im_px right x y) = darkened 0.8 (rgb_of (im_px mirrored x y)) ∧
      alpha_of (im_px right x y) = alpha_of (im_px mirrored x y).
Proof.
  intros Hm.
  destruct (transform_image_side_ok side blockID Hm) as (sheared & Hsh & Hs & Hsz).
  set (mirrored := PIL.transpose sheared FLIP_LEFT_RIGHT).
  destruct (darken_spec sheared 0.9 Hs) as (l & Hl & Hlm & Hlsz & Hlpx).
  assert (Hmm : im_mode mirrored = RGBA) by exact Hs.
  destruct (darken_spec mirrored 0.8 Hmm) as (r & Hr & Hrm & Hrsz & Hrpx).
  exists sheared, l, r. split; [exact Hsh|]. unfold _build_block_sides.
  rewrite Hsh. cbn [mbind result_bind]. fold mirrored.
  rewrite Hl. cbn [mbind result_bind]. rewrite Hr. cbn [mbind result_bind].
  split; [reflexivity|]. split; [by rewrite Hlsz|].
  split; [rewrite Hrsz; exact Hsz|].
  intros x y. split; [cbn; by rewrite Hsz|].
  destruct (Hlpx x y), (Hrpx x y). auto.
Qed.

Lemma touch_up_spec img :
  im_size img = (24, 24) →
  ∃ out, touch_up img = Ret out ∧ im_mode out = im_mode img ∧ im_size out = (24, 24) ∧
    im_px out 13 23 = im_px out 12 23 ∧
    im_px out 17 21 = im_px out 16 21 ∧
    im_px out 21 19 = im_px out 20 19 ∧
    im_px out 3 4 = im_px out 4 4 ∧
    im_px out 7 2 = im_px out 8 2 ∧
    im_px out 11 0 = im_px out 12 0.
Proof.
  intros Hs. destruct img as [m sz p]. simpl in Hs. subst sz.
  eexists. split; [reflexivity|]. cbn. repeat split.
Qed.

Lemma build_block_sides_ok side blockID :
  im_mode side = RGBA →
  ∃ l r, _build_block_sides side blockID = Ret (l, r) ∧ im_mode l = RGBA ∧ im_mode r = RGBA.
Proof.
  intros Hm. unfold _build_block_sides.
  destruct (transform_image_side_ok side blockID Hm) as (sheared & -> & Hs & _).
  cbn [mbind result_bind].
  destruct (darken_spec _ 0.9 Hs) as (l & Hl & Hlm & _).
  destruct (darken_spec (PIL.transpose sheared FLIP_LEFT_RIGHT) 0.8 Hs)
    as (r & Hr & Hrm & _).
  exists l, r. rewrite Hl. cbn [mbind result_bind]. rewrite Hr. cbn [mbind result_bind].
  auto.
Qed.

Lemma transform_image_mode img blockID :
  im_mode (transform_image img blockID) = im_mode img.
Proof. unfold transform_image. destruct (in_ints blockID [81; 92]); reflexivity. Qed.

Lemma transform_image_size img blockID : im_size (transform_image img blockID) = (24, 12).
Proof. reflexivity. Qed.

(** What [composite.alpha_over] returns has the mode and the size of the
    destination. *)
Lemma alpha_over_frame dest src pos mask out :
  composite.alpha_over dest src pos mask = Ret out →
  im_mode out = im_mode dest ∧ im_size out = im_size dest.
Proof.
  unfold composite.alpha_over. destruct (_ && _); [|discriminate].
  intros [= <-]. done.
Qed.

(** Three faces laid one after the other on an RGBA canvas, each under
    its own alpha. *)
Lemma three_layers img a pa b pb c pc :
  im_mode img = RGBA → im_mode a = RGBA → im_mode b = RGBA → im_mode c = RGBA →
  ∃ out,
    (img ← composite.alpha_over img a pa (Some a);
     img ← composite.alpha_over img b pb (Some b);
     composite.alpha_over img c pc (Some c)) = Ret out ∧
    im_mode out = RGBA ∧ im_size out = im_size img.
Proof.
  intros Hi Ha Hb Hc.
  rewrite alpha_over_self by done. cbn [mbind result_bind].
  rewrite alpha_over_self by done. cbn [mbind result_bind].
  rewrite alpha_over_self by done. eexists. split; [reflexivity|]. done.
Qed.

Lemma build_block_ok top side blockID :
  im_mode top = RGBA → im_mode side = RGBA →
  ∃ img, _build_block top (Some side) blockID = Ret img ∧
         im_mode img = RGBA ∧ im_size img = (24, 24).
Proof.
  intros Ht Hm. unfold _build_block.
  destruct (build_block_sides_ok side blockID Hm) as (l & r & Hlr & Hl & Hr).
  rewrite Hlr. cbn [mbind result_bind].
  assert (Htt : im_mode (transform_image top blockID) = RGBA)
    by (by rewrite transform_image_mode).
  destruct (in_ints blockID [37; 38; 6; 39; 40; 83]).
  { rewrite alpha_over_self by done. cbn [mbind result_bind].
    rewrite alpha_over_self by done. eexists. split; [reflexivity|]. done. }
  assert (Hc : ∃ c,
    (if in_ints blockID [81]
     then
       img ← composite.alpha_over (PIL.new RGBA (24, 24) bgcolor) l (Pos 2 6) (Some l);
       img ← composite.alpha_over img r (Pos 10 6) (Some r);
       composite.alpha_over img (transform_image top blockID) (Pos 0 2)
         (Some (transform_image top blockID))
     else if in_ints blockID [44]
     then
       img ← composite.alpha_over (PIL.new RGBA (24, 24) bgcolor) l (Pos 0 12) (Some l);
       img ← composite.alpha_over img r (Pos 12 12) (Some r);
       composite.alpha_over img (transform_image top blockID) (Pos 0 6)
         (Some (transform_image top blockID))
     else if in_ints blockID [78]
     then
       img ← composite.alpha_over (PIL.new RGBA (24, 24) bgcolor) l (Pos 0 6) (Some l);
       img ← composite.alpha_over img r (Pos 12 6) (Some r);
       composite.alpha_over img (transform_image top blockID) (Pos 0 9)
         (Some (transform_image top blockID))
     else
       img ← composite.alpha_over (PIL.new RGBA (24, 24) bgcolor) l (Pos 0 6) (Some l);
       img ← composite.alpha_over img r (Pos 12 6) (Some r);
       composite.alpha_over img (transform_image top blockID) (Pos 0 0)
         (Some (transform_image top blockID))) = Ret c ∧
    im_mode c = RGBA ∧ im_size c = (24, 24)).
  { destruct (in_ints blockID [81]); [by apply three_layers|].
    destruct (in_ints blockID [44]); [by apply three_layers|].
    destruct (in_ints blockID [78]); by apply three_layers. }
  destruct Hc as (c & -> & Hcm & Hcs). cbn [mbind result_bind].
  destruct (touch_up_spec c Hcs) as (out & Ho & Hom & Hos & _).
  exists out. split; [exact Ho|]. split; [by rewrite Hom | exact Hos].
Qed.

(** [_build_block] with no side lays the projected top alone. *)
Lemma build_block_top_only top blockID :
  im_mode top = RGBA →
  _build_block top None blockID =
  Ret (mkImage RGBA (24, 24)
         (alpha_over_px (PIL.new RGBA (24, 24) bgcolor) (transform_image top blockID)
            (Pos 0 0) (Some (transform_image top blockID)))).
Proof.
  intros Ht. unfold _build_block.
  rewrite alpha_over_self; [reflexivity | reflexivity | by rewrite transform_image_mode].
Qed.

Lemma build_block_top_raises top blockID :
  im_mode top = RGB ∨ im_mode top = LA →
  _build_block top None blockID = Raise ValueError.
Proof.
  intros Ht. unfold _build_block. cbv zeta. apply alpha_over_bad_mask.
  cbn [from_option id]. rewrite transform_image_mode. tauto.
Qed.

(** C5.  For a kind that takes the default placement: the image
    [_build_block] returns for a top and a side tile has pixel (13,23)
    equal to (12,23), (17,21) to (16,21), (21,19) to (20,19), (3,4) to
    (4,4), (7,2) to (8,2) and (11,0) to (12,0), all of them inside the 24x24
    frame; and on RGBA tiles it does return. *)
Theorem build_block_seams top side blockID :
  in_ints blockID [37; 38; 6; 39; 40; 83; 81; 44; 78] = false →
  (im_mode top = RGBA → im_mode side = RGBA →
   ∃ img, _build_block top (Some side) blockID = Ret img) ∧
  (∀ img, _build_block top (Some side) blockID = Ret img →
     im_size img = (24, 24) ∧
     PIL.getpixel img (13, 23) = PIL.getpixel img (12, 23) ∧
     PIL.getpixel img (17, 21) = PIL.getpixel img (16, 21) ∧
     PIL.getpixel img (21, 19) = PIL.getpixel img (20, 19) ∧
     PIL.getpixel img (3, 4) = PIL.getpixel img (4, 4) ∧
     PIL.getpixel img (7, 2) = PIL.getpixel img (8, 2) ∧
     PIL.getpixel img (11, 0) = PIL.getpixel img (12, 0) ∧
     is_ret (PIL.getpixel img (13, 23)) = true).
Proof.
  intros Hk. split.
  { intros Ht Hm. destruct (build_block_ok top side blockID Ht Hm) as (img & H & _). eauto. }
  intros img. unfold _build_block.
  destruct (_build_block_sides side blockID) as [[l r]|e]; [|discriminate].
  cbn [mbind result_bind].
  assert (in_ints blockID [37; 38; 6; 39; 40; 83] = false ∧ in_ints blockID [81] = false ∧
          in_ints blockID [44] = false ∧ in_ints blockID [78] = false) as (-> & -> & -> & ->).
  { destruct blockID as [k|]; [|done]. cbn in Hk |- *.
    repeat (apply orb_false_elim in Hk as [? Hk]).
    repeat split; repeat (apply orb_false_intro; [done|]); done. }
  destruct (composite.alpha_over (PIL.new RGBA (24, 24) bgcolor) l (Pos 0 6) (Some l))
    as [i1|] eqn:E1; [|discriminate].
  cbn [mbind result_bind].
  destruct (composite.alpha_over i1 r (Pos 12 6) (Some r)) as [i2|] eqn:E2; [|discriminate].
  cbn [mbind result_bind].
  destruct (composite.alpha_over i2 _ (Pos 0 0) _) as [i3|] eqn:E3; [|discriminate].
  cbn [mbind result_bind].
  apply alpha_over_frame in E1 as [_ S1], E2 as [_ S2], E3 as [_ S3].
  assert (Hs : im_size i3 = (24, 24)) by (rewrite S3, S2, S1; reflexivity).
  destruct (touch_up_spec i3 Hs) as (out & Ho & _ & Hos & H1 & H2 & H3 & H4 & H5 & H6).
  rewrite Ho. intros [= <-]. split; [exact Hos|].
  unfold PIL.getpixel, in_image. rewrite Hos. cbn.
  rewrite H1, H2, H3, H4, H5, H6. done.
Qed.

Context (files : Files).

Lemma terrain_images_length : length (terrain_images files) = 256%nat.
Proof. reflexivity. Qed.

Lemma run_returns (m : result Image) (rest : result (option Sprite)) :
  ((m ≫= returns) ≫= λ r, match r with Some s => Ret (Some s) | None => rest end) =
  (m ≫= returns).
Proof.
  destruct m as [img|e]; [|reflexivity]. cbn. unfold returns.
  destruct (rgb_and_alpha img); reflexivity.
Qed.

(** A statement of the generator whose kind test fails on the kind at hand
    is passed over. *)
Ltac skip_branch b :=
  match goal with
  | |- context [b ?K ?f ?k ?d] => change (b K f k d) with (@Ret (option Sprite) None)
  end; cbn [mbind result_bind].

(** Pass over every statement that can be passed over. *)
Ltac skip_branches :=
  unfold generate_special_texture, branches; cbn [run];
  try skip_branch @special_grass; try skip_branch @special_saplings;
  try skip_branch @special_water; try skip_branch @special_wood;
  try skip_branch @special_leaves; try skip_branch @special_dispenser;
  try skip_branch @special_wool; try skip_branch @special_slabs;
  try skip_branch @special_torches; try skip_branch @special_fire;
  try skip_branch @special_stairs; try skip_branch @special_redstone;
  try skip_branch @special_crafting_table; try skip_branch @special_crops;
  try skip_branch @special_furnace; try skip_branch @special_lit_furnace;
  try skip_branch @special_doors; try skip_branch @special_ladder;
  try skip_branch @special_rails; try skip_branch @special_fences;
  try skip_branch @special_pumpkins; try skip_branch @special_cake.

(** C9.  The spruce sapling is the default sapling: [data] 1 and [data] 0
    of kind 6 generate the same result, the block built from tile 15 on top
    and on the sides. *)
Theorem sapling_spruce_is_default :
  generate_special_texture files 6 1 = generate_special_texture files 6 0 ∧
  ∃ tile, getitem (terrain_images files) 15 = Ret tile ∧
    generate_special_texture files 6 0 =
      (img ← _build_block tile (Some tile) (Some 6); returns img).
Proof.
  split; [reflexivity|]. eexists. split; [reflexivity|].
  unfold generate_special_texture, branches. cbn [run].
  unfold special_grass, special_saplings. cbn -[returns _build_block].
  apply run_returns.
Qed.

(** With a top and a bottom and no side, [_build_full_block] lays the
    projected bottom, a 24x12 image, under the mask [top], the top tile as
    it was passed in: a top of any other size stops the builder. *)
Lemma full_block_top_mask_size top bottom blockID :
  im_size top ≠ (24, 12) →
  _build_full_block (Some top) None None None None (Some bottom) blockID =
  Raise ValueError.
Proof.
  intros Hs. unfold _build_full_block. cbn [side_face mbind result_bind].
  rewrite alpha_over_bad_mask; [reflexivity|]. right. right. exact Hs.
Qed.

(** With an RGBA top of 24x12 the bottom is laid under the alpha of that
    top, and then the projected top under its own. *)
Lemma full_block_top_and_bottom top bottom blockID :
  im_mode top = RGBA → im_size top = (24, 12) → im_mode bottom = RGBA →
  _build_full_block (Some top) None None None None (Some bottom) blockID =
  Ret (mkImage RGBA (24, 24)
         (alpha_over_px
            (mkImage RGBA (24, 24)
               (alpha_over_px (PIL.new RGBA (24, 24) bgcolor)
                  (transform_image bottom blockID) (Pos 0 12) (Some top)))
            (transform_image top blockID) (Pos 0 0)
            (Some (transform_image top blockID)))).
Proof.
  intros Ht Hs Hb. unfold _build_full_block. cbn [side_face mbind result_bind].
  rewrite alpha_over_rgba;
    [|reflexivity | by rewrite transform_image_mode | by split].
  cbn [mbind result_bind].
  rewrite alpha_over_self; [reflexivity | reflexivity | by rewrite transform_image_mode].
Qed.

(** Faces passed as [None] add nothing: with no top, an RGBA bottom goes
    under the mask [None], that is its own alpha, and with no face at all
    the canvas comes back empty. *)
Lemma full_block_null_faces bottom blockID :
  _build_full_block None None None None None None blockID =
    Ret (PIL.new RGBA (24, 24) bgcolor) ∧
  (im_mode bottom = RGBA →
   _build_full_block None None None None None (Some bottom) blockID =
     Ret (mkImage RGBA (24, 24)
            (alpha_over_px (PIL.new RGBA (24, 24) bgcolor)
               (transform_image bottom blockID) (Pos 0 12) None))).
Proof.
  split; [reflexivity|]. intros Hb. unfold _build_full_block.
  cbn [side_face mbind result_bind].
  rewrite alpha_over_rgba; [reflexivity | reflexivity | by rewrite transform_image_mode | done].
Qed.

(** A kind that no statement of the generator names falls through all of
    them to the final [return None]. *)
Lemma generate_unhandled_kind blockID data :
  blockID ∉ handled_kinds →
  generate_special_texture files blockID data = Ret None.
Proof.
  intros Hk.
  assert (E : ∀ k, bool_decide (k ∈ handled_kinds) = true → (blockID =? k) = false).
  { intros k Hin. apply Z.eqb_neq. intros ->. apply Hk.
    by apply bool_decide_eq_true in Hin. }
  unfold generate_special_texture, branches. cbn [run].
  unfold special_grass, special_saplings, special_water, special_wood, special_leaves,
    special_dispenser, special_wool, special_slabs, special_torches, special_fire,
    special_stairs, special_redstone, special_crafting_table, special_crops,
    special_furnace, special_lit_furnace, special_doors, special_ladder, special_rails,
    special_fences, special_pumpkins, special_cake.
  rewrite !E by reflexivity. reflexivity.
Qed.

(** Wood, wool, slabs and ladders with a state their statement does not
    test for leave the statement without a [return] and end at the final
    [return None] as well. *)
Lemma generate_unmatched_state blockID data :
  (blockID = 17 ∧ ¬ (0 ≤ data ≤ 2)) ∨ (blockID = 35 ∧ ¬ (0 ≤ data ≤ 15)) ∨
  ((blockID = 43 ∨ blockID = 44) ∧ ¬ (0 ≤ data ≤ 3)) ∨ (blockID = 65 ∧ ¬ (2 ≤ data ≤ 5)) →
  generate_special_texture files blockID data = Ret None.
Proof.
  intros Hc.
  assert (E : ∀ k, data ≠ k → (data =? k) = false) by (intros; by apply Z.eqb_neq).
  destruct Hc as [[-> Hd] | [[-> Hd] | [[[-> | ->] Hd] | [-> Hd]]]]; skip_branches;
    unfold special_wood, special_wool, special_slabs, special_ladder;
    rewrite !E by lia; reflexivity.
Qed.

Lemma terrain_images_tiles :
  Forall (λ t, im_mode t = im_mode (terrain_png files) ∧ im_size t = (16, 16))
    (terrain_images files).
Proof.
  apply Forall_forall. intros t Ht. unfold terrain_images, _split_terrain in Ht.
  apply list_elem_of_bind in Ht as (y & Ht & _).
  apply list_elem_of_bind in Ht as (x & Ht & _).
  apply list_elem_of_singleton in Ht as ->. done.
Qed.

Lemma getitem_tile i :
  0 ≤ i < 256 →
  ∃ t, getitem (terrain_images files) i = Ret t ∧
       im_mode t = im_mode (terrain_png files) ∧ im_size t = (16, 16).
Proof.
  intros Hi. unfold getitem. rewrite terrain_images_length.
  replace (i <? 0) with false by (symmetry; apply Z.ltb_ge; lia).
  replace ((0 <=? i) && (i <? Z.of_nat 256)) with true
    by (symmetry; apply andb_true_intro; split; [apply Z.leb_le | apply Z.ltb_lt]; lia).
  destruct (terrain_images files !! Z.to_nat i) as [t|] eqn:Ht.
  - exists t. split; [reflexivity|].
    eapply (Forall_lookup_1 _ _ _ _ terrain_images_tiles Ht).
  - apply lookup_ge_None in Ht. rewrite terrain_images_length in Ht. lia.
Qed.

(** C2.  What the code does for a torch (50, 75 or 76) whose [data] is
    none of 1 to 5: it does not return [None], it raises.  On an RGBA atlas
    the exception is UnboundLocalError, since the final [return] of the
    torch statement reads an [img] that no branch has assigned.  (On an
    atlas that is not RGBA the three compositing calls of lines 626-628
    before the state tests may raise first.) *)
Theorem torch_outside_domain blockID data :
  blockID = 50 ∨ blockID = 75 ∨ blockID = 76 → ¬ (1 ≤ data ≤ 5) →
  (∃ e, generate_special_texture files blockID data = Raise e) ∧
  (im_mode (terrain_png files) = RGBA →
   generate_special_texture files blockID data = Raise UnboundLocalError).
Proof.
  intros Hb Hd.
  assert (E : ∀ k, data ≠ k → (data =? k) = false) by (intros; by apply Z.eqb_neq).
  assert (Hsmall : ∃ small,
            (if blockID =? 50 then getitem (terrain_images files) 80
             else if blockID =? 75 then getitem (terrain_images files) 115
             else getitem (terrain_images files) 99) = Ret small ∧
            im_mode small = im_mode (terrain_png files)).
  { destruct (blockID =? 50); [|destruct (blockID =? 75)];
      [destruct (getitem_tile 80) as (t & Ht & Hm & _)
      |destruct (getitem_tile 115) as (t & Ht & Hm & _)
      |destruct (getitem_tile 99) as (t & Ht & Hm & _)]; try lia; eauto. }
  destruct Hsmall as (small & Hsmall & Hmode).
  assert (Hrun : generate_special_texture files blockID data =
                 (torch ← composite.alpha_over (PIL.new RGBA (16, 16) bgcolor) small
                            (Pos (-4) (-3)) None;
                  torch ← composite.alpha_over torch small (Pos (-5) (-2)) None;
                  torch ← composite.alpha_over torch small (Pos (-3) (-2)) None;
                  Raise UnboundLocalError)).
  { destruct Hb as [-> | [-> | ->]]; skip_branches;
      unfold special_torches; rewrite !E by lia;
      cbn [Z.eqb Pos.eqb orb] in Hsmall |- *; rewrite Hsmall; cbn [mbind result_bind];
      repeat (destruct (composite.alpha_over _ _ _ _); cbn [mbind result_bind]);
      reflexivity. }
  rewrite Hrun. split.
  - repeat (destruct (composite.alpha_over _ _ _ _); cbn [mbind result_bind]); eauto.
  - intros Hm. rewrite Hm in Hmode.
    rewrite alpha_over_rgba by done. cbn [mbind result_bind].
    rewrite alpha_over_rgba by done. cbn [mbind result_bind].
    rewrite alpha_over_rgba by done. reflexivity.
Qed.

Lemma generate_redstone data :
  generate_special_texture files 55 data =
  ('(redstone_wire_t, redstone_cross_t) ← redstone_tiles files data;
   bottom ← redstone_bottom redstone_wire_t redstone_cross_t data;
   let side1 :=
     if Z.land data 32 =? 32 then Some (PIL.rotate redstone_wire_t 90 NEAREST) else None in
   let side2 :=
     if Z.land data 16 =? 16 then Some (PIL.rotate redstone_wire_t 90 NEAREST) else None in
   img ← _build_full_block None side1 side2 None None (Some bottom) None;
   returns img).
Proof.
  skip_branches. unfold special_redstone. change (55 =? 55) with true. cbv iota.
  destruct (redstone_tiles files data) as [[w c]|e]; [|reflexivity].
  cbn [mbind result_bind].
  destruct (redstone_bottom w c data) as [bottom|e]; [|reflexivity].
  cbn [mbind result_bind]. apply run_returns.
Qed.

(** C6.  Redstone wire (kind 55) with bit 64 of the state clear, on an
    RGBA atlas: when the low four bits are 0b1010 the bottom texture is the
    straight-wire tile (165) tinted (48,0,0), not rotated; when they are
    0b0101 it is that tile rotated by 90 degrees; and the sprite generated
    is the full block built on that bottom. *)
Theorem redstone_straight_bottom data :
  im_mode (terrain_png files) = RGBA →
  Z.land data 64 ≠ 64 →
  Z.land data 15 = 10 ∨ Z.land data 15 = 5 →
  ∃ tile wire cross,
    getitem (terrain_images files) 165 = Ret tile ∧
    tintTexture tile (48, 0, 0) = Ret wire ∧
    redstone_tiles files data = Ret (wire, cross) ∧
    (Z.land data 15 = 10 → redstone_bottom wire cross data = Ret wire) ∧
    (Z.land data 15 = 5 →
     redstone_bottom wire cross data = Ret (PIL.rotate wire 90 NEAREST)) ∧
    generate_special_texture files 55 data =
      (bottom ← redstone_bottom wire cross data;
       img ← _build_full_block None
               (if Z.land data 32 =? 32 then Some (PIL.rotate wire 90 NEAREST) else None)
               (if Z.land data 16 =? 16 then Some (PIL.rotate wire 90 NEAREST) else None)
               None None (Some bottom) None;
       returns img).
Proof.
  intros Hm Hp Hd.
  destruct (getitem_tile 165) as (t165 & Ht165 & Hm165 & _); [lia|].
  destruct (getitem_tile 164) as (t164 & Ht164 & Hm164 & _); [lia|].
  rewrite Hm in Hm165, Hm164.
  destruct (tintTexture_returns t165 (48, 0, 0) Hm165) as (wire & Hw & _).
  destruct (tintTexture_returns t164 (48, 0, 0) Hm164) as (cross & Hc & _).
  assert (Ht : redstone_tiles files data = Ret (wire, cross)).
  { unfold redstone_tiles. apply Z.eqb_neq in Hp. rewrite Hp.
    rewrite Ht165. cbn [mbind result_bind]. rewrite Hw. cbn [mbind result_bind].
    rewrite Ht164. cbn [mbind result_bind]. rewrite Hc. reflexivity. }
  assert (H63 : (Z.land data 63 =? 0) = false).
  { apply Z.eqb_neq. intros H0.
    assert (H15 : Z.land data 15 = Z.land (Z.land data 63) 15)
      by (rewrite <- Z.land_assoc; reflexivity).
    rewrite H0, Z.land_0_l in H15. lia. }
  exists t165, wire, cross. repeat split; try done.
  - intros H10. unfold redstone_bottom. rewrite H63, H10. reflexivity.
  - intros H5. unfold redstone_bottom. rewrite H63, H5. reflexivity.
  - rewrite generate_redstone, Ht. reflexivity.
Qed.


Lemma rgb_and_alpha_spec img :
  im_mode img = RGBA → rgb_and_alpha img = Ret (PIL.convert img RGB, PIL.band img 3).
Proof. intros Hm. unfold rgb_and_alpha. rewrite (alpha_band _ Hm). reflexivity. Qed.

Lemma setitem_ok {A} (l : list A) (i : nat) (v : A) :
  (i < length l)%nat → setitem l (Z.of_nat i) v = Ret (<[i := v]> l).
Proof.
  intros Hi. unfold setitem.
  replace (Z.of_nat i <? 0) with false by (symmetry; apply Z.ltb_ge; lia).
  replace ((0 <=? Z.of_nat i) && (Z.of_nat i <? Z.of_nat (length l))) with true
    by (symmetry; apply andb_true_intro; split; [apply Z.leb_le | apply Z.ltb_lt]; lia).
  rewrite Nat2Z.id. reflexivity.
Qed.

Lemma getitem_ok {A} (l : list A) (i : nat) (a : A) :
  l !! i = Some a → getitem l (Z.of_nat i) = Ret a.
Proof.
  intros Hl. pose proof (lookup_lt_Some _ _ _ Hl) as Hi. unfold getitem.
  replace (Z.of_nat i <? 0) with false by (symmetry; apply Z.ltb_ge; lia).
  replace ((0 <=? Z.of_nat i) && (Z.of_nat i <? Z.of_nat (length l))) with true
    by (symmetry; apply andb_true_intro; split; [apply Z.leb_le | apply Z.ltb_lt]; lia).
  rewrite Nat2Z.id, Hl. reflexivity.
Qed.

Lemma blockimages_body_spec acc item :
  im_mode (terrain_png files) = RGBA → item_ok item = true → blockimages_inv acc →
  ∃ acc', blockimages_body files acc item = Ret acc' ∧ blockimages_inv acc' ∧
          length acc'.2 = S (length acc.2).
Proof.
  intros Hm Hok [Hh Hs]. destruct item as [[t s] b], acc as [h l].
  unfold blockimages_body. unfold item_ok in Hok.
  destruct ((t =? -1) || (s =? -1)) eqn:Hskip.
  - eexists. split; [reflexivity|]. split; [split|]; cbn.
    + exact Hh.
    + apply Forall_app. split; [exact Hs|]. by constructor.
    + rewrite length_app. cbn. lia.
  - cbn [orb] in Hok.
    apply andb_true_iff in Hok as [Hok Hs2]. apply andb_true_iff in Hok as [Hok Hs1].
    apply andb_true_iff in Hok as [Ht1 Ht2].
    destruct (getitem_tile t) as (tt & Htt & Hmt & _); [lia|].
    destruct (getitem_tile s) as (ts & Hts & Hms & _); [lia|].
    rewrite Hm in Hmt, Hms.
    destruct (build_block_ok tt ts (Some b) Hmt Hms) as (img & Hi & Him & _).
    rewrite Htt. cbn [mbind result_bind]. rewrite Hts. cbn [mbind result_bind].
    rewrite Hi. cbn [mbind result_bind]. rewrite (rgb_and_alpha_spec _ Him).
    cbn [mbind result_bind alloc].
    eexists. split; [reflexivity|]. split; [split|]; cbn.
    + apply Forall_app. split; [exact Hh|]. constructor; [|constructor].
      exists img. done.
    + apply Forall_app. split.
      * eapply Forall_impl; [exact Hs|]. cbn. intros slot H r Hr.
        rewrite length_app. cbn. specialize (H r Hr). lia.
      * constructor; [|constructor]. intros r [= <-]. rewrite length_app. cbn. lia.
    + rewrite length_app. cbn. lia.
Qed.

Lemma blockimages_loop items acc :
  im_mode (terrain_png files) = RGBA → forallb item_ok items = true → blockimages_inv acc →
  ∃ acc', for_each (blockimages_body files) items acc = Ret acc' ∧ blockimages_inv acc' ∧
          length acc'.2 = (length acc.2 + length items)%nat.
Proof.
  intros Hm. revert acc. induction items as [|item items IH]; intros acc Hok Hinv.
  - exists acc. cbn. split; [done|]. split; [done|]. lia.
  - cbn in Hok. apply andb_true_iff in Hok as [Hi Hok].
    destruct (blockimages_body_spec acc item Hm Hi Hinv) as (acc1 & H1 & Hinv1 & Hl1).
    destruct (IH acc1 Hok Hinv1) as (acc2 & H2 & Hinv2 & Hl2).
    exists acc2. cbn [for_each]. rewrite H1. cbn [mbind result_bind].
    split; [exact H2|]. split; [exact Hinv2|]. rewrite Hl2, Hl1. cbn. lia.
Qed.

Lemma build_blockimages_spec :
  im_mode (terrain_png files) = RGBA →
  ∃ st, _build_blockimages files = Ret st ∧ blockimages_inv st ∧ length st.2 = 256%nat.
Proof.
  intros Hm.
  destruct (blockimages_loop
              (zip (zip topids sideids) (range (Z.of_nat (length topids)))) ([], []) Hm)
    as ([h l] & Hloop & [Hh Hs] & Hlen).
  { vm_compute. reflexivity. }
  { split; constructor. }
  unfold _build_blockimages. change (negb (length topids =? length sideids)%nat) with false.
  cbv iota.
  rewrite Hloop. cbn [mbind result_bind].
  eexists. split; [reflexivity|]. cbn in Hlen. cbn [fst snd].
  split; [split|]; cbn [fst snd].
  - exact Hh.
  - apply Forall_app. split; [exact Hs|]. apply Forall_replicate. done.
  - rewrite length_app, length_replicate, Hlen. reflexivity.
Qed.


(** C10.  After [load_water], on RGBA files: slots 9, 8 and 10 of the
    block map refer to tuples whose second component is the whole RGBA
    image [_build_block] returned (top only for 9, full cube for 8 and 10),
    slot 11 holds the same reference as slot 10, and the tuple of every
    other filled slot has the separated alpha band, an [L] image, as its
    second component. *)
Theorem blockmap_water_lava :
  im_mode (terrain_png files) = RGBA →
  im_mode (water_png files) = RGBA →
  im_mode (lava_png files) = RGBA →
  ∃ h slots w1 w2 lavablock r9 r8 r10,
    blockmap files = Ret (h, slots) ∧
    _build_block (water_png files) None None = Ret w1 ∧
    _build_block (water_png files) (Some (water_png files)) None = Ret w2 ∧
    _build_block (lava_png files) (Some (lava_png files)) None = Ret lavablock ∧
    im_mode w1 = RGBA ∧ im_mode w2 = RGBA ∧ im_mode lavablock = RGBA ∧
    slots !! 9%nat = Some (Some r9) ∧ h !! r9 = Some (PIL.convert w1 RGB, w1) ∧
    slots !! 8%nat = Some (Some r8) ∧ h !! r8 = Some (PIL.convert w2 RGB, w2) ∧
    slots !! 10%nat = Some (Some r10) ∧
    h !! r10 = Some (PIL.convert lavablock RGB, lavablock) ∧
    slots !! 11%nat = Some (Some r10) ∧
    ∀ k r s, k ∉ [8; 9; 10; 11]%nat → slots !! k = Some (Some r) → h !! r = Some s →
      alpha_band_tuple s ∧ im_mode s.2 = L.
Proof.
  intros Hmt Hmw Hml.
  destruct (build_blockimages_spec Hmt) as ([h0 l0] & Hb & [Hh Hs] & Hlen).
  cbn [fst snd] in Hh, Hs, Hlen.
  destruct (build_block_ok (water_png files) (water_png files) None Hmw Hmw)
    as (w2 & Hw2 & Hw2m & _).
  destruct (build_block_ok (lava_png files) (lava_png files) None Hml Hml)
    as (lv & Hlv & Hlvm & _).
  set (w1 := mkImage RGBA (24, 24)
               (alpha_over_px (PIL.new RGBA (24, 24) bgcolor)
                  (transform_image (water_png files) None) (Pos 0 0)
                  (Some (transform_image (water_png files) None)))).
  assert (Hw1 : _build_block (water_png files) None None = Ret w1)
    by (by apply build_block_top_only).
  set (h1 := h0 ++ [(PIL.convert w1 RGB, w1)]).
  set (h2 := h1 ++ [(PIL.convert w2 RGB, w2)]).
  set (h3 := h2 ++ [(PIL.convert lv RGB, lv)]).
  set (r9 := length h0). set (r8 := length h1). set (r10 := length h2).
  set (l1 := <[9%nat := Some r9]> l0).
  set (l2 := <[8%nat := Some r8]> l1).
  set (l3 := <[10%nat := Some r10]> l2).
  set (l4 := <[11%nat := Some r10]> l3).
  assert (Hl1 : length l1 = 256%nat) by (unfold l1; rewrite length_insert; done).
  assert (Hl2 : length l2 = 256%nat) by (unfold l2; rewrite length_insert; done).
  assert (Hl3 : length l3 = 256%nat) by (unfold l3; rewrite length_insert; done).
  assert (H10 : l3 !! 10%nat = Some (Some r10))
    by (unfold l3; apply list_lookup_insert_eq; lia).
  assert (Hrun : blockmap files = Ret (h3, l4)).
  { unfold blockmap. rewrite Hb. cbn [mbind result_bind]. unfold load_water.
    change (_load_image files "water.png") with (Ret (water_png files)).
    cbn [mbind result_bind].
    rewrite Hw1.
    cbn [mbind result_bind alloc].
    rewrite (setitem_ok l0 9 _) by lia. cbn [mbind result_bind].
    rewrite Hw2. cbn [mbind result_bind].
    rewrite (setitem_ok _ 8 _) by (rewrite length_insert; lia). cbn [mbind result_bind].
    change (_load_image files "lava.png") with (Ret (lava_png files)).
    cbn [mbind result_bind]. rewrite Hlv. cbn [mbind result_bind].
    rewrite (setitem_ok _ 10 _) by (rewrite !length_insert; lia). cbn [mbind result_bind].
    erewrite (getitem_ok _ 10) by exact H10. cbn [mbind result_bind].
    rewrite (setitem_ok _ 11 _) by (rewrite !length_insert; lia). reflexivity. }
  exists h3, l4, w1, w2, lv, r9, r8, r10.
  split; [exact Hrun|]. split; [exact Hw1|]. split; [exact Hw2|]. split; [exact Hlv|].
  split; [reflexivity|]. split; [exact Hw2m|]. split; [exact Hlvm|].
  assert (Hr9 : h3 !! r9 = Some (PIL.convert w1 RGB, w1)).
  { unfold h3, h2, h1, r9. rewrite <- !app_assoc. apply list_lookup_middle. done. }
  assert (Hr8 : h3 !! r8 = Some (PIL.convert w2 RGB, w2)).
  { unfold h3, h2, r8. rewrite <- !app_assoc. apply list_lookup_middle. done. }
  assert (Hr10 : h3 !! r10 = Some (PIL.convert lv RGB, lv)).
  { unfold h3, r10. apply list_lookup_middle. done. }
  split. { unfold l4, l3, l2. rewrite !list_lookup_insert_ne by lia.
           apply list_lookup_insert_eq. lia. }
  split; [exact Hr9|].
  split. { unfold l4, l3. rewrite !list_lookup_insert_ne by lia.
           apply list_lookup_insert_eq. lia. }
  split; [exact Hr8|].
  split. { unfold l4. rewrite list_lookup_insert_ne by lia. exact H10. }
  split; [exact Hr10|].
  split. { unfold l4. apply list_lookup_insert_eq. lia. }
  intros k r s Hk Hslot Hr.
  assert (k ≠ 8 ∧ k ≠ 9 ∧ k ≠ 10 ∧ k ≠ 11)%nat as (?&?&?&?).
  { repeat split; intros ->; apply Hk; repeat constructor. }
  unfold l4, l3, l2, l1 in Hslot. rewrite !list_lookup_insert_ne in Hslot by done.
  pose proof (Forall_lookup_1 _ _ _ _ Hs Hslot r eq_refl) as Hlt.
  unfold h3, h2, h1 in Hr.
  do 3 (rewrite lookup_app_l in Hr by (rewrite ?length_app; lia)).
  pose proof (Forall_lookup_1 _ _ _ _ Hh Hr) as Ht.
  split; [exact Ht|]. destruct Ht as (img & _ & ->). reflexivity.
Qed.


Lemma declared_pairs_spec kd : kd ∈ declared_pairs ↔ declared kd.
Proof.
  unfold declared_pairs, declared. rewrite list_elem_of_bind. split.
  - intros (k & Hkd & Hk). apply list_elem_of_bind in Hkd as (d & Hkd & Hd).
    apply list_elem_of_singleton in Hkd as ->. apply elem_of_elements in Hk. done.
  - intros [Hk Hd]. exists kd.1. split; [|by apply elem_of_elements].
    apply list_elem_of_bind. exists kd.2. split; [|done].
    destruct kd. apply list_elem_of_singleton. done.
Qed.

Lemma is_ret_value {A} (r : result A) : is_ret r = true → ∃ a, r = Ret a.
Proof. destruct r; [eauto | discriminate]. Qed.

Lemma fill_states_spec (k : Z) (l : list Z) (m : gmap (Z * Z) (option Sprite)) :
  (∀ d, d ∈ l → is_ret (generate_special_texture files k d) = true) →
  ∃ m', for_each (λ m data, v ← generate_special_texture files k data;
                            Ret (<[(k, data) := v]> m)) l m = Ret m' ∧
    ∀ key, m' !! key =
      if decide (key.1 = k ∧ key.2 ∈ l)
      then Some (value_of (generate_special_texture files key.1 key.2))
      else m !! key.
Proof.
  revert m. induction l as [|d l IH]; intros m Hok.
  - exists m. split; [done|]. intros key. case_decide as H; [|done].
    destruct H as [_ H]. by apply not_elem_of_nil in H.
  - destruct (is_ret_value _ (Hok d ltac:(left))) as (v & Hv).
    destruct (IH (<[(k, d) := v]> m)) as (m' & Hm' & Hlook).
    { intros d' Hd'. apply Hok. by right. }
    exists m'. cbn [for_each]. rewrite Hv. cbn [mbind result_bind].
    split; [exact Hm'|]. intros key. rewrite Hlook.
    destruct key as [k' d']. cbn [fst snd].
    destruct (decide (k' = k ∧ d' ∈ l)) as [[-> Hd']|Hn].
    + rewrite decide_True by (split; [done | by right]). done.
    + destruct (decide ((k', d') = (k, d))) as [[= -> ->]|Hne].
      * rewrite lookup_insert_eq, Hv, decide_True by (split; [done | left]). done.
      * rewrite lookup_insert_ne by done. rewrite decide_False; [done|].
        intros [-> [-> | Hd']%elem_of_cons]; [done | tauto].
Qed.

Lemma fill_kind_states (m : gmap (Z * Z) (option Sprite)) (k : Z) (l : list Z) :
  special_map !! k = Some l →
  fill_kind files m k =
  for_each (λ m data, v ← generate_special_texture files k data;
                      Ret (<[(k, data) := v]> m)) l m.
Proof. intros Hl. unfold fill_kind, dict_get. rewrite Hl. reflexivity. Qed.

Lemma fill_kinds_spec (ks : list Z) (m : gmap (Z * Z) (option Sprite)) :
  (∀ k, k ∈ ks → is_Some (special_map !! k)) →
  (∀ k d, k ∈ ks → d ∈ states k → is_ret (generate_special_texture files k d) = true) →
  ∃ m', for_each (fill_kind files) ks m = Ret m' ∧
    ∀ key, m' !! key =
      if decide (key.1 ∈ ks ∧ key.2 ∈ states key.1)
      then Some (value_of (generate_special_texture files key.1 key.2))
      else m !! key.
Proof.
  revert m. induction ks as [|k ks IH]; intros m Hmap Hok.
  - exists m. split; [done|]. intros key. case_decide as H; [|done].
    destruct H as [H _]. by apply not_elem_of_nil in H.
  - destruct (Hmap k ltac:(left)) as (l & Hl).
    assert (Hst : states k = l) by (unfold states; rewrite Hl; done).
    destruct (fill_states_spec k l m) as (m1 & Hm1 & Hlook1).
    { intros d Hd. apply Hok; [left | by rewrite Hst]. }
    destruct (IH m1) as (m' & Hm' & Hlook).
    { intros k' Hk'. apply Hmap. by right. }
    { intros k' d Hk'. apply Hok. by right. }
    exists m'. cbn [for_each]. rewrite (fill_kind_states m k l Hl), Hm1. cbn [mbind result_bind].
    split; [exact Hm'|]. intros key. rewrite Hlook, Hlook1.
    destruct key as [k' d']. cbn [fst snd].
    destruct (decide (k' ∈ ks ∧ d' ∈ states k')) as [[H1 H2]|H1].
    + rewrite decide_True by (split; [by right | exact H2]). reflexivity.
    + destruct (decide (k' = k ∧ d' ∈ l)) as [[-> H3]|H3].
      * rewrite decide_True by (split; [left | by rewrite Hst]). reflexivity.
      * rewrite decide_False; [reflexivity|].
        intros [[-> | H4]%elem_of_cons H5].
        -- apply H3. split; [reflexivity | by rewrite <- Hst].
        -- apply H1. split; assumption.
Qed.

Lemma special_blocks_mapped k : k ∈ elements special_blocks → is_Some (special_map !! k).
Proof.
  intros Hk. 
  assert (H : forallb (λ k, bool_decide (is_Some (special_map !! k)))
                (elements special_blocks) = true) by (vm_compute; reflexivity).
  rewrite forallb_forall in H. apply list_elem_of_In in Hk.
  specialize (H k Hk). by apply bool_decide_eq_true in H.
Qed.

Lemma generate_declared kd :
  files_rgba files → declared kd →
  generated_ok kd (generate_special_texture files kd.1 kd.2) = true.
Proof.
  intros (Ht & Hw & Hl & Hf) Hd. apply declared_pairs_spec, list_elem_of_In in Hd.
  revert kd Hd. apply forallb_forall.
  destruct files as [[mt st pt] [mw sw pw] [ml sl pl] [mf sf pf]].
  cbn in Ht, Hw, Hl, Hf. subst. vm_compute. reflexivity.
Qed.

(** The cache, entry by entry: every declared pair has an entry, a
    sprite everywhere but at (17, 3), and no other key has one. *)
Lemma special_cache_contents :
  files_rgba files →
  ∃ m, specialblockmap files = Ret m ∧
    ∀ k d,
      (declared (k, d) → (k, d) ≠ (17, 3) → ∃ s, m !! (k, d) = Some (Some s)) ∧
      (declared (k, d) → (k, d) = (17, 3) → m !! (k, d) = Some None) ∧
      (¬ declared (k, d) → m !! (k, d) = None).
Proof.
  intros Hf.
  destruct (fill_kinds_spec (elements special_blocks) ∅) as (m & Hm & Hlook).
  { apply special_blocks_mapped. }
  { intros k d Hk Hd. pose proof (generate_declared (k, d) Hf) as H.
    cbn [fst snd] in H. unfold generated_ok in H.
    destruct (generate_special_texture files k d); [done|].
    apply H. split; [by apply elem_of_elements | done]. }
  exists m. split; [exact Hm|]. intros k d.
  specialize (Hlook (k, d)). cbn [fst snd] in Hlook.
  assert (Hdec : (k ∈ elements special_blocks ∧ d ∈ states k) ↔ declared (k, d)).
  { unfold declared. cbn [fst snd]. by rewrite elem_of_elements. }
  repeat split.
  - intros Hd Hne. pose proof (generate_declared (k, d) Hf Hd) as H.
    rewrite decide_True in Hlook by (by apply Hdec).
    cbn [fst snd] in H. unfold generated_ok in H.
    destruct (generate_special_texture files k d) as [[s|]|e]; try done.
    + exists s. exact Hlook.
    + exfalso. apply Hne. apply andb_true_iff in H as [H1 H2].
      apply Z.eqb_eq in H1, H2. cbn in H1, H2. by subst.
  - intros Hd [= -> ->]. rewrite decide_True in Hlook by (by apply Hdec).
    exact Hlook.
  - intros Hnd. rewrite decide_False in Hlook by (by rewrite Hdec).
    rewrite Hlook. apply lookup_empty.
Qed.

(** C1.  What the code does at kind 17, state 3, a pair that
    [special_blocks] and [special_map] declare: the generator returns
    [None] without raising, so [specialblockmap] has an entry at (17, 3)
    and the entry is [None], not a sprite. *)
Theorem special_cache_wood_3 :
  files_rgba files →
  declared (17, 3) ∧
  generate_special_texture files 17 3 = Ret None ∧
  ∃ m, specialblockmap files = Ret m ∧ m !! (17, 3) = Some None.
Proof.
  intros Hf. assert (Hd : declared (17, 3)).
  { apply declared_pairs_spec. apply (bool_decide_unpack _). vm_compute. exact I. }
  split; [exact Hd|]. split; [reflexivity|].
  destruct (special_cache_contents Hf) as (m & Hm & H).
  exists m. split; [exact Hm|]. by apply (H 17 3).
Qed.

End Properties.

(** C3.  What [_build_full_block] does when a top and a bottom are both
    given: the bottom face is composited under the mask [top], the top tile
    as it was passed in, and not under its own alpha.  The projected bottom
    is a 24x12 image, so with a top of any other size, the documented 16x16
    included, the builder raises ValueError; with an RGBA top of 24x12 the
    bottom shows through the alpha of that top only.  With no top the mask
    is [None] and the bottom goes under its own alpha.  On the sample back
    end: two 16x16 tiles raise, and a fully transparent 24x12 top over an
    opaque bottom leaves the canvas empty at (12, 18), where the bottom
    under its own alpha is opaque. *)
Theorem full_block_bottom_masked_by_top :
  (∀ (K : Kernels) top bottom blockID,
     im_size top ≠ (24, 12) →
     _build_full_block (Some top) None None None None (Some bottom) blockID =
     Raise ValueError) ∧
  (∀ (K : Kernels) top bottom blockID,
     im_mode top = RGBA → im_size top = (24, 12) → im_mode bottom = RGBA →
     _build_full_block (Some top) None None None None (Some bottom) blockID =
     Ret (mkImage RGBA (24, 24)
            (alpha_over_px
               (mkImage RGBA (24, 24)
                  (alpha_over_px (PIL.new RGBA (24, 24) bgcolor)
                     (transform_image bottom blockID) (Pos 0 12) (Some top)))
               (transform_image top blockID) (Pos 0 0)
               (Some (transform_image top blockID))))) ∧
  (∀ (K : Kernels) bottom blockID,
     im_mode bottom = RGBA →
     _build_full_block None None None None None (Some bottom) blockID =
     Ret (mkImage RGBA (24, 24)
            (alpha_over_px (PIL.new RGBA (24, 24) bgcolor)
               (transform_image bottom blockID) (Pos 0 12) None))) ∧
  _build_full_block (K := Sample.kernels) (Some (Sample.flat 0 0 0 0)) None None None None
    (Some (Sample.flat 200 30 30 255)) None = Raise ValueError ∧
  (let top := mkImage RGBA (24, 12) (λ _ _, (0, 0, 0, 0)) in
   let bottom := Sample.flat 200 30 30 255 in
   ∃ img own,
     _build_full_block (K := Sample.kernels) (Some top) None None None None (Some bottom)
       None = Ret img ∧
     _build_full_block (K := Sample.kernels) None None None None None (Some bottom)
       None = Ret own ∧
     im_px img 12 18 = bgcolor ∧
     im_px own 12 18 = (200, 30, 30, 255)).
Proof.
  split; [intros; by apply full_block_top_mask_size|].
  split; [intros; by apply full_block_top_and_bottom|].
  split; [intros; by apply full_block_null_faces|].
  split; [reflexivity|].
  eexists _, _. split; [reflexivity|]. split; [reflexivity|].
  split; vm_compute; reflexivity.
Qed.

(** ** Further properties of the builders and the caches *)

Section Builders.
Context {K : Kernels}.

Ltac sixteen x H :=
  assert (x = 0 ∨ x = 1 ∨ x = 2 ∨ x = 3 ∨ x = 4 ∨ x = 5 ∨ x = 6 ∨ x = 7 ∨ x = 8 ∨
          x = 9 ∨ x = 10 ∨ x = 11 ∨ x = 12 ∨ x = 13 ∨ x = 14 ∨ x = 15) as H by lia;
  repeat (destruct H as [-> | H]); [.. | subst x].

(** X1.  [_split_terrain] returns 256 tiles in row-major order: the tile
    at index [row * 16 + col] is the 16x16 resampling of the square of the
    atlas whose corner is [(col * r, row * r)] and whose side is [r], a
    sixteenth of the atlas width (the height of the atlas is not read). *)
Theorem split_terrain_cells terrain row col :
  0 ≤ row < 16 → 0 ≤ col < 16 →
  let r := (im_size terrain).1 / 16 in
  length (_split_terrain terrain) = 256%nat ∧
  getitem (_split_terrain terrain) (row * 16 + col) =
    Ret (PIL.transform_extent terrain (16, 16)
           (col * r, row * r, col * r + r, row * r + r) BICUBIC).
Proof.
  intros Hr Hc r. split; [reflexivity|].
  sixteen row Hr'; sixteen col Hc'; reflexivity.
Qed.

Lemma darken_raises side factor :
  im_mode side ≠ RGBA → darken side factor = Raise IndexError.
Proof.
  intros Hm. unfold darken, PIL.split. destruct (im_mode side); try reflexivity. done.
Qed.

Lemma build_block_raises top side blockID :
  im_mode side ≠ RGBA → in_ints blockID [44; 78] = false →
  _build_block top (Some side) blockID = Raise IndexError.
Proof.
  intros Hm Hk. unfold _build_block, _build_block_sides.
  destruct (transform_image_side_plain side blockID Hk) as (sheared & -> & Hs & _).
  cbn [mbind result_bind].
  rewrite (darken_raises sheared); [reflexivity|]. by rewrite Hs.
Qed.

(** X5.  [_build_block] with a side tile.  On an RGBA top and an RGBA
    side it returns an RGBA image of 24x24, whatever the kind.  A side that
    is not RGBA raises IndexError at [side.split()[3]], except for the
    kinds 44 and 78, whose side tile is masked before and raises there
    (ValueError when RGB, TypeError when [L] or [LA]).  With an RGBA side, a
    top that is RGB or [LA] raises ValueError when it is laid as its own
    mask, for every kind that lays a top. *)
Theorem build_block_needs_rgba top side blockID :
  (im_mode top = RGBA → im_mode side = RGBA →
   ∃ img, _build_block top (Some side) blockID = Ret img ∧
          im_mode img = RGBA ∧ im_size img = (24, 24)) ∧
  (im_mode side ≠ RGBA → in_ints blockID [44; 78] = false →
   _build_block top (Some side) blockID = Raise IndexError) ∧
  (in_ints blockID [44; 78] = true →
   (im_mode side = RGB → _build_block top (Some side) blockID = Raise ValueError) ∧
   (im_mode side = L ∨ im_mode side = LA →
    _build_block top (Some side) blockID = Raise TypeError)) ∧
  (im_mode side = RGBA → im_mode top = RGB ∨ im_mode top = LA →
   in_ints blockID [37; 38; 6; 39; 40; 83] = false →
   _build_block top (Some side) blockID = Raise ValueError).
Proof.
  split; [apply build_block_ok|]. split; [apply build_block_raises|]. split.
  - intros Hk. destruct (transform_image_side_raises side blockID Hk) as [Hv Ht].
    split; intros Hm; unfold _build_block, _build_block_sides;
      [rewrite (Hv Hm) | rewrite (Ht Hm)]; reflexivity.
  - intros Hs Ht Hk. unfold _build_block.
    destruct (build_block_sides_ok side blockID Hs) as (l & r & -> & Hl & Hr).
    cbn [mbind result_bind]. rewrite Hk.
    assert (Hbad : ∀ img pos,
              composite.alpha_over img (transform_image top blockID) pos
                (Some (transform_image top blockID)) = Raise ValueError).
    { intros img pos. apply alpha_over_bad_mask. cbn [from_option id].
      rewrite transform_image_mode. tauto. }
    destruct (in_ints blockID [81]), (in_ints blockID [44]), (in_ints blockID [78]);
      rewrite alpha_over_self by done; cbn [mbind result_bind];
      rewrite alpha_over_self by done; cbn [mbind result_bind];
      rewrite Hbad; reflexivity.
Qed.

(** X6.  For the kinds drawn as crossed sprites (flowers, sapling,
    mushrooms, reeds) [_build_block] returns before the top is laid: the
    result does not depend on the top tile. *)
Theorem build_block_sprite_ignores_top top top' side blockID :
  in_ints blockID [37; 38; 6; 39; 40; 83] = true →
  _build_block top (Some side) blockID = _build_block top' (Some side) blockID.
Proof.
  intros Hk. unfold _build_block. destruct (_build_block_sides side blockID) as [[l r]|e];
    [|reflexivity].
  cbn [mbind result_bind]. rewrite Hk. reflexivity.
Qed.

Lemma side_face_ok img side blockID mirror factor pos :
  im_mode img = RGBA → face_ok side →
  ∃ out, side_face img side blockID mirror factor pos = Ret out ∧
         im_mode out = RGBA ∧ im_size out = im_size img.
Proof.
  intros Hm Hf. destruct side as [s|]; [|by exists img]. cbn in Hf. unfold side_face.
  destruct (transform_image_side_ok s blockID Hf) as (sheared & -> & Hs & _).
  cbn [mbind result_bind].
  set (sh := if mirror then _ else _).
  assert (Hsh : im_mode sh = RGBA) by (unfold sh; by destruct mirror).
  destruct (darken_spec sh factor Hsh) as (out & -> & Ho & _).
  cbn [mbind result_bind]. rewrite alpha_over_self by done. eauto.
Qed.

Lemma side_face_raises img side blockID mirror factor pos :
  ¬ face_ok side → in_ints blockID [44; 78] = false →
  side_face img side blockID mirror factor pos = Raise IndexError.
Proof.
  intros Hf Hk. destruct side as [s|]; [|by destruct Hf]. cbn in Hf. unfold side_face.
  destruct (transform_image_side_plain s blockID Hk) as (sheared & -> & Hs & _).
  cbn [mbind result_bind]. rewrite darken_raises; [reflexivity|].
  destruct mirror; cbn; by rewrite Hs.
Qed.

Lemma bottom_face_ok img top bottom blockID :
  im_mode img = RGBA → face_ok top → face_ok bottom → bottom_mask_ok top bottom →
  ∃ out,
    match bottom with
    | Some bottom => composite.alpha_over img (transform_image bottom blockID) (Pos 0 12) top
    | None => Ret img
    end = Ret out ∧ im_mode out = RGBA ∧ im_size out = im_size img.
Proof.
  intros Hm Ht Hb Hmask. destruct bottom as [b|]; [|by exists img]. cbn in Hb.
  rewrite alpha_over_rgba; [eauto | exact Hm | by rewrite transform_image_mode |].
  destruct top as [t|]; [|done]. cbn in Ht, Hmask. by split.
Qed.

Lemma face_ok_dec side : face_ok side ∨ ¬ face_ok side.
Proof. destruct side as [im|]; [apply mode_rgba_cases | by left]. Qed.

(** X7.  [_build_full_block].  When every face given is RGBA, and the top
    is 24x12 if a bottom comes with it, the builder returns an RGBA image
    of 24x24.  With no bottom and a kind other than 44 and 78, a side that
    is not RGBA raises IndexError at its [split()[3]].  With a top and a
    bottom and RGBA back sides, a top of another size than 24x12 raises
    ValueError at line 309, where it is the mask of the projected bottom;
    and with RGBA sides and no bottom, a top that is RGB or [LA] raises
    ValueError when it is laid as its own mask. *)
Theorem full_block_needs_rgba_faces top side1 side2 side3 side4 bottom blockID :
  (face_ok side1 ∧ face_ok side2 ∧ face_ok side3 ∧ face_ok side4 ∧
   face_ok top ∧ face_ok bottom ∧ bottom_mask_ok top bottom →
   ∃ img, _build_full_block top side1 side2 side3 side4 bottom blockID = Ret img ∧
          im_mode img = RGBA ∧ im_size img = (24, 24)) ∧
  (¬ (face_ok side1 ∧ face_ok side2 ∧ face_ok side3 ∧ face_ok side4) →
   bottom = None → in_ints blockID [44; 78] = false →
   _build_full_block top side1 side2 side3 side4 bottom blockID = Raise IndexError) ∧
  (face_ok side1 → face_ok side2 → ¬ bottom_mask_ok top bottom →
   _build_full_block top side1 side2 side3 side4 bottom blockID = Raise ValueError) ∧
  (face_ok side1 ∧ face_ok side2 ∧ face_ok side3 ∧ face_ok side4 → bottom = None →
   (∃ t, top = Some t ∧ (im_mode t = RGB ∨ im_mode t = LA)) →
   _build_full_block top side1 side2 side3 side4 bottom blockID = Raise ValueError).
Proof.
  unfold _build_full_block. cbv zeta. repeat split.
  - intros (H1 & H2 & H3 & H4 & Ht & Hb & Hmask).
    destruct (side_face_ok (PIL.new RGBA (24, 24) bgcolor) side1 blockID true 0.9 (Pos 0 0))
      as (i1 & -> & Hm1 & Hs1); [reflexivity | exact H1 |]. cbn [mbind result_bind].
    destruct (side_face_ok i1 side2 blockID false 0.8 (Pos 12 0) Hm1 H2)
      as (i2 & -> & Hm2 & Hs2). cbn [mbind result_bind].
    destruct (bottom_face_ok i2 top bottom blockID Hm2 Ht Hb Hmask)
      as (i3 & -> & Hm3 & Hs3). cbn [mbind result_bind].
    destruct (side_face_ok i3 side3 blockID false 0.9 (Pos 0 6) Hm3 H3)
      as (i4 & -> & Hm4 & Hs4). cbn [mbind result_bind].
    destruct (side_face_ok i4 side4 blockID true 0.8 (Pos 12 6) Hm4 H4)
      as (i5 & -> & Hm5 & Hs5). cbn [mbind result_bind].
    assert (Hsz : im_size i5 = (24, 24)) by (rewrite Hs5, Hs4, Hs3, Hs2, Hs1; reflexivity).
    destruct top as [t|]; [|eauto]. cbn in Ht. cbv zeta.
    rewrite alpha_over_self by (by rewrite ?transform_image_mode).
    eexists. split; [reflexivity|]. by rewrite Hsz.
  - intros Hn -> Hk.
    destruct (face_ok_dec side1) as [H1 | H1];
      [|by rewrite side_face_raises].
    destruct (side_face_ok (PIL.new RGBA (24, 24) bgcolor) side1 blockID true 0.9 (Pos 0 0))
      as (i1 & -> & Hm1 & _); [reflexivity | exact H1 |]. cbn [mbind result_bind].
    destruct (face_ok_dec side2) as [H2 | H2];
      [|by rewrite side_face_raises].
    destruct (side_face_ok i1 side2 blockID false 0.8 (Pos 12 0) Hm1 H2)
      as (i2 & -> & Hm2 & _). cbn [mbind result_bind].
    destruct (face_ok_dec side3) as [H3 | H3];
      [|by rewrite side_face_raises].
    destruct (side_face_ok i2 side3 blockID false 0.9 (Pos 0 6) Hm2 H3)
      as (i4 & -> & Hm4 & _). cbn [mbind result_bind].
    destruct (face_ok_dec side4) as [H4 | H4];
      [tauto | by rewrite side_face_raises].
  - intros H1 H2 Hmask.
    destruct top as [t|], bottom as [b|]; try (by destruct Hmask). cbn in Hmask.
    destruct (side_face_ok (PIL.new RGBA (24, 24) bgcolor) side1 blockID true 0.9 (Pos 0 0))
      as (i1 & -> & Hm1 & _); [reflexivity | exact H1 |]. cbn [mbind result_bind].
    destruct (side_face_ok i1 side2 blockID false 0.8 (Pos 12 0) Hm1 H2)
      as (i2 & -> & Hm2 & _). cbn [mbind result_bind]. cbv zeta.
    rewrite alpha_over_bad_mask; [reflexivity|]. right. right. exact Hmask.
  - intros (H1 & H2 & H3 & H4) -> (t & -> & Ht).
    destruct (side_face_ok (PIL.new RGBA (24, 24) bgcolor) side1 blockID true 0.9 (Pos 0 0))
      as (i1 & -> & Hm1 & _); [reflexivity | exact H1 |]. cbn [mbind result_bind].
    destruct (side_face_ok i1 side2 blockID false 0.8 (Pos 12 0) Hm1 H2)
      as (i2 & -> & Hm2 & _). cbn [mbind result_bind].
    destruct (side_face_ok i2 side3 blockID false 0.9 (Pos 0 6) Hm2 H3)
      as (i4 & -> & Hm4 & _). cbn [mbind result_bind].
    destruct (side_face_ok i4 side4 blockID true 0.8 (Pos 12 6) Hm4 H4)
      as (i5 & -> & Hm5 & _). cbn [mbind result_bind]. cbv zeta.
    apply alpha_over_bad_mask. cbn [from_option id]. rewrite transform_image_mode. tauto.
Qed.

(** X8.  [tintTexture] returns exactly on an RGBA image.  The colour of
    each pixel of the result is then the ramp from black to [c] taken at
    the luma of the pixel of [im]: the tint reads the brightness of the
    texture and none of its hue.  On any other mode [im.split()[3]] raises
    IndexError. *)
Theorem tintTexture_by_luma im c :
  (im_mode im = RGBA →
   ∃ i, tintTexture im c = Ret i ∧
     ∀ x y, rgb_of (im_px i x y) = colorize_lut (0, 0, 0) c (luma (rgb_of (im_px im x y)))) ∧
  (im_mode im ≠ RGBA → tintTexture im c = Raise IndexError).
Proof.
  split; intros Hm.
  - unfold tintTexture, PIL.grayscale, PIL.convert, PIL.colorize.
    rewrite Hm. cbn [im_mode Mode_eqb mbind result_bind im_size].
    rewrite (alpha_band _ Hm). cbn [mbind result_bind].
    rewrite putalpha_band by reflexivity.
    eexists. split; [reflexivity|]. reflexivity.
  - unfold tintTexture, PIL.grayscale, PIL.convert, PIL.colorize, PIL.split.
    destruct (im_mode im) eqn:E; rewrite ?E; try reflexivity. done.
Qed.

Context (files : Files).

Lemma setitem_short {A} (l : list A) (i : nat) (v : A) :
  (length l ≤ i)%nat → setitem l (Z.of_nat i) v = Raise IndexError.
Proof.
  intros Hi. unfold setitem.
  replace (Z.of_nat i <? 0) with false by (symmetry; apply Z.ltb_ge; lia).
  replace (Z.of_nat i <? Z.of_nat (length l)) with false by (symmetry; apply Z.ltb_ge; lia).
  by rewrite andb_false_r.
Qed.

(** X4.  [load_water] on any block map: it returns exactly when the map
    has at least 12 slots and water.png and lava.png are RGBA.  It then
    appends three tuples to the store, keeps the number of slots, and
    leaves every slot but 8, 9, 10 and 11 as it was.  Otherwise it raises:
    IndexError when water.png is RGBA (a slot that is not there, or the
    alpha band of lava.png), ValueError when water.png is RGB or [LA] (its
    projected top laid as its own mask, line 416). *)
Theorem load_water_frame (h : Heap) (slots : list (option nat)) :
  ((12 ≤ length slots)%nat ∧ im_mode (water_png files) = RGBA ∧
   im_mode (lava_png files) = RGBA →
   ∃ t9 t8 t10 slots',
     load_water files (h, slots) = Ret (h ++ [t9; t8; t10], slots') ∧
     length slots' = length slots ∧
     ∀ k : nat, k ∉ [8; 9; 10; 11]%nat → slots' !! k = slots !! k) ∧
  (¬ ((12 ≤ length slots)%nat ∧ im_mode (water_png files) = RGBA ∧
      im_mode (lava_png files) = RGBA) →
   (∃ e, load_water files (h, slots) = Raise e) ∧
   (im_mode (water_png files) = RGBA → load_water files (h, slots) = Raise IndexError)) ∧
  (im_mode (water_png files) = RGB ∨ im_mode (water_png files) = LA →
   load_water files (h, slots) = Raise ValueError).
Proof.
  set (w1 := mkImage RGBA (24, 24)
               (alpha_over_px (PIL.new RGBA (24, 24) bgcolor)
                  (transform_image (water_png files) None) (Pos 0 0)
                  (Some (transform_image (water_png files) None)))).
  assert (Hfail : im_mode (water_png files) = RGBA →
            ¬ ((12 ≤ length slots)%nat ∧ im_mode (water_png files) = RGBA ∧
               im_mode (lava_png files) = RGBA) →
            load_water files (h, slots) = Raise IndexError).
  { intros Hmw Hn. unfold load_water.
    change (_load_image files "water.png") with (Ret (water_png files)).
    cbn [mbind result_bind].
    rewrite (build_block_top_only _ None Hmw). fold w1.
    cbn [mbind result_bind alloc].
    destruct (decide (length slots ≤ 9)%nat) as [H9 | H9].
    { by rewrite (setitem_short slots 9 _) by lia. }
    rewrite (setitem_ok slots 9 _) by lia. cbn [mbind result_bind].
    destruct (build_block_ok (water_png files) (water_png files) None Hmw Hmw)
      as (w2 & Hw2 & _).
    rewrite Hw2. cbn [mbind result_bind].
    rewrite (setitem_ok _ 8 _) by (rewrite length_insert; lia). cbn [mbind result_bind].
    change (_load_image files "lava.png") with (Ret (lava_png files)).
    cbn [mbind result_bind].
    destruct (mode_rgba_cases (im_mode (lava_png files))) as [Hml | Hml]; cycle 1.
    { by rewrite build_block_raises. }
    destruct (build_block_ok (lava_png files) (lava_png files) None Hml Hml)
      as (lv & Hlv & _).
    rewrite Hlv. cbn [mbind result_bind].
    destruct (decide (length slots ≤ 10)%nat) as [H10 | H10].
    { by rewrite (setitem_short _ 10 _) by (rewrite !length_insert; lia). }
    rewrite (setitem_ok _ 10 _) by (rewrite !length_insert; lia). cbn [mbind result_bind].
    erewrite (getitem_ok _ 10); cycle 1.
    { apply list_lookup_insert_eq. rewrite !length_insert. lia. }
    cbn [mbind result_bind].
    rewrite (setitem_short _ 11 _); [reflexivity|].
    rewrite !length_insert. apply Nat.nlt_ge. intros H. apply Hn. repeat split; [lia|done..]. }
  split; [|split].
  - intros (Hlen & Hmw & Hml).
    destruct (build_block_ok (water_png files) (water_png files) None Hmw Hmw)
      as (w2 & Hw2 & _).
    destruct (build_block_ok (lava_png files) (lava_png files) None Hml Hml)
      as (lv & Hlv & _).
    set (r10 := length ((h ++ [(PIL.convert w1 RGB, w1)]) ++ [(PIL.convert w2 RGB, w2)])).
    set (l3 := <[10%nat := Some r10]>
                 (<[8%nat := Some (length (h ++ [(PIL.convert w1 RGB, w1)]))]>
                    (<[9%nat := Some (length h)]> slots))).
    assert (H10 : l3 !! 10%nat = Some (Some r10)).
    { unfold l3. apply list_lookup_insert_eq. rewrite !length_insert. lia. }
    exists (PIL.convert w1 RGB, w1), (PIL.convert w2 RGB, w2), (PIL.convert lv RGB, lv),
           (<[11%nat := Some r10]> l3).
    split; [|split].
    + unfold load_water.
      change (_load_image files "water.png") with (Ret (water_png files)).
      cbn [mbind result_bind].
      rewrite (build_block_top_only _ None Hmw). fold w1.
      cbn [mbind result_bind alloc].
      rewrite (setitem_ok slots 9 _) by lia. cbn [mbind result_bind].
      rewrite Hw2. cbn [mbind result_bind].
      rewrite (setitem_ok _ 8 _) by (rewrite length_insert; lia). cbn [mbind result_bind].
      change (_load_image files "lava.png") with (Ret (lava_png files)).
      cbn [mbind result_bind]. rewrite Hlv. cbn [mbind result_bind].
      rewrite (setitem_ok _ 10 _) by (rewrite !length_insert; lia). cbn [mbind result_bind].
      erewrite (getitem_ok _ 10) by exact H10. cbn [mbind result_bind].
      rewrite (setitem_ok _ 11 _) by (rewrite !length_insert; lia).
      cbn [mbind result_bind]. do 2 f_equal. by rewrite <- !app_assoc.
    + unfold l3. by rewrite !length_insert.
    + intros k Hk.
      assert (k ≠ 8 ∧ k ≠ 9 ∧ k ≠ 10 ∧ k ≠ 11)%nat as (?&?&?&?).
      { repeat split; intros ->; apply Hk; repeat constructor. }
      unfold l3. by rewrite !list_lookup_insert_ne by done.
  - intros Hn. split; [|intros Hmw; by apply Hfail].
    destruct (mode_rgba_cases (im_mode (water_png files))) as [Hmw | Hmw].
    { exists IndexError. by apply Hfail. }
    unfold load_water.
    change (_load_image files "water.png") with (Ret (water_png files)).
    cbn [mbind result_bind].
    destruct (_build_block (water_png files) None None) as [w|e]; [|eauto].
    cbn [mbind result_bind alloc].
    destruct (setitem slots 9 _) as [l1|e]; [|eauto]. cbn [mbind result_bind].
    rewrite build_block_raises by done. eauto.
  - intros Hmw. unfold load_water.
    change (_load_image files "water.png") with (Ret (water_png files)).
    cbn [mbind result_bind]. by rewrite build_block_top_raises.
Qed.

Lemma slot_spec_grows h h' slot item :
  slot_spec files h slot item → slot_spec files (h ++ h') slot item.
Proof.
  intros [H1 H2]. split; [exact H1|]. intros Ht Hs.
  destruct (H2 Ht Hs) as (r & tt & ts & img & ? & ? & ? & ? & Hr).
  exists r, tt, ts, img. repeat split; try assumption. by apply lookup_app_l_Some.
Qed.

Lemma blockimages_body_slot acc item :
  im_mode (terrain_png files) = RGBA → item_ok item = true →
  ∃ hnew slot, blockimages_body files acc item = Ret (acc.1 ++ hnew, acc.2 ++ [slot]) ∧
               slot_spec files (acc.1 ++ hnew) slot item.
Proof.
  intros Hm Hok. destruct item as [[t s] b], acc as [h l].
  unfold blockimages_body. unfold item_ok in Hok.
  destruct ((t =? -1) || (s =? -1)) eqn:Hskip.
  - exists [], None. rewrite app_nil_r. split; [reflexivity|]. split; [done|].
    cbn [fst snd]. intros Ht Hs. apply orb_true_iff in Hskip as [H | H];
      apply Z.eqb_eq in H; contradiction.
  - cbn [orb] in Hok.
    apply andb_true_iff in Hok as [Hok Hs2]. apply andb_true_iff in Hok as [Hok Hs1].
    apply andb_true_iff in Hok as [Ht1 Ht2].
    apply orb_false_iff in Hskip as [Hnt Hns]. apply Z.eqb_neq in Hnt, Hns.
    destruct (getitem_tile files t) as (tt & Htt & Hmt & _); [lia|].
    destruct (getitem_tile files s) as (ts & Hts & Hms & _); [lia|].
    rewrite Hm in Hmt, Hms.
    destruct (build_block_ok tt ts (Some b) Hmt Hms) as (img & Hi & Him & _).
    rewrite Htt. cbn [mbind result_bind]. rewrite Hts. cbn [mbind result_bind].
    rewrite Hi. cbn [mbind result_bind]. rewrite (rgb_and_alpha_spec _ Him).
    cbn [mbind result_bind alloc].
    eexists [_], (Some (length h)). split; [reflexivity|]. split.
    + cbn [fst snd]. intros [? | ?]; contradiction.
    + intros _ _. exists (length h), tt, ts, img. cbn [fst snd].
      repeat split; try assumption. by apply list_lookup_middle.
Qed.

Lemma blockimages_loop_slots items acc :
  im_mode (terrain_png files) = RGBA → forallb item_ok items = true →
  ∃ hnew lnew,
    for_each (blockimages_body files) items acc = Ret (acc.1 ++ hnew, acc.2 ++ lnew) ∧
    Forall2 (slot_spec files (acc.1 ++ hnew)) lnew items.
Proof.
  intros Hm. revert acc. induction items as [|item items IH]; intros acc Hok.
  - exists [], []. rewrite !app_nil_r. destruct acc. split; [reflexivity | constructor].
  - cbn in Hok. apply andb_true_iff in Hok as [Hi Hok].
    destruct (blockimages_body_slot acc item Hm Hi) as (h1 & slot & H1 & Hslot).
    destruct (IH (acc.1 ++ h1, acc.2 ++ [slot]) Hok) as (h2 & l2 & H2 & Hrest).
    cbn [fst snd] in H2, Hrest.
    exists (h1 ++ h2), (slot :: l2). cbn [for_each]. rewrite H1. cbn [mbind result_bind].
    rewrite H2. rewrite <- !app_assoc. split; [reflexivity|].
    constructor; [|by rewrite app_assoc].
    rewrite app_assoc. by apply slot_spec_grows.
Qed.

(** X2.  [_build_blockimages] on an RGBA atlas returns 256 slots.  The
    slot of kind [k] is empty when one of its two tile indices is -1, and
    otherwise refers to the tuple (RGB picture, alpha band) of the block
    that [_build_block] makes of the two tiles with [k] as the kind; every
    slot past the end of the index lists is empty. *)
Theorem blockimages_slots :
  im_mode (terrain_png files) = RGBA →
  ∃ h slots,
    _build_blockimages files = Ret (h, slots) ∧ length slots = 256%nat ∧
    (∀ (k : nat) t s, topids !! k = Some t → sideids !! k = Some s →
       (t = -1 ∨ s = -1 → slots !! k = Some None) ∧
       (t ≠ -1 → s ≠ -1 →
        ∃ r toptexture sidetexture img,
          getitem (terrain_images files) t = Ret toptexture ∧
          getitem (terrain_images files) s = Ret sidetexture ∧
          _build_block toptexture (Some sidetexture) (Some (Z.of_nat k)) = Ret img ∧
          slots !! k = Some (Some r) ∧
          h !! r = Some (PIL.convert img RGB, PIL.band img 3))) ∧
    (∀ k : nat, (length topids ≤ k < 256)%nat → slots !! k = Some None).
Proof.
  intros Hm.
  set (items := zip (zip topids sideids) (range (Z.of_nat (length topids)))).
  destruct (blockimages_loop_slots items ([], []) Hm) as (h & l & Hloop & Hslots).
  { vm_compute. reflexivity. }
  cbn [fst snd app] in Hloop, Hslots.
  pose proof (Forall2_length _ _ _ Hslots) as Hlen.
  assert (Hitems : length items = 92%nat) by reflexivity.
  exists h, (l ++ replicate (256 - length l) None).
  split; [|split; [|split]].
  - unfold _build_blockimages.
    change (negb (length topids =? length sideids)%nat) with false. cbv iota.
    fold items. rewrite Hloop. reflexivity.
  - rewrite length_app, length_replicate. lia.
  - intros k t s Ht Hs.
    assert (Hk : (k < 92)%nat) by (apply lookup_lt_Some in Ht; exact Ht).
    assert (Hit : items !! k = Some (t, s, Z.of_nat k)).
    { unfold items. apply lookup_zip_with_Some. exists (t, s), (Z.of_nat k).
      split; [reflexivity|]. split.
      - apply lookup_zip_with_Some. eauto.
      - unfold range. rewrite lookup_seqZ. split; [lia|].
        change (Z.of_nat (length topids)) with 92. lia. }
    destruct (Forall2_lookup_r _ _ _ _ _ Hslots Hit) as (slot & Hl & [H1 H2]).
    cbn [fst snd] in H1, H2.
    rewrite lookup_app_l by lia. split.
    + intros H. rewrite Hl, (H1 H). reflexivity.
    + intros Hnt Hns. destruct (H2 Hnt Hns) as (r & tt & ts & img & ? & ? & ? & -> & ?).
      exists r, tt, ts, img. repeat split; assumption.
  - intros k Hk. change (length topids) with 92%nat in Hk.
    rewrite lookup_app_r by lia. apply lookup_replicate. split; [reflexivity | lia].
Qed.

(** X3.  On an atlas that is not RGBA nothing the module builds at import
    exists: [_build_blockimages], the block map after [load_water], the two
    biome textures and the loop that fills [specialblockmap] all raise
    IndexError, at the first tile whose alpha band is asked for. *)
Theorem atlas_without_alpha :
  im_mode (terrain_png files) ≠ RGBA →
  _build_blockimages files = Raise IndexError ∧
  blockmap files = Raise IndexError ∧
  biome_grass_texture files = Raise IndexError ∧
  biome_leaf_texture files = Raise IndexError ∧
  specialblockmap files = Raise IndexError.
Proof.
  intros Hm. destruct files as [[mt st pt] w l f]. cbn in Hm.
  destruct mt; [| | |done]; repeat split; vm_compute; reflexivity.
Qed.

(** X9.  On an RGBA atlas the two biome textures are built: RGBA images
    of 24x24, the grass one from tile 0 on top and tile 3 on the sides with
    kind 2, the leaf one from tile 52 on every face with kind 18, both of
    the raw tiles, no tint applied. *)
Theorem biome_textures_built :
  im_mode (terrain_png files) = RGBA →
  ∃ t0 t3 t52 grass leaf,
    getitem (terrain_images files) 0 = Ret t0 ∧
    getitem (terrain_images files) 3 = Ret t3 ∧
    getitem (terrain_images files) 52 = Ret t52 ∧
    biome_grass_texture files = Ret grass ∧
    _build_block t0 (Some t3) (Some 2) = Ret grass ∧
    biome_leaf_texture files = Ret leaf ∧
    _build_block t52 (Some t52) (Some 18) = Ret leaf ∧
    im_mode grass = RGBA ∧ im_size grass = (24, 24) ∧
    im_mode leaf = RGBA ∧ im_size leaf = (24, 24).
Proof.
  intros Hm.
  destruct (getitem_tile files 0) as (t0 & H0 & Hm0 & _); [lia|].
  destruct (getitem_tile files 3) as (t3 & H3 & Hm3 & _); [lia|].
  destruct (getitem_tile files 52) as (t52 & H52 & Hm52 & _); [lia|].
  rewrite Hm in Hm0, Hm3, Hm52.
  destruct (build_block_ok t0 t3 (Some 2) Hm0 Hm3) as (grass & Hg & Hgm & Hgs).
  destruct (build_block_ok t52 t52 (Some 18) Hm52 Hm52) as (leaf & Hl & Hlm & Hls).
  exists t0, t3, t52, grass, leaf. unfold biome_grass_texture, biome_leaf_texture.
  rewrite H0, H3, H52. cbn [mbind result_bind]. by repeat split.
Qed.

End Builders.
(** ** Further properties of the variant generator *)

Section Generator.
Context {K : Kernels} (files : Files).

(** Statements of the generator that the kind at hand passes over. *)
Ltac pass b :=
  repeat match goal with
         | |- context [b ?K ?f ?k ?d] =>
             progress change (b K f k d) with (@Ret (option Sprite) None)
         end.

Ltac pass_all :=
  unfold generate_special_texture, branches; cbn [run];
  pass @special_grass; pass @special_saplings; pass @special_water; pass @special_wood;
  pass @special_leaves; pass @special_dispenser; pass @special_wool; pass @special_slabs;
  pass @special_torches; pass @special_fire; pass @special_stairs; pass @special_redstone;
  pass @special_crafting_table; pass @special_crops; pass @special_furnace;
  pass @special_lit_furnace; pass @special_doors; pass @special_ladder;
  pass @special_rails; pass @special_fences; pass @special_pumpkins; pass @special_cake;
  cbn [mbind result_bind].

Ltac list_cases H :=
  repeat (apply elem_of_cons in H; destruct H as [-> | H]);
  [.. | apply not_elem_of_nil in H; destruct H].

Lemma within_spec (lo hi d : Z) : within lo hi d = true ↔ lo ≤ d ≤ hi.
Proof. unfold within. rewrite andb_true_iff, Z.leb_le, Z.leb_le. done. Qed.

Lemma within_cases (lo hi d : Z) :
  (within lo hi d = true ∧ lo ≤ d ≤ hi) ∨ (within lo hi d = false ∧ ¬ lo ≤ d ≤ hi).
Proof.
  destruct (within lo hi d) eqn:E; [left | right]; (split; [done|]).
  - by apply within_spec.
  - intros H. apply within_spec in H. congruence.
Qed.

Lemma land_mask d m n : Z.land m n = n → Z.land (Z.land d m) n = Z.land d n.
Proof. intros H. rewrite <- Z.land_assoc, H. reflexivity. Qed.

Lemma land_ones_range d n : 0 ≤ n → Z.land d (Z.ones n) ∈ range (2 ^ n).
Proof.
  intros Hn. rewrite Z.land_ones by done. unfold range. apply elem_of_seqZ.
  pose proof (Z.mod_pos_bound d (2 ^ n) ltac:(by apply Z.pow_pos_nonneg)). lia.
Qed.

Lemma getitem_out_of_range {A} (l : list A) (i : Z) :
  i < - Z.of_nat (length l) ∨ Z.of_nat (length l) ≤ i → getitem l i = Raise IndexError.
Proof.
  intros Hi. unfold getitem. destruct (i <? 0) eqn:Hneg.
  - apply Z.ltb_lt in Hneg.
    replace (0 <=? Z.of_nat (length l) + i) with false
      by (symmetry; apply Z.leb_gt; lia). reflexivity.
  - apply Z.ltb_ge in Hneg.
    replace (i <? Z.of_nat (length l)) with false by (symmetry; apply Z.ltb_ge; lia).
    rewrite andb_false_r. reflexivity.
Qed.

Lemma getitem_wrap {A} (l : list A) (i : Z) :
  - Z.of_nat (length l) ≤ i < 0 → getitem l i = getitem l (i + Z.of_nat (length l)).
Proof.
  intros Hi. unfold getitem.
  replace (i <? 0) with true by (symmetry; apply Z.ltb_lt; lia).
  replace (i + Z.of_nat (length l) <? 0) with false by (symmetry; apply Z.ltb_ge; lia).
  rewrite (Z.add_comm i). reflexivity.
Qed.

(** The stairs outside their states read an [img] that no branch has
    assigned. *)
Lemma stairs_unassigned k d :
  k = 53 ∨ k = 67 → ¬ (0 ≤ d ≤ 3) →
  generate_special_texture files k d = Raise UnboundLocalError.
Proof.
  intros Hk Hd.
  assert (E : ∀ n, d ≠ n → (d =? n) = false) by (intros; by apply Z.eqb_neq).
  destruct Hk as [-> | ->]; pass_all; unfold special_stairs; rewrite !E by lia; reflexivity.
Qed.

(** The torches outside their states all do the same: what comes before
    the state tests, and then the read of the unassigned [img]. *)
Lemma torches_unassigned k d d' :
  k = 50 ∨ k = 75 ∨ k = 76 → ¬ (1 ≤ d ≤ 5) → ¬ (1 ≤ d' ≤ 5) →
  generate_special_texture files k d = generate_special_texture files k d'.
Proof.
  intros Hk Hd Hd'.
  assert (E : ∀ n, d ≠ n → (d =? n) = false) by (intros; by apply Z.eqb_neq).
  assert (E' : ∀ n, d' ≠ n → (d' =? n) = false) by (intros; by apply Z.eqb_neq).
  destruct Hk as [-> | [-> | ->]]; pass_all; unfold special_torches;
    rewrite !E, !E' by lia; reflexivity.
Qed.

Lemma crops_out_of_range d :
  ¬ (-344 ≤ d ≤ 167) → generate_special_texture files 59 d = Raise IndexError.
Proof.
  intros Hd. pass_all. unfold special_crops. change (59 =? 59) with true. cbv iota.
  rewrite getitem_out_of_range; [reflexivity|].
  change (Z.of_nat (length (terrain_images files))) with 256. lia.
Qed.

Lemma crops_wrap d :
  -344 ≤ d ≤ -89 →
  generate_special_texture files 59 d = generate_special_texture files 59 (d + 256).
Proof.
  intros Hd. pass_all. unfold special_crops. change (59 =? 59) with true. cbv iota.
  rewrite (getitem_wrap _ (88 + d)).
  - change (Z.of_nat (length (terrain_images files))) with 256.
    replace (88 + d + 256) with (88 + (d + 256)) by lia. reflexivity.
  - change (Z.of_nat (length (terrain_images files))) with 256. lia.
Qed.

Ltac canon v := match goal with |- context [canonical_state ?k ?d] =>
  change (canonical_state k d) with v end.

(** Every state generates what its canonical state generates. *)
Lemma generate_canonical k d :
  generate_special_texture files k d =
  generate_special_texture files k (canonical_state k d).
Proof.
  assert (E : ∀ n, d ≠ n → (d =? n) = false) by (intros; by apply Z.eqb_neq).
  destruct (decide (k ∈ handled_kinds)) as [Hk | Hk].
  - unfold handled_kinds in Hk. list_cases Hk.
    + (* 2 *) canon 0. pass_all. reflexivity.
    + (* 6 *) canon (if d =? 2 then 2 else 0).
      destruct (d =? 2) eqn:Hd; [apply Z.eqb_eq in Hd; by subst|].
      pass_all. unfold special_saplings. change (6 =? 6) with true. cbv iota.
      rewrite Hd. destruct (d =? 1); reflexivity.
    + (* 9 *) canon (Z.land d 31). pass_all. unfold special_water.
      rewrite !(land_mask d 31) by reflexivity. reflexivity.
    + (* 17 *) canon (if within 0 2 d then d else 3).
      destruct (within_cases 0 2 d) as [[-> _] | [-> Hd]]; [reflexivity|].
      rewrite (generate_unmatched_state files 17 d) by (left; done). reflexivity.
    + (* 18 *) canon 0. pass_all. reflexivity.
    + (* 23 *) canon 0. pass_all. reflexivity.
    + (* 35 *) canon (if within 0 15 d then d else 16).
      destruct (within_cases 0 15 d) as [[-> _] | [-> Hd]]; [reflexivity|].
      rewrite (generate_unmatched_state files 35 d) by (right; left; done). reflexivity.
    + (* 43 *) canon (if within 0 3 d then d else 4).
      destruct (within_cases 0 3 d) as [[-> _] | [-> Hd]]; [reflexivity|].
      rewrite (generate_unmatched_state files 43 d) by (right; right; left; auto).
      reflexivity.
    + (* 44 *) canon (if within 0 3 d then d else 4).
      destruct (within_cases 0 3 d) as [[-> _] | [-> Hd]]; [reflexivity|].
      rewrite (generate_unmatched_state files 44 d) by (right; right; left; auto).
      reflexivity.
    + (* 50 *) canon (if within 1 5 d then d else 0).
      destruct (within_cases 1 5 d) as [[-> _] | [-> Hd]]; [reflexivity|].
      apply torches_unassigned; [auto | done | lia].
    + (* 75 *) canon (if within 1 5 d then d else 0).
      destruct (within_cases 1 5 d) as [[-> _] | [-> Hd]]; [reflexivity|].
      apply torches_unassigned; [auto | done | lia].
    + (* 76 *) canon (if within 1 5 d then d else 0).
      destruct (within_cases 1 5 d) as [[-> _] | [-> Hd]]; [reflexivity|].
      apply torches_unassigned; [auto | done | lia].
    + (* 51 *) canon 0. pass_all. reflexivity.
    + (* 53 *) canon (if within 0 3 d then d else 4).
      destruct (within_cases 0 3 d) as [[-> _] | [-> Hd]]; [reflexivity|].
      rewrite (stairs_unassigned 53 d), (stairs_unassigned 53 4) by (auto || lia).
      reflexivity.
    + (* 67 *) canon (if within 0 3 d then d else 4).
      destruct (within_cases 0 3 d) as [[-> _] | [-> Hd]]; [reflexivity|].
      rewrite (stairs_unassigned 67 d), (stairs_unassigned 67 4) by (auto || lia).
      reflexivity.
    + (* 55 *) canon (Z.land d 127). pass_all.
      unfold special_redstone, redstone_tiles, redstone_bottom.
      rewrite !(land_mask d 127) by reflexivity. reflexivity.
    + (* 58 *) canon 0. pass_all. reflexivity.
    + (* 59 *) canon (if within (-88) 167 d then d
                      else if within (-344) (-89) d then d + 256 else 168).
      destruct (within_cases (-88) 167 d) as [[-> _] | [-> Hd]]; [reflexivity|].
      destruct (within_cases (-344) (-89) d) as [[-> Hw] | [-> Hw]].
      * by apply crops_wrap.
      * rewrite (crops_out_of_range d) by lia. reflexivity.
    + (* 61 *) canon 0. pass_all. reflexivity.
    + (* 62 *) canon 0. pass_all. reflexivity.
    + (* 64 *) canon (Z.land d 15). pass_all. unfold special_doors.
      rewrite !(land_mask d 15) by reflexivity. reflexivity.
    + (* 71 *) canon (Z.land d 15). pass_all. unfold special_doors.
      rewrite !(land_mask d 15) by reflexivity. reflexivity.
    + (* 65 *) canon (if within 2 5 d then d else 0).
      destruct (within_cases 2 5 d) as [[-> _] | [-> Hd]]; [reflexivity|].
      rewrite (generate_unmatched_state files 65 d) by (right; right; right; done).
      reflexivity.
    + (* 27 *) canon (Z.land d 15). pass_all. unfold special_rails, rail_tiles.
      rewrite !(land_mask d 15) by reflexivity. reflexivity.
    + (* 28 *) canon (if within 0 9 d then d else 0).
      destruct (within_cases 0 9 d) as [[-> _] | [-> Hd]]; [reflexivity|].
      pass_all; unfold special_rails, rail_tiles;
        cbn [Z.eqb Pos.eqb orb mbind result_bind];
        (destruct (getitem (terrain_images files) _) as [rs|]; [|reflexivity]);
        cbn [mbind result_bind];
        (destruct (getitem (terrain_images files) _) as [rc|]; [|reflexivity]);
        cbn [mbind result_bind]; rewrite !E by lia; reflexivity.
    + (* 66 *) canon (if within 0 9 d then d else 0).
      destruct (within_cases 0 9 d) as [[-> _] | [-> Hd]]; [reflexivity|].
      pass_all; unfold special_rails, rail_tiles;
        cbn [Z.eqb Pos.eqb orb mbind result_bind];
        (destruct (getitem (terrain_images files) _) as [rs|]; [|reflexivity]);
        cbn [mbind result_bind];
        (destruct (getitem (terrain_images files) _) as [rc|]; [|reflexivity]);
        cbn [mbind result_bind]; rewrite !E by lia; reflexivity.
    + (* 85 *) canon (Z.land d 15). pass_all. unfold special_fences.
      rewrite !(land_mask d 15) by reflexivity. reflexivity.
    + (* 86 *) canon 0. pass_all. reflexivity.
    + (* 91 *) canon 0. pass_all. reflexivity.
    + (* 92 *) canon 0. pass_all. reflexivity.
  - assert (N : ∀ c, bool_decide (c ∈ handled_kinds) = true → (k =? c) = false).
    { intros c Hin. apply Z.eqb_neq. intros ->. apply Hk.
      by apply bool_decide_eq_true in Hin. }
    replace (canonical_state k d) with d; [reflexivity|].
    unfold canonical_state, in_ints. cbn [existsb].
    rewrite !N by reflexivity. reflexivity.
Qed.


(** X10.  Ten kinds never read the state: grass, leaves, the dispenser,
    fire, the crafting table, the two furnaces, the two pumpkins and the
    cake generate the same result for any two states. *)
Theorem stateless_kinds k d d' :
  k ∈ [2; 18; 23; 51; 58; 61; 62; 86; 91; 92] →
  generate_special_texture files k d = generate_special_texture files k d'.
Proof.
  intros Hk. rewrite (generate_canonical k d), (generate_canonical k d').
  list_cases Hk; reflexivity.
Qed.

(** X11.  Water, the doors, the fences, the redstone wire and the powered
    rail read the state through bit masks only: water generates by the low
    five bits, doors, fences and powered rails by the low four, redstone
    wire by the low seven. *)
Theorem state_bits d :
  generate_special_texture files 9 d = generate_special_texture files 9 (Z.land d 31) ∧
  generate_special_texture files 64 d = generate_special_texture files 64 (Z.land d 15) ∧
  generate_special_texture files 71 d = generate_special_texture files 71 (Z.land d 15) ∧
  generate_special_texture files 85 d = generate_special_texture files 85 (Z.land d 15) ∧
  generate_special_texture files 55 d = generate_special_texture files 55 (Z.land d 127) ∧
  generate_special_texture files 27 d = generate_special_texture files 27 (Z.land d 15).
Proof. repeat split; apply generate_canonical. Qed.

(** X12.  The detector rail and the normal rail with a state outside 0..9
    take the [else] of the orientation chain: they generate the flat
    straight track of state 0. *)
Theorem rails_fallback k d :
  k = 28 ∨ k = 66 → ¬ (0 ≤ d ≤ 9) →
  generate_special_texture files k d = generate_special_texture files k 0.
Proof.
  intros Hk Hd. rewrite (generate_canonical k d).
  destruct (within_cases 0 9 d) as [[_ H] | [Hw _]]; [contradiction|].
  destruct Hk as [-> | ->].
  - change (canonical_state 28 d) with (if within 0 9 d then d else 0). by rewrite Hw.
  - change (canonical_state 66 d) with (if within 0 9 d then d else 0). by rewrite Hw.
Qed.

(** X13.  Every sapling state but 2 (birch) generates the usual sapling of
    state 0. *)
Theorem saplings_default d :
  d ≠ 2 → generate_special_texture files 6 d = generate_special_texture files 6 0.
Proof.
  intros Hd. rewrite (generate_canonical 6 d).
  change (canonical_state 6 d) with (if d =? 2 then 2 else 0).
  apply Z.eqb_neq in Hd. by rewrite Hd.
Qed.

(** X14.  The crops index the atlas with [88 + data] unchecked: a state
    outside -344..167 raises IndexError, and a state in -344..-89 wraps
    around the end of the tile list and generates what the state 256
    above it generates. *)
Theorem crops_tile_index d :
  (¬ (-344 ≤ d ≤ 167) → generate_special_texture files 59 d = Raise IndexError) ∧
  (-344 ≤ d ≤ -89 →
   generate_special_texture files 59 d = generate_special_texture files 59 (d + 256)).
Proof. split; [apply crops_out_of_range | apply crops_wrap]. Qed.

(** X15.  The stairs (53 and 67) with a state outside 0..3 raise
    UnboundLocalError: as in the torch statement, the lines after the
    state tests read an [img] that only the tests assign. *)
Theorem stairs_outside_domain k d :
  k = 53 ∨ k = 67 → ¬ (0 ≤ d ≤ 3) →
  generate_special_texture files k d = Raise UnboundLocalError.
Proof. apply stairs_unassigned. Qed.

Lemma canonical_table :
  files_rgba files →
  forallb (λ kl : Z * list Z,
    forallb (λ c, bool_decide (outcome_of (generate_special_texture files kl.1 c) =
                               expected_outcome kl.1 c)) kl.2)
    canonical_states = true.
Proof.
  intros (Ht & Hw & Hl & Hf).
  destruct files as [[mt st pt] [mw sw pw] [ml sl pl] [mf sf pf]].
  cbn in Ht, Hw, Hl, Hf. subst. vm_compute. reflexivity.
Qed.

Ltac in_table l :=
  exists l; split; [apply (bool_decide_unpack _); vm_compute; exact I|].

Ltac expect v := match goal with |- context [expected_outcome ?k ?d] =>
  change (expected_outcome k d) with v end.

Lemma canonical_case k d :
  k ∈ handled_kinds →
  ∃ l, (k, l) ∈ canonical_states ∧ canonical_state k d ∈ l ∧
       expected_outcome k (canonical_state k d) = expected_outcome k d.
Proof.
  intros Hk. unfold handled_kinds in Hk. list_cases Hk.
  - in_table [0]. split; [left | reflexivity].
  - in_table [0; 2]. canon (if d =? 2 then 2 else 0).
    split; [|reflexivity]. destruct (d =? 2); [right; left | left].
  - in_table (range 32). split; [apply (land_ones_range d 5); lia | reflexivity].
  - in_table (range 4). canon (if within 0 2 d then d else 3).
    destruct (within_cases 0 2 d) as [[Hw Hd] | [Hw Hd]]; rewrite Hw;
      (split; [apply elem_of_seqZ; lia|]); [reflexivity|].
    expect (if within 0 2 d then GivesSprite else GivesNone). by rewrite Hw.
  - in_table [0]. split; [left | reflexivity].
  - in_table [0]. split; [left | reflexivity].
  - in_table (range 17). canon (if within 0 15 d then d else 16).
    destruct (within_cases 0 15 d) as [[Hw Hd] | [Hw Hd]]; rewrite Hw;
      (split; [apply elem_of_seqZ; lia|]); [reflexivity|].
    expect (if within 0 15 d then GivesSprite else GivesNone). by rewrite Hw.
  - in_table (range 5). canon (if within 0 3 d then d else 4).
    destruct (within_cases 0 3 d) as [[Hw Hd] | [Hw Hd]]; rewrite Hw;
      (split; [apply elem_of_seqZ; lia|]); [reflexivity|].
    expect (if within 0 3 d then GivesSprite else GivesNone). by rewrite Hw.
  - in_table (range 5). canon (if within 0 3 d then d else 4).
    destruct (within_cases 0 3 d) as [[Hw Hd] | [Hw Hd]]; rewrite Hw;
      (split; [apply elem_of_seqZ; lia|]); [reflexivity|].
    expect (if within 0 3 d then GivesSprite else GivesNone). by rewrite Hw.
  - in_table (range 6). canon (if within 1 5 d then d else 0).
    destruct (within_cases 1 5 d) as [[Hw Hd] | [Hw Hd]]; rewrite Hw;
      (split; [apply elem_of_seqZ; lia|]); [reflexivity|].
    expect (if within 1 5 d then GivesSprite else Raises UnboundLocalError). by rewrite Hw.
  - in_table (range 6). canon (if within 1 5 d then d else 0).
    destruct (within_cases 1 5 d) as [[Hw Hd] | [Hw Hd]]; rewrite Hw;
      (split; [apply elem_of_seqZ; lia|]); [reflexivity|].
    expect (if within 1 5 d then GivesSprite else Raises UnboundLocalError). by rewrite Hw.
  - in_table (range 6). canon (if within 1 5 d then d else 0).
    destruct (within_cases 1 5 d) as [[Hw Hd] | [Hw Hd]]; rewrite Hw;
      (split; [apply elem_of_seqZ; lia|]); [reflexivity|].
    expect (if within 1 5 d then GivesSprite else Raises UnboundLocalError). by rewrite Hw.
  - in_table [0]. split; [left | reflexivity].
  - in_table (range 5). canon (if within 0 3 d then d else 4).
    destruct (within_cases 0 3 d) as [[Hw Hd] | [Hw Hd]]; rewrite Hw;
      (split; [apply elem_of_seqZ; lia|]); [reflexivity|].
    expect (if within 0 3 d then GivesSprite else Raises UnboundLocalError). by rewrite Hw.
  - in_table (range 5). canon (if within 0 3 d then d else 4).
    destruct (within_cases 0 3 d) as [[Hw Hd] | [Hw Hd]]; rewrite Hw;
      (split; [apply elem_of_seqZ; lia|]); [reflexivity|].
    expect (if within 0 3 d then GivesSprite else Raises UnboundLocalError). by rewrite Hw.
  - in_table (range 128). split; [apply (land_ones_range d 7); lia | reflexivity].
  - in_table [0]. split; [left | reflexivity].
  - in_table (seqZ (-88) 257).
    canon (if within (-88) 167 d then d
           else if within (-344) (-89) d then d + 256 else 168).
    expect (if within (-344) 167 d then GivesSprite else Raises IndexError).
    destruct (within_cases (-88) 167 d) as [[Hw Hd] | [Hw Hd]]; rewrite Hw.
    + split; [apply elem_of_seqZ; lia|].
      expect (if within (-344) 167 d then GivesSprite else Raises IndexError).
      reflexivity.
    + destruct (within_cases (-344) (-89) d) as [[Hw' Hd'] | [Hw' Hd']]; rewrite Hw'.
      * split; [apply elem_of_seqZ; lia|].
        expect (if within (-344) 167 (d + 256) then GivesSprite else Raises IndexError).
        replace (within (-344) 167 (d + 256)) with true
          by (symmetry; apply within_spec; lia).
        replace (within (-344) 167 d) with true by (symmetry; apply within_spec; lia).
        reflexivity.
      * split; [apply elem_of_seqZ; lia|].
        destruct (within_cases (-344) 167 d) as [[_ H] | [-> _]]; [lia | reflexivity].
  - in_table [0]. split; [left | reflexivity].
  - in_table [0]. split; [left | reflexivity].
  - in_table (range 16). split; [apply (land_ones_range d 4); lia | reflexivity].
  - in_table (range 16). split; [apply (land_ones_range d 4); lia | reflexivity].
  - in_table [0; 2; 3; 4; 5]. canon (if within 2 5 d then d else 0).
    expect (if within 2 5 d then GivesSprite else GivesNone).
    destruct (within_cases 2 5 d) as [[Hw Hd] | [Hw Hd]]; rewrite Hw.
    + split.
      * assert (d = 2 ∨ d = 3 ∨ d = 4 ∨ d = 5) as [-> | [-> | [-> | ->]]] by lia;
          apply (bool_decide_unpack _); vm_compute; exact I.
      * expect (if within 2 5 d then GivesSprite else GivesNone). by rewrite Hw.
    + split; [left | reflexivity].
  - in_table (range 16). split; [apply (land_ones_range d 4); lia | reflexivity].
  - in_table (range 10). canon (if within 0 9 d then d else 0).
    split; [|reflexivity].
    destruct (within_cases 0 9 d) as [[Hw Hd] | [Hw Hd]]; rewrite Hw;
      apply elem_of_seqZ; lia.
  - in_table (range 10). canon (if within 0 9 d then d else 0).
    split; [|reflexivity].
    destruct (within_cases 0 9 d) as [[Hw Hd] | [Hw Hd]]; rewrite Hw;
      apply elem_of_seqZ; lia.
  - in_table (range 16). split; [apply (land_ones_range d 4); lia | reflexivity].
  - in_table [0]. split; [left | reflexivity].
  - in_table [0]. split; [left | reflexivity].
  - in_table [0]. split; [left | reflexivity].
Qed.

(** X16.  The outcome of the generator for every kind and every state, on
    image files that are all RGBA: a sprite, [None] or the exception that
    [expected_outcome] tabulates.  In particular the generator raises
    nothing but UnboundLocalError (torches and stairs outside their
    states) and IndexError (crops outside -344..167), returns [None] only
    for a kind no statement names and for wood, wool, slabs and ladders
    outside their states, and for the other nineteen kinds returns a
    sprite whatever the state. *)
Theorem generate_outcome k d :
  files_rgba files →
  outcome_of (generate_special_texture files k d) = expected_outcome k d.
Proof.
  intros Hf. destruct (decide (k ∈ handled_kinds)) as [Hk | Hk].
  - rewrite generate_canonical.
    destruct (canonical_case k d Hk) as (l & Hl & Hc & <-).
    pose proof (canonical_table Hf) as H. rewrite forallb_forall in H.
    apply list_elem_of_In in Hl. specialize (H _ Hl). cbn [fst snd] in H.
    rewrite forallb_forall in H. apply list_elem_of_In in Hc.
    specialize (H _ Hc). by apply bool_decide_eq_true in H.
  - rewrite (generate_unhandled_kind files k d Hk).
    assert (N : ∀ c, bool_decide (c ∈ handled_kinds) = true → (k =? c) = false).
    { intros c Hin. apply Z.eqb_neq. intros ->. apply Hk.
      by apply bool_decide_eq_true in Hin. }
    unfold expected_outcome, in_ints, handled_kinds. cbn [existsb].
    rewrite !N by reflexivity. reflexivity.
Qed.

(** X17.  The cache agrees with the generator: on RGBA files the loop
    that fills [specialblockmap] ends, and the entry of every declared
    (kind, state) is what a fresh call of [generate_special_texture]
    returns for it; no other key has an entry. *)
Theorem special_cache_agrees :
  files_rgba files →
  ∃ m, specialblockmap files = Ret m ∧
    ∀ k d,
      (declared (k, d) →
       ∃ v, generate_special_texture files k d = Ret v ∧ m !! (k, d) = Some v) ∧
      (¬ declared (k, d) → m !! (k, d) = None).
Proof.
  intros Hf.
  assert (Hret : ∀ k d, declared (k, d) → is_ret (generate_special_texture files k d) = true).
  { intros k d Hd. pose proof (generate_declared files (k, d) Hf Hd) as H.
    cbn [fst snd] in H. unfold generated_ok in H.
    by destruct (generate_special_texture files k d). }
  destruct (fill_kinds_spec files (elements special_blocks) ∅) as (m & Hm & Hlook).
  { apply special_blocks_mapped. }
  { intros k d Hk Hd. apply Hret. split; [by apply elem_of_elements | done]. }
  exists m. split; [exact Hm|]. intros k d.
  specialize (Hlook (k, d)). cbn [fst snd] in Hlook.
  assert (Hdec : (k ∈ elements special_blocks ∧ d ∈ states k) ↔ declared (k, d)).
  { unfold declared. cbn [fst snd]. by rewrite elem_of_elements. }
  split.
  - intros Hd. rewrite decide_True in Hlook by (by apply Hdec).
    destruct (is_ret_value _ (Hret k d Hd)) as (v & Hv).
    exists v. split; [exact Hv|]. by rewrite Hlook, Hv.
  - intros Hnd. rewrite decide_False in Hlook by (by rewrite Hdec).
    rewrite Hlook. apply lookup_empty.
Qed.

End Generator.
(** ** Properties of the biome data cache *)

Section BiomeProperties.
Context (path_join : list string → string).

Lemma be16_words_spec (n : nat) :
  ∀ rawdata, (length rawdata ≤ n)%nat →
    Z.of_nat (length (be16_words rawdata)) = Z.of_nat (length rawdata) / 2 ∧
    Forall (λ v, 0 ≤ v < 65536) (be16_words rawdata) ∧
    ∀ (i : nat) hi lo,
      rawdata !! (2 * i)%nat = Some hi → rawdata !! (2 * i + 1)%nat = Some lo →
      be16_words rawdata !! i =
        Some (256 * Z.of_N (Byte.to_N hi) + Z.of_N (Byte.to_N lo)).
Proof.
  induction n as [|n IH]; intros rawdata Hn.
  - destruct rawdata; [|cbn in Hn; lia]. cbn. split; [reflexivity|].
    split; [constructor|]. intros i hi lo H. apply lookup_lt_Some in H. cbn in H. lia.
  - destruct rawdata as [|hi [|lo rest]].
    + cbn. split; [reflexivity|]. split; [constructor|].
      intros i hi lo H. apply lookup_lt_Some in H. cbn in H. lia.
    + cbn. split; [reflexivity|]. split; [constructor|].
      intros i hi' lo' _ H. apply lookup_lt_Some in H. cbn in H. lia.
    + destruct (IH rest) as (Hlen & Hall & Hget); [cbn in Hn; lia|].
      cbn [be16_words length]. split; [|split].
      * rewrite !Nat2Z.inj_succ, Hlen.
        replace (Z.succ (Z.succ (Z.of_nat (length rest))))
          with (1 * 2 + Z.of_nat (length rest)) by lia.
        rewrite Z.div_add_l by lia. lia.
      * constructor; [|exact Hall].
        pose proof (Byte.to_N_bounded hi). pose proof (Byte.to_N_bounded lo). lia.
      * intros [|i] hi' lo' H0 H1.
        -- cbn in H0, H1. by simplify_eq.
        -- replace (2 * S i)%nat with (S (S (2 * i))) in H0 by lia.
           replace (2 * S i + 1)%nat with (S (S (2 * i + 1))) in H1 by lia.
           cbn in H0, H1. cbn. by apply Hget.
Qed.

(** X18.  A biome file of 512 * 512 * 2 bytes that is not the cached one
    is decoded into 512 * 512 numbers below 65536, the number at index [i]
    being byte [2 i] times 256 plus byte [2 i + 1]; the file name and the
    numbers become the cache. *)
Theorem biome_data_decoded read_file worlddir chunkX chunkY cache rawdata :
  Some (biome_file_name chunkX chunkY) ≠ currentBiomeFile cache →
  read_file (path_join [worlddir; "biomes"; biome_file_name chunkX chunkY]) = Some rawdata →
  Z.of_nat (length rawdata) = 512 * 512 * 2 →
  ∃ data,
    getBiomeData path_join read_file worlddir chunkX chunkY cache =
      Ret (Some data, mkBiomeCache (Some (biome_file_name chunkX chunkY)) (Some data)) ∧
    Z.of_nat (length data) = 512 * 512 ∧
    Forall (λ v, 0 ≤ v < 65536) data ∧
    ∀ (i : nat) hi lo,
      rawdata !! (2 * i)%nat = Some hi → rawdata !! (2 * i + 1)%nat = Some lo →
      data !! i = Some (256 * Z.of_N (Byte.to_N hi) + Z.of_N (Byte.to_N lo)).
Proof.
  intros Hmiss Hread Hlen. exists (be16_words rawdata).
  destruct (be16_words_spec (length rawdata) rawdata) as (Hl & Hall & Hget); [lia|].
  split; [|split; [|split]]; try assumption.
  - unfold getBiomeData, frombuffer_be16. rewrite bool_decide_eq_false_2 by exact Hmiss.
    rewrite Hread, Hlen. reflexivity.
  - rewrite Hl, Hlen. reflexivity.
Qed.

(** X19.  A biome file of any other size raises the plain Exception of
    the size test ([IOError] is all the [try] catches), before the globals
    are assigned: the cache is not touched, and the next call reads the
    file again. *)
Theorem biome_file_wrong_size read_file worlddir chunkX chunkY cache rawdata :
  Some (biome_file_name chunkX chunkY) ≠ currentBiomeFile cache →
  read_file (path_join [worlddir; "biomes"; biome_file_name chunkX chunkY]) = Some rawdata →
  Z.of_nat (length rawdata) ≠ 512 * 512 * 2 →
  getBiomeData path_join read_file worlddir chunkX chunkY cache = Raise Exception.
Proof.
  intros Hmiss Hread Hlen. unfold getBiomeData.
  rewrite bool_decide_eq_false_2 by exact Hmiss. rewrite Hread.
  apply Z.eqb_neq in Hlen. rewrite Hlen. reflexivity.
Qed.

(** X20.  The cache is keyed by the file name alone.  After a call that
    returned, a call for any chunk of the same 32x32 region returns the
    same data and reads no file, whatever world directory it names and
    whatever the files hold by then; this includes the [None] kept for a
    region whose file could not be opened. *)
Theorem biome_cache_is_stale read_file read_file' worlddir worlddir'
    chunkX chunkY chunkX' chunkY' cache data cache' :
  getBiomeData path_join read_file worlddir chunkX chunkY cache = Ret (data, cache') →
  chunkX' / 32 = chunkX / 32 → chunkY' / 32 = chunkY / 32 →
  getBiomeData path_join read_file' worlddir' chunkX' chunkY' cache' = Ret (data, cache').
Proof.
  intros Hfirst Hx Hy.
  assert (Hname : biome_file_name chunkX' chunkY' = biome_file_name chunkX chunkY)
    by (unfold biome_file_name; rewrite Hx, Hy; reflexivity).
  assert (Hc : currentBiomeFile cache' = Some (biome_file_name chunkX chunkY) ∧
               currentBiomeData cache' = data).
  { unfold getBiomeData in Hfirst. case_bool_decide as Hhit.
    - injection Hfirst as <- <-. split; [by symmetry | reflexivity].
    - destruct (read_file _) as [raw|]; cbn in Hfirst.
      + destruct (negb _); cbn in Hfirst; [discriminate|].
        destruct (frombuffer_be16 raw); cbn in Hfirst; [|discriminate].
        injection Hfirst as <- <-. split; reflexivity.
      + injection Hfirst as <- <-. split; reflexivity. }
  destruct Hc as [Hfile Hdata]. unfold getBiomeData.
  rewrite Hname, bool_decide_eq_true_2 by (by symmetry). rewrite Hdata. reflexivity.
Qed.

Lemma pretty_N_go_dotfree x s : dotfree s → dotfree (pretty_N_go x s).
Proof.
  revert s. induction (N.lt_wf_0 x) as [x _ IH]; intros s Hs.
  assert (x = 0 ∨ 0 < x)%N as [-> | Hx] by lia.
  - by rewrite pretty_N_go_0.
  - rewrite pretty_N_go_step by done. apply IH; [by apply N.div_lt|].
    split; [|exact Hs]. unfold pretty_N_char. by repeat case_match.
Qed.

Lemma pretty_Z_dotfree (z : Z) : dotfree (pretty z).
Proof.
  assert (HN : ∀ n : N, dotfree (pretty n)).
  { intros n. unfold pretty, pretty_N. case_decide; [by split|].
    by apply pretty_N_go_dotfree. }
  destruct z as [|p|p]; [by split | apply HN | split; [done | apply HN] ].
Qed.

Lemma dotfree_split s1 s2 r1 r2 :
  dotfree s1 → dotfree s2 →
  s1 +:+ String "." r1 = s2 +:+ String "." r2 → s1 = s2 ∧ r1 = r2.
Proof.
  revert s2. induction s1 as [|c s1 IH]; intros [|c' s2] H1 H2 Heq; cbn in *.
  - by injection Heq as ->.
  - injection Heq as <- _. by destruct H2.
  - injection Heq as -> _. by destruct H1.
  - injection Heq as -> Heq. destruct H1 as [_ H1], H2 as [_ H2].
    destruct (IH s2 H1 H2 Heq) as [-> ->]. done.
Qed.

(** Two chunks get the same file name exactly when they lie in the same
    region. *)
Lemma biome_file_name_inj x y x' y' :
  biome_file_name x y = biome_file_name x' y' ↔ x / 32 = x' / 32 ∧ y / 32 = y' / 32.
Proof.
  split.
  - unfold biome_file_name. intros Heq. cbn in Heq. injection Heq as Heq.
    apply dotfree_split in Heq as [Hx Heq]; [|apply pretty_Z_dotfree..].
    apply dotfree_split in Heq as [Hy _]; [|apply pretty_Z_dotfree..].
    split; by apply (inj pretty).
  - intros [Hx Hy]. unfold biome_file_name. by rewrite Hx, Hy.
Qed.

(** X21.  With the file of the region of [(regionX, regionY)] in the
    cache, a call is answered from the cache exactly for the chunks of that
    region (floor division by 32, so the chunks -32..-1 form one region
    and 0..31 the next); for every other chunk the call does what it does
    on an empty cache. *)
Theorem biome_cache_region read_file worlddir chunkX chunkY regionX regionY data :
  let cache := mkBiomeCache (Some (biome_file_name regionX regionY)) data in
  (chunkX / 32 = regionX / 32 ∧ chunkY / 32 = regionY / 32 →
   getBiomeData path_join read_file worlddir chunkX chunkY cache = Ret (data, cache)) ∧
  (¬ (chunkX / 32 = regionX / 32 ∧ chunkY / 32 = regionY / 32) →
   getBiomeData path_join read_file worlddir chunkX chunkY cache =
   getBiomeData path_join read_file worlddir chunkX chunkY (mkBiomeCache None None)).
Proof.
  intros cache. split; intros H; unfold getBiomeData; cbn [currentBiomeFile].
  - rewrite bool_decide_eq_true_2; [reflexivity|].
    subst cache. cbn. f_equal. by apply biome_file_name_inj.
  - subst cache. cbn [currentBiomeFile].
    rewrite (bool_decide_eq_false_2 (Some _ = Some _)).
    + rewrite (bool_decide_eq_false_2 (Some _ = None)) by done. reflexivity.
    + intros Heq. apply H. apply biome_file_name_inj. congruence.
Qed.

End BiomeProperties.

(** ** The hypotheses are met: the theorems on the sample back end *)

#[local] Existing Instance Sample.kernels.


(** C7 at the tile (10, 200, 30, 77) and the grass green. *)
Lemma tintTexture_alpha_witness :
  im_mode (Sample.flat 10 200 30 77) = RGBA ∧
  ∃ i, tintTexture (K := Sample.kernels) (Sample.flat 10 200 30 77) (115, 175, 71) = Ret i ∧
    im_mode i = RGBA ∧ im_size i = im_size (Sample.flat 10 200 30 77) ∧
    ∀ x y, alpha_of (im_px i x y) = alpha_of (im_px (Sample.flat 10 200 30 77) x y).
Proof.
  split; [reflexivity|].
  apply (tintTexture_alpha (K := Sample.kernels) (Sample.flat 10 200 30 77) (115, 175, 71)).
  reflexivity.
Defined.

(** C4 at the stone kind (1) and a translucent side tile. *)
Lemma build_block_sides_mirrored_witness :
  im_mode (Sample.flat 90 80 70 200) = RGBA ∧
  ∃ sheared left right,
    transform_image_side (K := Sample.kernels) (Sample.flat 90 80 70 200) (Some 1) =
      Ret sheared ∧
    _build_block_sides (K := Sample.kernels) (Sample.flat 90 80 70 200) (Some 1) =
      Ret (left, right) ∧
    im_size left = (12, 18) ∧ im_size right = (12, 18) ∧
    let mirrored := PIL.transpose sheared FLIP_LEFT_RIGHT in
    ∀ x y,
      im_px mirrored x y = im_px sheared (11 - x) y ∧
      rgb_of (im_px left x y) =
      darkened (K := Sample.kernels) 0.9 (rgb_of (im_px sheared x y)) ∧
      alpha_of (im_px left x y) = alpha_of (im_px sheared x y) ∧
      rgb_of (im_px right x y) =
      darkened (K := Sample.kernels) 0.8 (rgb_of (im_px mirrored x y)) ∧
      alpha_of (im_px right x y) = alpha_of (im_px mirrored x y).
Proof.
  split; [reflexivity|].
  apply (build_block_sides_mirrored (K := Sample.kernels) (Sample.flat 90 80 70 200) (Some 1)).
  reflexivity.
Defined.

(** C5 at the stone kind (1). *)
Lemma build_block_seams_witness :
  in_ints (Some 1) [37; 38; 6; 39; 40; 83; 81; 44; 78] = false ∧
  (im_mode (Sample.flat 1 2 3 255) = RGBA → im_mode (Sample.flat 90 80 70 200) = RGBA →
   ∃ img, _build_block (K := Sample.kernels) (Sample.flat 1 2 3 255)
            (Some (Sample.flat 90 80 70 200)) (Some 1) = Ret img) ∧
  (∀ img, _build_block (K := Sample.kernels) (Sample.flat 1 2 3 255)
            (Some (Sample.flat 90 80 70 200)) (Some 1) = Ret img →
     im_size img = (24, 24) ∧
     PIL.getpixel img (13, 23) = PIL.getpixel img (12, 23) ∧
     PIL.getpixel img (17, 21) = PIL.getpixel img (16, 21) ∧
     PIL.getpixel img (21, 19) = PIL.getpixel img (20, 19) ∧
     PIL.getpixel img (3, 4) = PIL.getpixel img (4, 4) ∧
     PIL.getpixel img (7, 2) = PIL.getpixel img (8, 2) ∧
     PIL.getpixel img (11, 0) = PIL.getpixel img (12, 0) ∧
     is_ret (PIL.getpixel img (13, 23)) = true).
Proof.
  split; [reflexivity|].
  apply (build_block_seams (K := Sample.kernels) (Sample.flat 1 2 3 255)
           (Sample.flat 90 80 70 200) (Some 1)); reflexivity.
Defined.

(** C2 at the torch (50) with state 0. *)
Lemma torch_outside_domain_witness :
  (50 = 50 ∨ 50 = 75 ∨ 50 = 76) ∧ ¬ (1 ≤ 0 ≤ 5) ∧
  (∃ e, generate_special_texture (K := Sample.kernels) Sample.files 50 0 = Raise e) ∧
  (im_mode (terrain_png Sample.files) = RGBA →
   generate_special_texture (K := Sample.kernels) Sample.files 50 0 =
   Raise UnboundLocalError).
Proof.
  split; [left; reflexivity|]. split; [lia|].
  apply (torch_outside_domain (K := Sample.kernels) Sample.files 50 0); [left; reflexivity | lia].
Defined.

(** C6 at the state 0b1010. *)
Lemma redstone_straight_bottom_witness :
  im_mode (terrain_png Sample.files) = RGBA ∧
  Z.land 10 64 ≠ 64 ∧
  (Z.land 10 15 = 10 ∨ Z.land 10 15 = 5) ∧
  ∃ tile wire cross,
    getitem (terrain_images (K := Sample.kernels) Sample.files) 165 = Ret tile ∧
    tintTexture (K := Sample.kernels) tile (48, 0, 0) = Ret wire ∧
    redstone_tiles (K := Sample.kernels) Sample.files 10 = Ret (wire, cross) ∧
    (Z.land 10 15 = 10 → redstone_bottom (K := Sample.kernels) wire cross 10 = Ret wire) ∧
    (Z.land 10 15 = 5 →
     redstone_bottom (K := Sample.kernels) wire cross 10 =
     Ret (PIL.rotate wire 90 NEAREST)) ∧
    generate_special_texture (K := Sample.kernels) Sample.files 55 10 =
      (bottom ← redstone_bottom wire cross 10;
       img ← _build_full_block None
               (if Z.land 10 32 =? 32 then Some (PIL.rotate wire 90 NEAREST) else None)
               (if Z.land 10 16 =? 16 then Some (PIL.rotate wire 90 NEAREST) else None)
               None None (Some bottom) None;
       returns img).
Proof.
  split; [reflexivity|]. split; [discriminate|]. split; [left; reflexivity|].
  apply (redstone_straight_bottom (K := Sample.kernels) Sample.files 10);
    [reflexivity | discriminate | left; reflexivity].
Defined.

(** C1 on the sample files. *)
Lemma special_cache_wood_3_witness :
  files_rgba Sample.files ∧
  declared (17, 3) ∧
  generate_special_texture (K := Sample.kernels) Sample.files 17 3 = Ret None ∧
  ∃ m, specialblockmap (K := Sample.kernels) Sample.files = Ret m ∧ m !! (17, 3) = Some None.
Proof.
  split; [repeat split|].
  apply (special_cache_wood_3 (K := Sample.kernels) Sample.files). repeat split.
Defined.

(** C10 on the sample files. *)
Lemma blockmap_water_lava_witness :
  im_mode (terrain_png Sample.files) = RGBA ∧
  im_mode (water_png Sample.files) = RGBA ∧
  im_mode (lava_png Sample.files) = RGBA ∧
  ∃ h slots w1 w2 lavablock r9 r8 r10,
    blockmap (K := Sample.kernels) Sample.files = Ret (h, slots) ∧
    _build_block (K := Sample.kernels) (water_png Sample.files) None None = Ret w1 ∧
    _build_block (K := Sample.kernels) (water_png Sample.files)
      (Some (water_png Sample.files)) None = Ret w2 ∧
    _build_block (K := Sample.kernels) (lava_png Sample.files)
      (Some (lava_png Sample.files)) None = Ret lavablock ∧
    im_mode w1 = RGBA ∧ im_mode w2 = RGBA ∧ im_mode lavablock = RGBA ∧
    slots !! 9%nat = Some (Some r9) ∧ h !! r9 = Some (PIL.convert w1 RGB, w1) ∧
    slots !! 8%nat = Some (Some r8) ∧ h !! r8 = Some (PIL.convert w2 RGB, w2) ∧
    slots !! 10%nat = Some (Some r10) ∧
    h !! r10 = Some (PIL.convert lavablock RGB, lavablock) ∧
    slots !! 11%nat = Some (Some r10) ∧
    ∀ k r s, k ∉ [8; 9; 10; 11]%nat → slots !! k = Some (Some r) → h !! r = Some s →
      alpha_band_tuple (K := Sample.kernels) s ∧ im_mode s.2 = L.
Proof.
  split; [reflexivity|]. split; [reflexivity|]. split; [reflexivity|].
  apply (blockmap_water_lava (K := Sample.kernels) Sample.files); reflexivity.
Defined.

(** ** The further properties on the sample back end *)

(** X1 at row 1, column 2 of the sample atlas. *)
Lemma split_terrain_cells_witness :
  0 ≤ 1 < 16 ∧ 0 ≤ 2 < 16 ∧
  let r := (im_size Sample.atlas).1 / 16 in
  length (_split_terrain Sample.atlas) = 256%nat ∧
  getitem (_split_terrain Sample.atlas) (1 * 16 + 2) =
    Ret (PIL.transform_extent Sample.atlas (16, 16)
           (2 * r, 1 * r, 2 * r + r, 1 * r + r) BICUBIC).
Proof.
  split; [lia|]. split; [lia|].
  apply (split_terrain_cells (K := Sample.kernels) Sample.atlas 1 2); lia.
Defined.

(** X2 on the sample files. *)
Lemma blockimages_slots_witness :
  im_mode (terrain_png Sample.files) = RGBA ∧
  ∃ h slots,
    _build_blockimages Sample.files = Ret (h, slots) ∧ length slots = 256%nat ∧
    (∀ (k : nat) t s, topids !! k = Some t → sideids !! k = Some s →
       (t = -1 ∨ s = -1 → slots !! k = Some None) ∧
       (t ≠ -1 → s ≠ -1 →
        ∃ r toptexture sidetexture img,
          getitem (terrain_images Sample.files) t = Ret toptexture ∧
          getitem (terrain_images Sample.files) s = Ret sidetexture ∧
          _build_block toptexture (Some sidetexture) (Some (Z.of_nat k)) = Ret img ∧
          slots !! k = Some (Some r) ∧
          h !! r = Some (PIL.convert img RGB, PIL.band img 3))) ∧
    (∀ k : nat, (length topids ≤ k < 256)%nat → slots !! k = Some None).
Proof.
  split; [reflexivity|].
  apply (blockimages_slots (K := Sample.kernels) Sample.files). reflexivity.
Defined.

(** X3 on the sample files with the alpha band of the atlas dropped. *)
Lemma atlas_without_alpha_witness :
  let files :=
    {| terrain_png := mkImage RGB (256, 256) (im_px Sample.atlas);
       water_png := water_png Sample.files;
       lava_png := lava_png Sample.files;
       fire_png := fire_png Sample.files |} in
  im_mode (terrain_png files) ≠ RGBA ∧
  _build_blockimages files = Raise IndexError ∧
  blockmap files = Raise IndexError ∧
  biome_grass_texture files = Raise IndexError ∧
  biome_leaf_texture files = Raise IndexError ∧
  specialblockmap files = Raise IndexError.
Proof.
  intros files. split; [discriminate|].
  apply (atlas_without_alpha (K := Sample.kernels) files). discriminate.
Defined.

(** X6 at the rose (38). *)
Lemma build_block_sprite_ignores_top_witness :
  in_ints (Some 38) [37; 38; 6; 39; 40; 83] = true ∧
  _build_block (Sample.flat 1 2 3 255) (Some (Sample.flat 90 80 70 200)) (Some 38) =
  _build_block (Sample.flat 200 100 50 10) (Some (Sample.flat 90 80 70 200)) (Some 38).
Proof.
  split; [reflexivity|].
  apply (build_block_sprite_ignores_top (K := Sample.kernels)). reflexivity.
Defined.

(** X9 on the sample files. *)
Lemma biome_textures_built_witness :
  im_mode (terrain_png Sample.files) = RGBA ∧
  ∃ t0 t3 t52 grass leaf,
    getitem (terrain_images Sample.files) 0 = Ret t0 ∧
    getitem (terrain_images Sample.files) 3 = Ret t3 ∧
    getitem (terrain_images Sample.files) 52 = Ret t52 ∧
    biome_grass_texture Sample.files = Ret grass ∧
    _build_block t0 (Some t3) (Some 2) = Ret grass ∧
    biome_leaf_texture Sample.files = Ret leaf ∧
    _build_block t52 (Some t52) (Some 18) = Ret leaf ∧
    im_mode grass = RGBA ∧ im_size grass = (24, 24) ∧
    im_mode leaf = RGBA ∧ im_size leaf = (24, 24).
Proof.
  split; [reflexivity|].
  apply (biome_textures_built (K := Sample.kernels) Sample.files). reflexivity.
Defined.

(** X10 at the dispenser (23), states 0 and 5. *)
Lemma stateless_kinds_witness :
  23 ∈ [2; 18; 23; 51; 58; 61; 62; 86; 91; 92] ∧
  generate_special_texture Sample.files 23 0 = generate_special_texture Sample.files 23 5.
Proof.
  assert (H : 23 ∈ [2; 18; 23; 51; 58; 61; 62; 86; 91; 92])
    by (apply (bool_decide_unpack _); vm_compute; exact I).
  split; [exact H|].
  apply (stateless_kinds (K := Sample.kernels) Sample.files 23 0 5 H).
Defined.

(** X12 at the detector rail (28) with state 12. *)
Lemma rails_fallback_witness :
  (28 = 28 ∨ 28 = 66) ∧ ¬ (0 ≤ 12 ≤ 9) ∧
  generate_special_texture Sample.files 28 12 = generate_special_texture Sample.files 28 0.
Proof.
  split; [left; reflexivity|]. split; [lia|].
  apply (rails_fallback (K := Sample.kernels) Sample.files 28 12); [left; reflexivity | lia].
Defined.

(** X13 at the state 3. *)
Lemma saplings_default_witness :
  3 ≠ 2 ∧
  generate_special_texture Sample.files 6 3 = generate_special_texture Sample.files 6 0.
Proof.
  split; [lia|]. apply (saplings_default (K := Sample.kernels) Sample.files 3). lia.
Defined.

(** X15 at the wooden stairs (53) with state 4. *)
Lemma stairs_outside_domain_witness :
  (53 = 53 ∨ 53 = 67) ∧ ¬ (0 ≤ 4 ≤ 3) ∧
  generate_special_texture Sample.files 53 4 = Raise UnboundLocalError.
Proof.
  split; [left; reflexivity|]. split; [lia|].
  apply (stairs_outside_domain (K := Sample.kernels) Sample.files 53 4);
    [left; reflexivity | lia].
Defined.

(** X16 on the sample files, at the fence (85) with state -3. *)
Lemma generate_outcome_witness :
  files_rgba Sample.files ∧
  outcome_of (generate_special_texture Sample.files 85 (-3)) = expected_outcome 85 (-3).
Proof.
  split; [repeat split|].
  apply (generate_outcome (K := Sample.kernels) Sample.files 85 (-3)). repeat split.
Defined.

(** X17 on the sample files. *)
Lemma special_cache_agrees_witness :
  files_rgba Sample.files ∧
  ∃ m, specialblockmap Sample.files = Ret m ∧
    ∀ k d,
      (declared (k, d) →
       ∃ v, generate_special_texture Sample.files k d = Ret v ∧ m !! (k, d) = Some v) ∧
      (¬ declared (k, d) → m !! (k, d) = None).
Proof.
  split; [repeat split|].
  apply (special_cache_agrees (K := Sample.kernels) Sample.files). repeat split.
Defined.

(** X18 on a file of 524288 bytes 1, read for the chunk (40, -3) on an
    empty cache. *)
Lemma biome_data_decoded_witness :
  let path_join := String.concat "/" in
  let rawdata := replicate (Z.to_nat (512 * 512 * 2)) Byte.x01 in
  let read_file := λ _ : string, Some rawdata in
  let cache := mkBiomeCache None None in
  Some (biome_file_name 40 (-3)) ≠ currentBiomeFile cache ∧
  read_file (path_join ["world"; "biomes"; biome_file_name 40 (-3)]) = Some rawdata ∧
  Z.of_nat (length rawdata) = 512 * 512 * 2 ∧
  ∃ data,
    getBiomeData path_join read_file "world" 40 (-3) cache =
      Ret (Some data, mkBiomeCache (Some (biome_file_name 40 (-3))) (Some data)) ∧
    Z.of_nat (length data) = 512 * 512 ∧
    Forall (λ v, 0 ≤ v < 65536) data ∧
    ∀ (i : nat) hi lo,
      rawdata !! (2 * i)%nat = Some hi → rawdata !! (2 * i + 1)%nat = Some lo →
      data !! i = Some (256 * Z.of_N (Byte.to_N hi) + Z.of_N (Byte.to_N lo)).
Proof.
  intros path_join rawdata read_file cache.
  assert (Hlen : Z.of_nat (length rawdata) = 512 * 512 * 2)
    by (unfold rawdata; rewrite length_replicate; lia).
  split; [discriminate|]. split; [reflexivity|]. split; [exact Hlen|].
  apply (biome_data_decoded path_join read_file "world" 40 (-3) cache rawdata);
    [discriminate | reflexivity | exact Hlen].
Defined.

(** X19 on an empty file. *)
Lemma biome_file_wrong_size_witness :
  let path_join := String.concat "/" in
  let read_file := λ _ : string, Some [] in
  let cache := mkBiomeCache None None in
  Some (biome_file_name 40 (-3)) ≠ currentBiomeFile cache ∧
  read_file (path_join ["world"; "biomes"; biome_file_name 40 (-3)]) = Some [] ∧
  Z.of_nat (length (@nil Byte.byte)) ≠ 512 * 512 * 2 ∧
  getBiomeData path_join read_file "world" 40 (-3) cache = Raise Exception.
Proof.
  intros path_join read_file cache.
  split; [discriminate|]. split; [reflexivity|]. split; [discriminate|].
  apply (biome_file_wrong_size path_join read_file "world" 40 (-3) cache []);
    [discriminate | reflexivity | discriminate].
Defined.

(** X20: the region of the chunk (33, -1) has no file when it is first
    asked for; the chunk (40, -20) of the same region still gets [None]
    once the file exists, and from another world directory. *)
Lemma biome_cache_is_stale_witness :
  let path_join := String.concat "/" in
  let cache' := mkBiomeCache (Some (biome_file_name 33 (-1))) None in
  getBiomeData path_join (λ _, None) "world" 33 (-1) (mkBiomeCache None None) =
    Ret (None, cache') ∧
  40 / 32 = 33 / 32 ∧ -20 / 32 = -1 / 32 ∧
  getBiomeData path_join (λ _, Some []) "other" 40 (-20) cache' = Ret (None, cache').
Proof.
  intros path_join cache'.
  assert (H : getBiomeData path_join (λ _, None) "world" 33 (-1) (mkBiomeCache None None) =
              Ret (None, cache')) by reflexivity.
  split; [exact H|]. split; [reflexivity|]. split; [reflexivity|].
  apply (biome_cache_is_stale path_join (λ _, None) (λ _, Some []) "world" "other"
           33 (-1) 40 (-20) (mkBiomeCache None None) None cache' H); reflexivity.
Defined.
